(** * Checkov VS Code extension: scan orchestration and version validation

    A shallow embedding of [src/extension.ts] (the [activate] closure with
    its command handlers, editor-event handlers and the debounced [runScan])
    and of [src/configuration.ts] ([assureTokenSet], [getCheckovVersion] and
    the configuration getters).

    How the host is modelled:
    - a string is a sequence of UTF-16 code units below 256, a character
      standing for the code unit of its number (U+0000 to U+00FF); [trim]
      and [toLowerCase] are the JavaScript methods on these strings, and
      strings with a code unit above U+00FF are outside the model;
    - [vscode.commands.executeCommand] runs a command of the extension
      at once, inside the handler that executes it;
    - an [await] splits a handler in two: what runs up to it, and a
      continuation that runs when an event reports that the promise has
      settled;
    - [debounce(f, 300, {})] of lodash invokes [f] on the trailing edge
      only, with the arguments of the last call, 300 ms after that call;
    - writes of the temporary file settle in the order they were issued,
      and the file has its new content when the write settles. *)

From Stdlib Require Import String Ascii List Bool Arith NArith Lia.
From Stdlib Require Import DecimalString DecimalN DecimalFacts.
From Stdlib Require Import Sorting.Sorted Sorting.Permutation.
From stdpp Require Import base option gmap strings.
Import ListNotations.

Open Scope string_scope.

(** ** JavaScript string primitives used by the source *)

Module JsString.

(** White space removed by [String.prototype.trim]: the WhiteSpace and
    LineTerminator code points.  Below 256 these are TAB, LF, VT, FF, CR,
    SPACE and NO-BREAK SPACE (U+00A0); the others (U+1680, U+2000 to
    U+200A, U+2028, U+2029, U+202F, U+205F, U+3000, U+FEFF) are above the
    code units of the model. *)
Definition is_white_space (c : ascii) : bool :=
  let n := nat_of_ascii c in
  (((9 <=? n) && (n <=? 13)) || (n =? 32) || (n =? 160))%nat.

Fixpoint trimStart (s : string) : string :=
  match s with
  | EmptyString => EmptyString
  | String c r => if is_white_space c then trimStart r else s
  end.

(** [trimEnd] drops the longest white-space suffix: a character is
    dropped exactly when it is white space and everything after it has
    been dropped. *)
Fixpoint trimEnd (s : string) : string :=
  match s with
  | EmptyString => EmptyString
  | String c r =>
      match trimEnd r with
      | EmptyString => if is_white_space c then EmptyString else String c EmptyString
      | r' => String c r'
      end
  end.

Definition trim (s : string) : string := trimEnd (trimStart s).

(** [String.prototype.toLowerCase] on one code unit below 256: the
    letters A to Z, and the Latin-1 capitals U+00C0 to U+00DE without the
    multiplication sign U+00D7, are moved up by 32; every other code unit
    below 256 is its own lower case. *)
Definition lower_char (c : ascii) : ascii :=
  let n := nat_of_ascii c in
  if (((65 <=? n) && (n <=? 90))
      || ((192 <=? n) && (n <=? 222) && negb (n =? 215)))%nat
  then ascii_of_nat (n + 32) else c.

Fixpoint toLowerCase (s : string) : string :=
  match s with
  | EmptyString => EmptyString
  | String c r => String (lower_char c) (toLowerCase r)
  end.

Fixpoint startsWith (p s : string) : bool :=
  match p, s with
  | EmptyString, _ => true
  | String a p', String b s' => Ascii.eqb a b && startsWith p' s'
  | String _ _, EmptyString => false
  end.

(** [s.includes(sub)]: [sub] occurs somewhere in [s]. *)
Fixpoint includes (s sub : string) : bool :=
  startsWith sub s ||
  match s with
  | EmptyString => false
  | String _ r => includes r sub
  end.

(** [s.split(sep)] for a one-character separator. *)
Fixpoint split (sep : ascii) (s : string) : list string :=
  match s with
  | EmptyString => [EmptyString]
  | String c r =>
      if Ascii.eqb c sep then EmptyString :: split sep r
      else match split sep r with
           | [] => [String c EmptyString]
           | h :: t => String c h :: t
           end
  end.

(** [parts.join(sep)]. *)
Fixpoint join (sep : string) (parts : list string) : string :=
  match parts with
  | [] => EmptyString
  | [p] => p
  | p :: rest => p ++ sep ++ join sep rest
  end.

(** The text before the first occurrence of [sep], and the text after it
    when there is one. *)
Fixpoint cut (sep : ascii) (s : string) : string * option string :=
  match s with
  | EmptyString => (EmptyString, None)
  | String c r =>
      if Ascii.eqb c sep then (EmptyString, Some r)
      else let '(a, b) := cut sep r in (String c a, b)
  end.

Fixpoint all_chars (p : ascii -> bool) (s : string) : bool :=
  match s with
  | EmptyString => true
  | String c r => p c && all_chars p r
  end.

Fixpoint some_char (p : ascii -> bool) (s : string) : bool :=
  match s with
  | EmptyString => false
  | String c r => p c || some_char p r
  end.

End JsString.

(** ** The [semver] package, as far as [getCheckovVersion] uses it

    [valid], [clean] and [satisfies] in strict mode (no [loose] option, no
    [includePrerelease]).  The grammar is the one of the package's [FULL]
    regular expression: an optional [v]; three numeric identifiers
    separated by dots; optionally [-] and dot-separated prerelease
    identifiers; optionally [+] and dot-separated build identifiers.  A
    numeric identifier is [0] or digits without a leading zero; a
    prerelease identifier is a numeric identifier, or a non-empty run of
    letters, digits and hyphens with at least one non-digit; a build
    identifier is a non-empty run of letters, digits and hyphens. *)

Module Semver.
Import JsString.

Definition MAX_LENGTH : nat := 256.
Definition MAX_SAFE_INTEGER : N := 9007199254740991%N.

Definition is_digit (c : ascii) : bool :=
  let n := nat_of_ascii c in ((48 <=? n) && (n <=? 57))%nat.

Definition is_letter (c : ascii) : bool :=
  let n := nat_of_ascii c in
  (((65 <=? n) && (n <=? 90)) || ((97 <=? n) && (n <=? 122)))%nat.

Definition is_ident_char (c : ascii) : bool :=
  is_digit c || is_letter c || Ascii.eqb c "-".

(** [0], or digits that do not start with [0]. *)
Definition numeric_identifier (s : string) : bool :=
  match s with
  | EmptyString => false
  | String c r =>
      all_chars is_digit s && (negb (Ascii.eqb c "0") || String.eqb r "")
  end.

(** Letters, digits and hyphens, not all of them digits. *)
Definition non_numeric_identifier (s : string) : bool :=
  all_chars is_ident_char s && some_char (fun c => negb (is_digit c)) s.

Definition prerelease_identifier (s : string) : bool :=
  numeric_identifier s || non_numeric_identifier s.

(** A non-empty run of letters, digits and hyphens. *)
Definition build_identifier (s : string) : bool :=
  negb (String.eqb s "") && all_chars is_ident_char s.

(** The numeric value of a string of decimal digits ([+id]). *)
Definition to_number (s : string) : option N :=
  match NilEmpty.uint_of_string s with
  | Some d => Some (N.of_uint d)
  | None => None
  end.

(** Decimal rendering of a number inside a template string. *)
Definition number_to_string (n : N) : string :=
  NilEmpty.string_of_uint (N.to_uint n).

(** A prerelease identifier is kept as a number when it is all digits
    and below [MAX_SAFE_INTEGER], as a string otherwise. *)
Inductive Identifier : Type :=
| IdNum (n : N)
| IdStr (s : string).

Record SemVer : Type := mkSemVer {
  major : N;
  minor : N;
  patch : N;
  prerelease : list Identifier;
  build : list string
}.

Definition identifier_of_string (id : string) : Identifier :=
  if all_chars is_digit id && negb (String.eqb id "") then
    match to_number id with
    | Some num => if (num <? MAX_SAFE_INTEGER)%N then IdNum num else IdStr id
    | None => IdStr id
    end
  else IdStr id.

Definition identifier_to_string (i : Identifier) : string :=
  match i with
  | IdNum n => number_to_string n
  | IdStr s => s
  end.

(** The three numeric components; a component above
    [MAX_SAFE_INTEGER] makes the constructor throw. *)
Definition parse_main (s : string) : option (N * N * N) :=
  match split "." s with
  | [a; b; c] =>
      if numeric_identifier a && numeric_identifier b && numeric_identifier c then
        match to_number a, to_number b, to_number c with
        | Some x, Some y, Some z =>
            if ((x <=? MAX_SAFE_INTEGER) && (y <=? MAX_SAFE_INTEGER)
                && (z <=? MAX_SAFE_INTEGER))%N
            then Some (x, y, z) else None
        | _, _, _ => None
        end
      else None
  | _ => None
  end.

Definition parse_prerelease (o : option string) : option (list Identifier) :=
  match o with
  | None => Some []
  | Some p =>
      let ids := split "." p in
      if forallb prerelease_identifier ids
      then Some (map identifier_of_string ids) else None
  end.

Definition parse_build (o : option string) : option (list string) :=
  match o with
  | None => Some []
  | Some b =>
      let ids := split "." b in
      if forallb build_identifier ids then Some ids else None
  end.

(** The version after the optional [v]. *)
Definition parse_plain (body : string) : option SemVer :=
  let '(main_pre, build_part) := cut "+" body in
  let '(main, pre_part) := cut "-" main_pre in
  match parse_main main, parse_prerelease pre_part, parse_build build_part with
  | Some (x, y, z), Some pre, Some bld => Some (mkSemVer x y z pre bld)
  | _, _, _ => None
  end.

Definition strip_v (version : string) : string :=
  match version with
  | String "v" r => r
  | _ => version
  end.

(** [parse(version)]: [null] for a string longer than [MAX_LENGTH], one
    that does not match [FULL], or one with a component that is not a
    safe integer. *)
Definition parse (version : string) : option SemVer :=
  if (MAX_LENGTH <? String.length version)%nat then None
  else parse_plain (strip_v version).

(** [SemVer.format()]: the build metadata is not part of [version]. *)
Definition format (v : SemVer) : string :=
  let main := number_to_string (major v) ++ "." ++ number_to_string (minor v)
              ++ "." ++ number_to_string (patch v) in
  match prerelease v with
  | [] => main
  | pre => main ++ "-" ++ join "." (map identifier_to_string pre)
  end.

(** [semver.valid(version)] *)
Definition valid (version : string) : option string :=
  option_map format (parse version).

(** [version.trim().replace(/^[=v]+/, '')] *)
Fixpoint strip_eq_v (s : string) : string :=
  match s with
  | String c r =>
      if Ascii.eqb c "=" || Ascii.eqb c "v" then strip_eq_v r else s
  | EmptyString => EmptyString
  end.

(** [semver.clean(version)] *)
Definition clean (version : string) : option string :=
  option_map format (parse (strip_eq_v (trim version))).

Definition compare_N (a b : N) : comparison := N.compare a b.

Definition compareMain (a b : SemVer) : comparison :=
  match compare_N (major a) (major b) with
  | Eq => match compare_N (minor a) (minor b) with
          | Eq => compare_N (patch a) (patch b)
          | c => c
          end
  | c => c
  end.

(** [compareIdentifiers]: numbers sort before strings, numbers by value,
    strings by code unit.  An all-digit string (a value of
    [MAX_SAFE_INTEGER] or more) is compared by its exact value. *)
Definition identifier_value (i : Identifier) : option N :=
  match i with
  | IdNum n => Some n
  | IdStr s =>
      if all_chars is_digit s && negb (String.eqb s "") then to_number s else None
  end.

Definition compareIdentifiers (a b : Identifier) : comparison :=
  match identifier_value a, identifier_value b with
  | Some x, Some y => N.compare x y
  | Some _, None => Lt
  | None, Some _ => Gt
  | None, None =>
      String.compare (identifier_to_string a) (identifier_to_string b)
  end.

Fixpoint comparePre_ids (a b : list Identifier) : comparison :=
  match a, b with
  | [], [] => Eq
  | _ :: _, [] => Gt
  | [], _ :: _ => Lt
  | x :: a', y :: b' =>
      match compareIdentifiers x y with
      | Eq => comparePre_ids a' b'
      | c => c
      end
  end.

Definition comparePre (a b : SemVer) : comparison :=
  match prerelease a, prerelease b with
  | _ :: _, [] => Lt
  | [], _ :: _ => Gt
  | [], [] => Eq
  | pa, pb => comparePre_ids pa pb
  end.

Definition compare (a b : SemVer) : comparison :=
  match compareMain a b with
  | Eq => comparePre a b
  | c => c
  end.

Definition same_tuple (a b : SemVer) : bool :=
  ((major a =? major b) && (minor a =? minor b) && (patch a =? patch b))%N.

(** [semver.satisfies(version, '>=' + bound)] for a bound that is a
    plain version: the comparator test [compare(version, bound) >= 0],
    then the rule that a version with prerelease tags only matches a
    comparator with prerelease tags on the same
    [major.minor.patch] tuple. *)
Definition satisfies_gte (version bound : string) : bool :=
  match parse bound with
  | None => false
  | Some b =>
      match parse version with
      | None => false
      | Some v =>
          match compare v b with
          | Lt => false
          | _ =>
              match prerelease v with
              | [] => true
              | _ :: _ =>
                  match prerelease b with
                  | [] => false
                  | _ :: _ => same_tuple v b
                  end
              end
          end
      end
  end.

End Semver.

(** ** configuration.ts *)

Inductive result (A : Type) : Type :=
| Ok (a : A)
| Throw (message : string).
Arguments Ok {A} a.
Arguments Throw {A} message.

(** The [checkov] section of the workspace configuration; an absent
    setting is [None]. *)
Record Configuration : Type := mkConfiguration {
  cfg_token : option string;
  cfg_certificate : option string;
  cfg_useBridgecrewIDs : option bool;
  cfg_checkovVersion : option string;
  cfg_disableErrorMessage : option bool;
  cfg_prismaURL : option string
}.

Definition minCheckovVersion : string := "2.0.0".

(** [configuration.get<T>(key, defaultValue)] *)
Definition get_or {A : Type} (o : option A) (default : A) : A :=
  match o with
  | Some a => a
  | None => default
  end.

Definition normalizedVersion (c : Configuration) : string :=
  JsString.toLowerCase (JsString.trim (get_or (cfg_checkovVersion c) "latest")).

Definition getCheckovVersion (c : Configuration) : result string :=
  let checkovVersion := normalizedVersion c in
  if String.eqb checkovVersion "" || String.eqb checkovVersion "latest" then
    Ok "latest"
  else
    match Semver.valid checkovVersion with
    | None => Throw ("Invalid checkov version: " ++ checkovVersion)
    | Some _ =>
        match Semver.clean checkovVersion with
        | None => Throw ("Invalid checkov version: " ++ checkovVersion)
        | Some clean =>
            if negb (Semver.satisfies_gte checkovVersion minCheckovVersion) then
              Throw ("Invalid checkov version: " ++ checkovVersion
                     ++ " (must be >=" ++ minCheckovVersion ++ ")")
            else Ok clean
        end
    end.

Definition getPathToCert (c : Configuration) : option string := cfg_certificate c.
Definition getUseBcIds (c : Configuration) : bool := get_or (cfg_useBridgecrewIDs c) false.
Definition shouldDisableErrorMessage (c : Configuration) : bool :=
  get_or (cfg_disableErrorMessage c) false.
Definition getPrismaUrl (c : Configuration) : option string := cfg_prismaURL c.

(** ** Data of the editor and of the scanner *)

(** A document as a handler sees it.  [doc_lineCount] is what
    [document.lineCount] gives when the diagnostics of a scan are
    applied to the document. *)
Record TextDocument : Type := mkTextDocument {
  doc_uri : string;        (* [document.uri.toString()] *)
  doc_fileName : string;   (* [document.fileName] *)
  doc_lineCount : nat      (* [document.lineCount] *)
}.

Record TextEditor : Type := mkTextEditor {
  editor_document : TextDocument
}.

(** A document-change event: the document, the text [document.getText()]
    returns when the handler runs, and the [text] of each content change. *)
Record TextDocumentChangeEvent : Type := mkChangeEvent {
  change_document : TextDocument;
  change_getText : string;
  change_contentChanges : list string
}.

Record CheckovInstallation : Type := mkInstallation {
  checkovInstallationMethod : string;
  checkovPath : string;
  version : option string
}.

(** One failed check of a scan result. *)
Record Finding : Type := mkFinding {
  ruleId : string;
  filePath : string;
  startLine : nat;
  endLine : nat;
  severity : string;
  guidelineUrl : option string
}.

(** The editor-facing projection of a finding. *)
Record Diagnostic : Type := mkDiagnostic {
  diag_ruleId : string;
  diag_filePath : string;
  diag_startLine : nat;
  diag_endLine : nat;
  diag_severity : string;
  diag_guidelineUrl : option string
}.

(** The arguments of one [runCheckovScan] call. *)
Record ScanRequest : Type := mkScanRequest {
  req_installation : CheckovInstallation;
  req_extensionVersion : string;
  req_fileName : string;
  req_token : string;
  req_certPath : option string;
  req_useBcIds : bool;
  req_cancelToken : nat;
  req_configPath : option string;
  req_checkovVersion : string;
  req_prismaUrl : option string
}.

(** The arguments of one call of the debounced [runScan]. *)
Record ScanArgs : Type := mkScanArgs {
  arg_editor : TextEditor;
  arg_token : string;
  arg_certPath : option string;
  arg_useBcIds : bool;
  arg_cancelToken : nat;
  arg_checkovVersion : string;
  arg_prismaUrl : option string;
  arg_fileUri : option string
}.

(** What a [runScan] invocation still needs when [runCheckovScan]
    settles: its [editor] and its [cancelToken]. *)
Record ScanJob : Type := mkScanJob {
  job_editor : TextEditor;
  job_cancelToken : nat
}.

(** An install command suspended at [await installOrUpdateCheckov] or at
    [await runVersionCommand]; the second remembers the object whose
    [version] is being assigned. *)
Inductive InstallJob : Type :=
| AwaitInstall (checkovVersion : string)
| AwaitVersion (checkovVersion : string) (target : nat).

Inductive StatusBarItem : Type :=
| StatusInitialized (command : string)
| StatusSyncing (version : option string) (text : string)
| StatusReady (version : option string)
| StatusError (version : option string)
| StatusPassed (version : option string)
| StatusMissingConfiguration (version : option string).

(** What the process or request behind [runCheckovScan] produced. *)
Inductive ProcessOutcome : Type :=
| ProcessResult (failedChecks : list Finding)
| ProcessFailed (error : string).

(** How the promise of [runCheckovScan] settles. *)
Inductive ScanOutcome : Type :=
| Resolved (failedChecks : list Finding)
| Rejected (error : string).

(** Calls into the collaborators, in the order they are made. *)
Inductive Effect : Type :=
| LogInfo (message : string)
| LogWarn (message : string)
| LogError (message : string)
| LogDebug (message : string)
| ShowWarningMessage (message : string)
| ShowErrorMessage (message : string)
| ShowContactUsDetails
| ShowAboutCheckovMessage (version method : string)
| SetStatusBarItem (item : StatusBarItem)
| SetDiagnostics (uri : string) (items : list Diagnostic)
| SaveCheckovResult (failedChecks : list Finding)
| WriteFile (uri content : string)
| InstallOrUpdateCheckov (job : nat) (dir checkovVersion : string)
| RunVersionCommand (job : nat) (path checkovVersion : string)
| RunCheckovScan (job : nat) (request : ScanRequest)
| OpenSettings (query : string)
| OpenExternal (uri : string)
| ShowTextDocument (uri : string)
| CommandRejected (message : string).

(** What reaches the extension: commands, editor events, the settling of
    the promises it awaits, and changes of the host's state. *)
Inductive Event : Type :=
| CmdInstallOrUpdateCheckov
| CmdRunFileScan (fileUri : option string)
| CmdRemoveDiagnostics
| CmdOpenConfiguration
| CmdOpenExternal (uri : string)
| CmdGetInstallationDetails
| CmdOpenCheckovLog
| DidChangeTextDocument (changeEvent : TextDocumentChangeEvent)
| DidSaveTextDocument (saveEvent : TextDocument)
| DidChangeActiveTextEditor (changeViewEvent : option TextEditor)
| WriteFileSettled (fulfilled : bool)
| InstallSettled (job : nat) (installation : option CheckovInstallation)
| VersionCommandSettled (job : nat) (version : option string)
| ScanSettled (job : nat) (outcome : ProcessOutcome)
| ConfigurationChanged (c : Configuration)
| Tick.

(** The state of the [activate] closure together with the state of the
    host that the handlers read and write. *)
Record State : Type := mkState {
  (** [let extensionReady] *)
  extensionReady : bool;
  (** [checkovRunCancelTokenSource]: the token of the current source *)
  tokenSource : nat;
  (** tokens whose source has been cancelled *)
  cancelledTokens : gset nat;
  (** [let checkovInstallation]: null, or a reference to an object *)
  checkovInstallation : option nat;
  (** the installation objects, by reference *)
  installations : gmap nat CheckovInstallation;
  (** the [checkov-alerts] diagnostic collection, by document uri *)
  diagnostics : gmap string (list Diagnostic);
  (** what the status bar item shows *)
  statusBar : StatusBarItem;
  (** the debounced [runScan]: last arguments and the time the timer is due *)
  pendingScan : option (ScanArgs * nat);
  (** the clock, in milliseconds *)
  now : nat;
  (** [runScan] invocations suspended at [await runCheckovScan] *)
  scans : gmap nat ScanJob;
  (** install commands suspended at an [await] *)
  installJobs : gmap nat InstallJob;
  (** [writeFile] calls on the temporary file that have not settled, oldest first *)
  pendingWrites : list string;
  (** the content of the temporary file *)
  tempFile : option string;
  (** the next fresh job or object identifier *)
  nextId : nat;
  (** [vscode.window.activeTextEditor] *)
  activeTextEditor : option TextEditor;
  (** the [checkov] workspace configuration *)
  configuration : Configuration
}.

Definition set_extensionReady (v : bool) (s : State) : State :=
  {| extensionReady := v; tokenSource := tokenSource s; cancelledTokens :=
     cancelledTokens s; checkovInstallation := checkovInstallation s;
     installations := installations s; diagnostics := diagnostics s; statusBar :=
     statusBar s; pendingScan := pendingScan s; now := now s; scans := scans s;
     installJobs := installJobs s; pendingWrites := pendingWrites s; tempFile :=
     tempFile s; nextId := nextId s; activeTextEditor := activeTextEditor s;
     configuration := configuration s |}.

Definition set_tokenSource (v : nat) (s : State) : State :=
  {| extensionReady := extensionReady s; tokenSource := v; cancelledTokens :=
     cancelledTokens s; checkovInstallation := checkovInstallation s;
     installations := installations s; diagnostics := diagnostics s; statusBar :=
     statusBar s; pendingScan := pendingScan s; now := now s; scans := scans s;
     installJobs := installJobs s; pendingWrites := pendingWrites s; tempFile :=
     tempFile s; nextId := nextId s; activeTextEditor := activeTextEditor s;
     configuration := configuration s |}.

Definition set_cancelledTokens (v : gset nat) (s : State) : State :=
  {| extensionReady := extensionReady s; tokenSource := tokenSource s;
     cancelledTokens := v; checkovInstallation := checkovInstallation s;
     installations := installations s; diagnostics := diagnostics s; statusBar :=
     statusBar s; pendingScan := pendingScan s; now := now s; scans := scans s;
     installJobs := installJobs s; pendingWrites := pendingWrites s; tempFile :=
     tempFile s; nextId := nextId s; activeTextEditor := activeTextEditor s;
     configuration := configuration s |}.

Definition set_checkovInstallation (v : option nat) (s : State) : State :=
  {| extensionReady := extensionReady s; tokenSource := tokenSource s;
     cancelledTokens := cancelledTokens s; checkovInstallation := v;
     installations := installations s; diagnostics := diagnostics s; statusBar :=
     statusBar s; pendingScan := pendingScan s; now := now s; scans := scans s;
     installJobs := installJobs s; pendingWrites := pendingWrites s; tempFile :=
     tempFile s; nextId := nextId s; activeTextEditor := activeTextEditor s;
     configuration := configuration s |}.

Definition set_installations (v : gmap nat CheckovInstallation) (s : State) : State :=
  {| extensionReady := extensionReady s; tokenSource := tokenSource s;
     cancelledTokens := cancelledTokens s; checkovInstallation :=
     checkovInstallation s; installations := v; diagnostics := diagnostics s;
     statusBar := statusBar s; pendingScan := pendingScan s; now := now s; scans
     := scans s; installJobs := installJobs s; pendingWrites := pendingWrites s;
     tempFile := tempFile s; nextId := nextId s; activeTextEditor :=
     activeTextEditor s; configuration := configuration s |}.

Definition set_diagnostics (v : gmap string (list Diagnostic)) (s : State) : State :=
  {| extensionReady := extensionReady s; tokenSource := tokenSource s;
     cancelledTokens := cancelledTokens s; checkovInstallation :=
     checkovInstallation s; installations := installations s; diagnostics := v;
     statusBar := statusBar s; pendingScan := pendingScan s; now := now s; scans
     := scans s; installJobs := installJobs s; pendingWrites := pendingWrites s;
     tempFile := tempFile s; nextId := nextId s; activeTextEditor :=
     activeTextEditor s; configuration := configuration s |}.

Definition set_statusBar (v : StatusBarItem) (s : State) : State :=
  {| extensionReady := extensionReady s; tokenSource := tokenSource s;
     cancelledTokens := cancelledTokens s; checkovInstallation :=
     checkovInstallation s; installations := installations s; diagnostics :=
     diagnostics s; statusBar := v; pendingScan := pendingScan s; now := now s;
     scans := scans s; installJobs := installJobs s; pendingWrites :=
     pendingWrites s; tempFile := tempFile s; nextId := nextId s;
     activeTextEditor := activeTextEditor s; configuration := configuration s |}.

Definition set_pendingScan (v : option (ScanArgs * nat)) (s : State) : State :=
  {| extensionReady := extensionReady s; tokenSource := tokenSource s;
     cancelledTokens := cancelledTokens s; checkovInstallation :=
     checkovInstallation s; installations := installations s; diagnostics :=
     diagnostics s; statusBar := statusBar s; pendingScan := v; now := now s;
     scans := scans s; installJobs := installJobs s; pendingWrites :=
     pendingWrites s; tempFile := tempFile s; nextId := nextId s;
     activeTextEditor := activeTextEditor s; configuration := configuration s |}.

Definition set_now (v : nat) (s : State) : State :=
  {| extensionReady := extensionReady s; tokenSource := tokenSource s;
     cancelledTokens := cancelledTokens s; checkovInstallation :=
     checkovInstallation s; installations := installations s; diagnostics :=
     diagnostics s; statusBar := statusBar s; pendingScan := pendingScan s; now
     := v; scans := scans s; installJobs := installJobs s; pendingWrites :=
     pendingWrites s; tempFile := tempFile s; nextId := nextId s;
     activeTextEditor := activeTextEditor s; configuration := configuration s |}.

Definition set_scans (v : gmap nat ScanJob) (s : State) : State :=
  {| extensionReady := extensionReady s; tokenSource := tokenSource s;
     cancelledTokens := cancelledTokens s; checkovInstallation :=
     checkovInstallation s; installations := installations s; diagnostics :=
     diagnostics s; statusBar := statusBar s; pendingScan := pendingScan s; now
     := now s; scans := v; installJobs := installJobs s; pendingWrites :=
     pendingWrites s; tempFile := tempFile s; nextId := nextId s;
     activeTextEditor := activeTextEditor s; configuration := configuration s |}.

Definition set_installJobs (v : gmap nat InstallJob) (s : State) : State :=
  {| extensionReady := extensionReady s; tokenSource := tokenSource s;
     cancelledTokens := cancelledTokens s; checkovInstallation :=
     checkovInstallation s; installations := installations s; diagnostics :=
     diagnostics s; statusBar := statusBar s; pendingScan := pendingScan s; now
     := now s; scans := scans s; installJobs := v; pendingWrites := pendingWrites
     s; tempFile := tempFile s; nextId := nextId s; activeTextEditor :=
     activeTextEditor s; configuration := configuration s |}.

Definition set_pendingWrites (v : list string) (s : State) : State :=
  {| extensionReady := extensionReady s; tokenSource := tokenSource s;
     cancelledTokens := cancelledTokens s; checkovInstallation :=
     checkovInstallation s; installations := installations s; diagnostics :=
     diagnostics s; statusBar := statusBar s; pendingScan := pendingScan s; now
     := now s; scans := scans s; installJobs := installJobs s; pendingWrites :=
     v; tempFile := tempFile s; nextId := nextId s; activeTextEditor :=
     activeTextEditor s; configuration := configuration s |}.

Definition set_tempFile (v : option string) (s : State) : State :=
  {| extensionReady := extensionReady s; tokenSource := tokenSource s;
     cancelledTokens := cancelledTokens s; checkovInstallation :=
     checkovInstallation s; installations := installations s; diagnostics :=
     diagnostics s; statusBar := statusBar s; pendingScan := pendingScan s; now
     := now s; scans := scans s; installJobs := installJobs s; pendingWrites :=
     pendingWrites s; tempFile := v; nextId := nextId s; activeTextEditor :=
     activeTextEditor s; configuration := configuration s |}.

Definition set_nextId (v : nat) (s : State) : State :=
  {| extensionReady := extensionReady s; tokenSource := tokenSource s;
     cancelledTokens := cancelledTokens s; checkovInstallation :=
     checkovInstallation s; installations := installations s; diagnostics :=
     diagnostics s; statusBar := statusBar s; pendingScan := pendingScan s; now
     := now s; scans := scans s; installJobs := installJobs s; pendingWrites :=
     pendingWrites s; tempFile := tempFile s; nextId := v; activeTextEditor :=
     activeTextEditor s; configuration := configuration s |}.

Definition set_activeTextEditor (v : option TextEditor) (s : State) : State :=
  {| extensionReady := extensionReady s; tokenSource := tokenSource s;
     cancelledTokens := cancelledTokens s; checkovInstallation :=
     checkovInstallation s; installations := installations s; diagnostics :=
     diagnostics s; statusBar := statusBar s; pendingScan := pendingScan s; now
     := now s; scans := scans s; installJobs := installJobs s; pendingWrites :=
     pendingWrites s; tempFile := tempFile s; nextId := nextId s;
     activeTextEditor := v; configuration := configuration s |}.

Definition set_configuration (v : Configuration) (s : State) : State :=
  {| extensionReady := extensionReady s; tokenSource := tokenSource s;
     cancelledTokens := cancelledTokens s; checkovInstallation :=
     checkovInstallation s; installations := installations s; diagnostics :=
     diagnostics s; statusBar := statusBar s; pendingScan := pendingScan s; now
     := now s; scans := scans s; installJobs := installJobs s; pendingWrites :=
     pendingWrites s; tempFile := tempFile s; nextId := nextId s;
     activeTextEditor := activeTextEditor s; configuration := v |}.

(** ** Collaborators outside the modelled files *)

(** Functions and values of [utils.ts], [parseCheckovConfig.ts] and the
    extension context that the handlers call or read.  The optional second
    argument of [isSupportedFileType] is [None] when the call omits it. *)
Record Host : Type := mkHost {
  isSupportedFileType : string -> option bool -> bool;
  getTokenType : string -> string;
  getConfigFilePath : option string;
  extensionVersion : string;
  OPEN_CONFIGURATION_COMMAND : string;
  globalStorageUri : string;
  logUri : string
}.

Definition CHECKOV_MAP : string := "checkovMap".
Definition logFileName : string := "checkov.log".
Definition tempScanFile : string := "temp.tf".

(** [vscode.Uri.joinPath(base, segment)], on paths. *)
Definition joinPath (base segment : string) : string := base ++ "/" ++ segment.

(** The wait of [debounce(..., 300, {})], in milliseconds. *)
Definition debounceWait : nat := 300.

(** JavaScript truthiness of a [string | undefined]. *)
Definition truthy (o : option string) : bool :=
  match o with
  | Some s => negb (String.eqb s "")
  | None => false
  end.

(** *** The result mapper *)

(** The sort key [(filePath, startLine, ruleId)], compared component by
    component. *)
Definition key_compare (a b : string * nat * string) : comparison :=
  let '(f1, l1, r1) := a in
  let '(f2, l2, r2) := b in
  match String.compare f1 f2 with
  | Eq => match Nat.compare l1 l2 with
          | Eq => String.compare r1 r2
          | c => c
          end
  | c => c
  end.

Definition key_leb (a b : string * nat * string) : bool :=
  match key_compare a b with
  | Gt => false
  | _ => true
  end.

Definition diagnostic_key (d : Diagnostic) : string * nat * string :=
  (diag_filePath d, diag_startLine d, diag_ruleId d).

#[global] Instance diagnostic_eq_dec : EqDecision Diagnostic.
Proof. solve_decision. Defined.

(** The nearest line of a document of [lineCount] lines, which are
    numbered from 1. *)
Definition clampLine (lineCount line : nat) : nat :=
  Nat.max 1 (Nat.min line lineCount).

(** The editor-facing projection of a finding, bound to a document of
    [lineCount] lines. *)
Definition toDiagnostic (lineCount : nat) (f : Finding) : Diagnostic :=
  mkDiagnostic (ruleId f) (filePath f) (clampLine lineCount (startLine f))
               (clampLine lineCount (endLine f)) (severity f) (guidelineUrl f).

Fixpoint insert_diagnostic (d : Diagnostic) (l : list Diagnostic) : list Diagnostic :=
  match l with
  | [] => [d]
  | g :: rest =>
      if key_leb (diagnostic_key d) (diagnostic_key g) then d :: l
      else g :: insert_diagnostic d rest
  end.

Fixpoint sort_diagnostics (l : list Diagnostic) : list Diagnostic :=
  match l with
  | [] => []
  | d :: rest => insert_diagnostic d (sort_diagnostics rest)
  end.

(** Modelled from the spec: [applyDiagnostics] of [diagnostics.ts], which
    is not among the modelled files.  The result mapper converts the
    findings into diagnostic records, deduplicates and sorts them
    (section 2): a finding whose lines are outside the document is
    clamped to the nearest valid line, not dropped; identical records
    are kept once; the order is ascending in
    [(filePath, startLine, ruleId)] (section 4.4). *)
Definition mapFindings (lineCount : nat) (failedChecks : list Finding)
    : list Diagnostic :=
  sort_diagnostics (remove_dups (map (toDiagnostic lineCount) failedChecks)).

(** *** The scanner invoker *)

(** Modelled from the spec: [runCheckovScan] of [checkovRunner.ts], which
    is not among the modelled files.  The invoker honours the cancel
    token: once cancellation is signalled the call is abandoned and it
    fails with [Cancelled], it never returns a result after cancellation;
    otherwise it returns the result of the process or fails with its
    error. *)
Definition runCheckovScan_outcome (isCancellationRequested : bool)
    (p : ProcessOutcome) : ScanOutcome :=
  if isCancellationRequested then Rejected "Cancelled"
  else match p with
       | ProcessResult failedChecks => Resolved failedChecks
       | ProcessFailed error => Rejected error
       end.

(** ** extension.ts *)

Open Scope list_scope.

(** Handlers run in a state-and-output monad: they read and write the
    [State] and append to the list of collaborator calls. *)
Definition Action (A : Type) : Type := State -> A * State * list Effect.

Definition ret {A : Type} (a : A) : Action A := fun s => (a, s, []).

Definition bind {A B : Type} (m : Action A) (k : A -> Action B) : Action B :=
  fun s =>
    match m s with
    | (a, s1, e1) =>
        match k a s1 with
        | (b, s2, e2) => (b, s2, e1 ++ e2)
        end
    end.

Definition emit (e : Effect) : Action unit := fun s => (tt, s, [e]).
Definition get {A : Type} (f : State -> A) : Action A := fun s => (f s, s, []).
Definition modify (f : State -> State) : Action unit := fun s => (tt, f s, []).

Declare Scope action_scope.
Delimit Scope action_scope with action.
Notation "x <- y ;; z" := (bind y (fun x => z))
  (at level 20, y at level 99, z at level 200, only parsing) : action_scope.
Notation "y ;; z" := (bind y (fun _ => z))
  (at level 100, z at level 200, only parsing, right associativity) : action_scope.
Open Scope action_scope.

Definition exec {A : Type} (m : Action A) (s : State) : State * list Effect :=
  match m s with
  | (_, s', e) => (s', e)
  end.

(** The [version] of the object behind a reference, if any. *)
Definition versionOf (ref : option nat) (objects : gmap nat CheckovInstallation)
    : option string :=
  inst ← ref ≫= (fun r => objects !! r); version inst.

(** [checkovInstallation?.version] *)
Definition currentVersion (s : State) : option string :=
  versionOf (checkovInstallation s) (installations s).

Definition setStatusBar (item : option string -> StatusBarItem) : Action unit :=
  v <- get currentVersion ;;
  modify (set_statusBar (item v)) ;;
  emit (SetStatusBarItem (item v)).

Definition setSyncingStatusBarItem (text : string) : Action unit :=
  setStatusBar (fun v => StatusSyncing v text).
Definition setReadyStatusBarItem : Action unit := setStatusBar StatusReady.
Definition setErrorStatusBarItem : Action unit := setStatusBar StatusError.
Definition setPassedStatusBarItem : Action unit := setStatusBar StatusPassed.
Definition setMissingConfigurationStatusBarItem : Action unit :=
  setStatusBar StatusMissingConfiguration.

(** [applyDiagnostics(document, diagnostics, failedChecks)]: the mapped
    diagnostics replace the set of the document. *)
Definition applyDiagnostics (document : TextDocument) (failedChecks : list Finding)
    : Action unit :=
  let items := mapFindings (doc_lineCount document) failedChecks in
  modify (fun s => set_diagnostics (<[doc_uri document := items]> (diagnostics s)) s) ;;
  emit (SetDiagnostics (doc_uri document) items).

(** [!shouldDisableErrorMessage() && showContactUsDetails(...)] *)
Definition showContactUsUnlessDisabled : Action unit :=
  c <- get configuration ;;
  if shouldDisableErrorMessage c then ret tt else emit ShowContactUsDetails.

Section Handlers.
Context (h : Host).

Definition resetCancelTokenSource : Action unit :=
  modify (fun s =>
    set_tokenSource (S (tokenSource s))
      (set_cancelledTokens ({[tokenSource s]} ∪ cancelledTokens s) s)).

(** [assureTokenSet] of configuration.ts; the answer to the error
    message arrives, if at all, as [CmdOpenConfiguration]. *)
Definition assureTokenSet : Action (option string) :=
  c <- get configuration ;;
  let token := cfg_token c in
  (if negb (truthy token) then
     emit (LogError "Bridgecrew API token was not found. Please add it to the configuration.") ;;
     emit (ShowErrorMessage "Bridgecrew API token was not found. Please add it to the configuration in order to scan your code.") ;;
     setMissingConfigurationStatusBarItem
   else if String.eqb (getTokenType h (get_or token "")) "prisma"
           && negb (truthy (getPrismaUrl c)) then
     emit (LogError "Prisma token was identified but no Prisma URL was found") ;;
     emit (ShowErrorMessage "Prisma token was identified but no Prisma URL was found. In order to authenticate with your app you must provide Prisma URL") ;;
     setMissingConfigurationStatusBarItem
   else ret tt) ;;
  ret token.

(** REMOVE_DIAGNOSTICS_COMMAND *)
Definition removeDiagnosticsCommand : Action unit :=
  active <- get activeTextEditor ;;
  match active with
  | Some editor =>
      setReadyStatusBarItem ;;
      applyDiagnostics (editor_document editor) []
  | None => ret tt
  end.

(** A call of the debounced [runScan]: the arguments replace the pending
    ones and the timer is due [debounceWait] after this call. *)
Definition runScan (a : ScanArgs) : Action unit :=
  modify (fun s => set_pendingScan (Some (a, now s + debounceWait)) s).

Definition fresh : Action nat :=
  n <- get nextId ;;
  modify (set_nextId (S n)) ;;
  ret n.

(** The body of [runScan] up to [await runCheckovScan], run when the
    debounce timer fires.  A reference that is not null points to an
    object. *)
Definition runScan_start (a : ScanArgs) : Action unit :=
  emit (LogInfo "Starting to scan.") ;;
  setSyncingStatusBarItem "Checkov scanning" ;;
  let filePath := match arg_fileUri a with
                  | Some fileUri => fileUri
                  | None => doc_fileName (editor_document (arg_editor a))
                  end in
  let configPath := getConfigFilePath h in
  ref <- get checkovInstallation ;;
  objects <- get installations ;;
  match ref ≫= (fun r => objects !! r) with
  | None => emit (LogError "Checkov is not installed, aborting scan.")
  | Some inst =>
      job <- fresh ;;
      modify (fun s =>
        set_scans (<[job := mkScanJob (arg_editor a) (arg_cancelToken a)]> (scans s)) s) ;;
      emit (RunCheckovScan job
              (mkScanRequest inst (extensionVersion h) filePath (arg_token a)
                 (arg_certPath a) (arg_useBcIds a) (arg_cancelToken a) configPath
                 (arg_checkovVersion a) (arg_prismaUrl a)))
  end.

(** The rest of [runScan], run when [runCheckovScan] settles. *)
Definition runScan_resume (j : ScanJob) (o : ScanOutcome) : Action unit :=
  match o with
  | Resolved failedChecks =>
      emit (SaveCheckovResult failedChecks) ;;
      applyDiagnostics (editor_document (job_editor j)) failedChecks ;;
      if (0 <? List.length failedChecks)%nat then setErrorStatusBarItem
      else setPassedStatusBarItem
  | Rejected error =>
      cancelled <- get cancelledTokens ;;
      if bool_decide (job_cancelToken j ∈ cancelled) then ret tt
      else
        setErrorStatusBarItem ;;
        emit (LogError "Error occurred while running a checkov scan") ;;
        showContactUsUnlessDisabled
  end.

(** RUN_FILE_SCAN_COMMAND *)
Definition runFileScanCommand (fileUri : option string) : Action unit :=
  ready <- get extensionReady ;;
  if negb ready then
    emit (LogWarn "Tried to scan before checkov finished installing or updating. Please wait a few seconds and try again.") ;;
    emit (ShowWarningMessage "Still installing/updating Checkov, please wait a few seconds and try again.")
  else
    resetCancelTokenSource ;;
    token <- assureTokenSet ;;
    c <- get configuration ;;
    let prismaUrl := getPrismaUrl c in
    let certPath := getPathToCert c in
    let useBcIds := getUseBcIds c in
    match getCheckovVersion c with
    | Throw message => emit (CommandRejected message)
    | Ok checkovVersion =>
        removeDiagnosticsCommand ;;
        active <- get activeTextEditor ;;
        cancelToken <- get tokenSource ;;
        let unsupported :=
          match fileUri, active with
          | None, Some editor =>
              negb (isSupportedFileType h (doc_fileName (editor_document editor))
                      (Some true))
          | _, _ => false
          end in
        if unsupported then ret tt
        else
          match active with
          | Some editor =>
              if truthy token then
                runScan (mkScanArgs editor (get_or token "") certPath useBcIds
                           cancelToken checkovVersion prismaUrl fileUri)
              else ret tt
          | None => ret tt
          end
    end.

(** The [catch] block of INSTALL_OR_UPDATE_CHECKOV_COMMAND. *)
Definition install_catch : Action unit :=
  setErrorStatusBarItem ;;
  emit (LogError "Error occurred while preparing Checkov. Verify your settings, or try to reload vscode.") ;;
  showContactUsUnlessDisabled.

(** INSTALL_OR_UPDATE_CHECKOV_COMMAND, up to [await installOrUpdateCheckov]. *)
Definition installOrUpdateCommand : Action unit :=
  modify (set_extensionReady false) ;;
  setSyncingStatusBarItem "Updating Checkov" ;;
  c <- get configuration ;;
  match getCheckovVersion c with
  | Throw _ => install_catch
  | Ok checkovVersion =>
      job <- fresh ;;
      modify (fun s => set_installJobs (<[job := AwaitInstall checkovVersion]> (installJobs s)) s) ;;
      emit (InstallOrUpdateCheckov job (joinPath (globalStorageUri h) "checkov-installation")
              checkovVersion)
  end.

(** [installOrUpdateCheckov] settled: the new object is assigned to
    [checkovInstallation], then [runVersionCommand] is awaited. *)
Definition install_resume (job : nat) (checkovVersion : string)
    (r : option CheckovInstallation) : Action unit :=
  match r with
  | None =>
      modify (fun s => set_installJobs (delete job (installJobs s)) s) ;;
      install_catch
  | Some inst =>
      ref <- fresh ;;
      modify (fun s => set_installations (<[ref := inst]> (installations s)) s) ;;
      modify (set_checkovInstallation (Some ref)) ;;
      emit (LogInfo "Checkov installation: ") ;;
      modify (fun s =>
        set_installJobs (<[job := AwaitVersion checkovVersion ref]> (installJobs s)) s) ;;
      emit (RunVersionCommand job (checkovPath inst) checkovVersion)
  end.

(** [runVersionCommand] settled: the version is stored in the object
    that was current when the assignment started. *)
Definition version_resume (job : nat) (target : nat) (r : option string)
    : Action unit :=
  modify (fun s => set_installJobs (delete job (installJobs s)) s) ;;
  match r with
  | None => install_catch
  | Some v =>
      modify (fun s =>
        set_installations
          (alter (fun i => mkInstallation (checkovInstallationMethod i) (checkovPath i) (Some v))
                 target (installations s)) s) ;;
      setReadyStatusBarItem ;;
      modify (set_extensionReady true) ;;
      active <- get activeTextEditor ;;
      match active with
      | Some editor =>
          if isSupportedFileType h (doc_fileName (editor_document editor)) None
          then runFileScanCommand None
          else ret tt
      | None => ret tt
      end
  end.

(** GET_INSTALLATION_DETAILS_COMMAND *)
Definition getInstallationDetailsCommand : Action unit :=
  ref <- get checkovInstallation ;;
  objects <- get installations ;;
  match ref ≫= (fun r => objects !! r) with
  | Some (mkInstallation method _ (Some v)) =>
      if String.eqb v "" then
        emit (ShowWarningMessage "Checkov has not been installed. Try waiting a few seconds or running the 'Install or Update Checkov' command")
      else emit (ShowAboutCheckovMessage v method)
  | _ =>
      emit (ShowWarningMessage "Checkov has not been installed. Try waiting a few seconds or running the 'Install or Update Checkov' command")
  end.

(** Whether the event's document is not the focused one or is not of a
    supported type. *)
Definition notActiveOrUnsupported (active : option TextEditor) (d : TextDocument)
    : bool :=
  match active with
  | Some editor => negb (String.eqb (doc_uri d) (doc_uri (editor_document editor)))
  | None => false
  end
  || negb (isSupportedFileType h (doc_fileName d) None).

Definition tempFileUri : string := joinPath (globalStorageUri h) tempScanFile.

Definition newline : string := String (ascii_of_nat 10) EmptyString.

(** [onDidChangeTextDocument] *)
Definition onDidChangeTextDocument (changeEvent : TextDocumentChangeEvent)
    : Action unit :=
  ready <- get extensionReady ;;
  if negb ready then ret tt
  else
    active <- get activeTextEditor ;;
    if notActiveOrUnsupported active (change_document changeEvent) then ret tt
    else
      removeDiagnosticsCommand ;;
      if negb (existsb (fun text => JsString.includes text newline)
                 (change_contentChanges changeEvent))
      then ret tt
      else
        let text := change_getText changeEvent in
        modify (fun s => set_pendingWrites (pendingWrites s ++ [text]) s) ;;
        emit (WriteFile tempFileUri text).

(** The two callbacks of [writeFile(...).then(...)]. *)
Definition writeFile_resume (fulfilled : bool) : Action unit :=
  writes <- get pendingWrites ;;
  match writes with
  | [] => ret tt
  | text :: rest =>
      modify (set_pendingWrites rest) ;;
      if fulfilled then
        modify (set_tempFile (Some text)) ;;
        emit (LogDebug "Saved temporary file, now scanning") ;;
        runFileScanCommand (Some tempFileUri)
      else emit (LogError "Error occurred trying to save temp file")
  end.

(** [onDidSaveTextDocument] *)
Definition onDidSaveTextDocument (saveEvent : TextDocument) : Action unit :=
  ready <- get extensionReady ;;
  if negb ready then ret tt
  else
    active <- get activeTextEditor ;;
    if notActiveOrUnsupported active saveEvent then setReadyStatusBarItem
    else runFileScanCommand None.

(** [onDidChangeActiveTextEditor] *)
Definition onDidChangeActiveTextEditor (changeViewEvent : option TextEditor)
    : Action unit :=
  ready <- get extensionReady ;;
  if negb ready then ret tt
  else
    match changeViewEvent with
    | Some editor =>
        if negb (isSupportedFileType h (doc_fileName (editor_document editor)) None)
        then resetCancelTokenSource ;; setReadyStatusBarItem
        else runFileScanCommand None
    | None => runFileScanCommand None
    end.

(** [runCheckovScan] settled for the invocation [job]. *)
Definition scan_settled (job : nat) (p : ProcessOutcome) : Action unit :=
  jobs <- get scans ;;
  match jobs !! job with
  | None => ret tt
  | Some j =>
      modify (fun s => set_scans (delete job (scans s)) s) ;;
      cancelled <- get cancelledTokens ;;
      runScan_resume j
        (runCheckovScan_outcome (bool_decide (job_cancelToken j ∈ cancelled)) p)
  end.

Definition install_settled (job : nat) (r : option CheckovInstallation)
    : Action unit :=
  jobs <- get installJobs ;;
  match jobs !! job with
  | Some (AwaitInstall checkovVersion) => install_resume job checkovVersion r
  | _ => ret tt
  end.

Definition version_settled (job : nat) (r : option string) : Action unit :=
  jobs <- get installJobs ;;
  match jobs !! job with
  | Some (AwaitVersion _ target) => version_resume job target r
  | _ => ret tt
  end.

(** One event. *)
Definition handle (ev : Event) : Action unit :=
  match ev with
  | CmdInstallOrUpdateCheckov => installOrUpdateCommand
  | CmdRunFileScan fileUri => runFileScanCommand fileUri
  | CmdRemoveDiagnostics => removeDiagnosticsCommand
  | CmdOpenConfiguration => emit (OpenSettings "@ext:Bridgecrew.checkov")
  | CmdOpenExternal uri => emit (OpenExternal uri)
  | CmdGetInstallationDetails => getInstallationDetailsCommand
  | CmdOpenCheckovLog => emit (ShowTextDocument (joinPath (logUri h) logFileName))
  | DidChangeTextDocument changeEvent => onDidChangeTextDocument changeEvent
  | DidSaveTextDocument saveEvent => onDidSaveTextDocument saveEvent
  | DidChangeActiveTextEditor changeViewEvent =>
      modify (set_activeTextEditor changeViewEvent) ;;
      onDidChangeActiveTextEditor changeViewEvent
  | WriteFileSettled fulfilled => writeFile_resume fulfilled
  | InstallSettled job r => install_settled job r
  | VersionCommandSettled job r => version_settled job r
  | ScanSettled job p => scan_settled job p
  | ConfigurationChanged c => modify (set_configuration c)
  | Tick => ret tt
  end.

(** The clock advances by [d] milliseconds; the debounce timer fires
    when it is due, and invokes [runScan] with the last arguments. *)
Definition advance (d : nat) : Action unit :=
  modify (fun s => set_now (now s + d) s) ;;
  pending <- get pendingScan ;;
  t <- get now ;;
  match pending with
  | Some (a, due) =>
      if (due <=? t)%nat then
        modify (set_pendingScan None) ;;
        runScan_start a
      else ret tt
  | None => ret tt
  end.

(** An event that arrives [d] milliseconds after the previous one. *)
Definition step (s : State) (i : nat * Event) : State * list Effect :=
  exec (advance (fst i) ;; handle (snd i)) s.

Fixpoint run (s : State) (inputs : list (nat * Event)) : State * list Effect :=
  match inputs with
  | [] => (s, [])
  | i :: rest =>
      match step s i with
      | (s1, e1) =>
          match run s1 rest with
          | (s2, e2) => (s2, e1 ++ e2)
          end
      end
  end.

(** The state [activate] sets up before it executes the install
    command. *)
Definition initialState (active : option TextEditor) (c : Configuration) : State :=
  {| extensionReady := false; tokenSource := 0; cancelledTokens := ∅;
     checkovInstallation := None; installations := ∅; diagnostics := ∅;
     statusBar := StatusInitialized (OPEN_CONFIGURATION_COMMAND h);
     pendingScan := None; now := 0; scans := ∅; installJobs := ∅;
     pendingWrites := []; tempFile := None; nextId := 0;
     activeTextEditor := active; configuration := c |}.

(** [activate] *)
Definition activate (active : option TextEditor) (c : Configuration)
    : State * list Effect :=
  exec (emit (LogInfo "Starting Checkov Extension.") ;;
        emit (SetStatusBarItem (StatusInitialized (OPEN_CONFIGURATION_COMMAND h))) ;;
        installOrUpdateCommand)
       (initialState active c).

End Handlers.

(** ** Sample collaborators and states

    A concrete host and a few states reached from [activate], on which
    the properties below are exercised. *)

Definition sampleHost : Host :=
  {| isSupportedFileType := fun fileName _ => JsString.includes fileName ".tf";
     getTokenType := fun token =>
       if JsString.includes token "::" then "prisma" else "bc-token";
     getConfigFilePath := None;
     extensionVersion := "1.0.0";
     OPEN_CONFIGURATION_COMMAND := "checkov.open-configuration";
     globalStorageUri := "/storage";
     logUri := "/logs" |}.

Definition sampleDocument : TextDocument :=
  mkTextDocument "file:///w/main.tf" "/w/main.tf" 40.
Definition sampleEditor : TextEditor := mkTextEditor sampleDocument.

Definition sampleConfiguration : Configuration :=
  {| cfg_token := Some "0123-4567"; cfg_certificate := None;
     cfg_useBridgecrewIDs := None; cfg_checkovVersion := None;
     cfg_disableErrorMessage := None; cfg_prismaURL := None |}.

Definition withVersion (v : option string) (c : Configuration) : Configuration :=
  {| cfg_token := cfg_token c; cfg_certificate := cfg_certificate c;
     cfg_useBridgecrewIDs := cfg_useBridgecrewIDs c; cfg_checkovVersion := v;
     cfg_disableErrorMessage := cfg_disableErrorMessage c;
     cfg_prismaURL := cfg_prismaURL c |}.

Definition withToken (t : option string) (c : Configuration) : Configuration :=
  {| cfg_token := t; cfg_certificate := cfg_certificate c;
     cfg_useBridgecrewIDs := cfg_useBridgecrewIDs c;
     cfg_checkovVersion := cfg_checkovVersion c;
     cfg_disableErrorMessage := cfg_disableErrorMessage c;
     cfg_prismaURL := cfg_prismaURL c |}.

Definition sampleInstallation : CheckovInstallation :=
  mkInstallation "pip3" "/usr/bin/checkov" None.

(** The extension is activated and the install command is still at its
    first [await]. *)
Definition installingState : State :=
  fst (activate sampleHost (Some sampleEditor) sampleConfiguration).

(** The installation has finished; the scan that the install command
    requests at its end has been dispatched and has returned no finding. *)
Definition readyState : State :=
  fst (run sampleHost installingState
         [(100, InstallSettled 0 (Some sampleInstallation));
          (100, VersionCommandSettled 0 (Some "2.3.4"));
          (300, Tick);
          (1000, ScanSettled 2 (ProcessResult []))]).

(** A scan requested from [readyState] has been dispatched and is in
    flight. *)
Definition scanningState : State :=
  fst (run sampleHost readyState [(0, CmdRunFileScan None); (300, Tick)]).

Definition sampleFinding (rule : string) (line : nat) : Finding :=
  mkFinding rule "/w/main.tf" line (line + 2) "HIGH" None.

Definition sampleChange (text : string) (changes : list string) : TextDocumentChangeEvent :=
  mkChangeEvent sampleDocument text changes.

(** ** Vocabulary of the properties *)

(** A call of the scanner invoker. *)
Definition is_dispatch (e : Effect) : bool :=
  match e with
  | RunCheckovScan _ _ => true
  | _ => false
  end.

(** Network or process work: installing, running the version command,
    scanning. *)
Definition is_work (e : Effect) : bool :=
  match e with
  | InstallOrUpdateCheckov _ _ _ | RunVersionCommand _ _ _ | RunCheckovScan _ _ => true
  | _ => false
  end.

Definition isCancellationRequested (s : State) (token : nat) : Prop :=
  token ∈ cancelledTokens s.

(** Tokens are only ever cancelled, and the source only moves on after
    cancelling its token. *)
Definition token_order (s s' : State) : Prop :=
  tokenSource s <= tokenSource s'
  /\ cancelledTokens s ⊆ cancelledTokens s'
  /\ (tokenSource s = tokenSource s' \/ tokenSource s ∈ cancelledTokens s').

(** Every token held by a pending or in-flight scan is the current one
    or a cancelled one. *)
Definition tokens_tracked (s : State) : Prop :=
  (forall job j, scans s !! job = Some j ->
     job_cancelToken j = tokenSource s \/ job_cancelToken j ∈ cancelledTokens s)
  /\ (forall a due, pendingScan s = Some (a, due) ->
        arg_cancelToken a = tokenSource s \/ arg_cancelToken a ∈ cancelledTokens s).

(** [resetCancelTokenSource], as a function on states. *)
Definition reset (s : State) : State :=
  set_tokenSource (S (tokenSource s))
    (set_cancelledTokens ({[tokenSource s]} ∪ cancelledTokens s) s).

(** What RUN_FILE_SCAN_COMMAND leaves alone in a ready extension, and
    what it does to the token source. *)
Definition scan_command_frame (s s' : State) : Prop :=
  extensionReady s' = extensionReady s
  /\ tokenSource s' = S (tokenSource s)
  /\ cancelledTokens s' = {[tokenSource s]} ∪ cancelledTokens s
  /\ checkovInstallation s' = checkovInstallation s
  /\ installations s' = installations s
  /\ now s' = now s
  /\ scans s' = scans s
  /\ installJobs s' = installJobs s
  /\ pendingWrites s' = pendingWrites s
  /\ tempFile s' = tempFile s
  /\ nextId s' = nextId s
  /\ activeTextEditor s' = activeTextEditor s
  /\ configuration s' = configuration s.

(** A version without its build metadata. *)
Definition without_build (v : Semver.SemVer) : Semver.SemVer :=
  Semver.mkSemVer (Semver.major v) (Semver.minor v) (Semver.patch v)
                  (Semver.prerelease v) [].

(** The save and focus events. *)
Definition is_save_or_focus (ev : Event) : bool :=
  match ev with
  | DidSaveTextDocument _ | DidChangeActiveTextEditor _ => true
  | _ => false
  end.

(** Whether a save or focus event, in a ready extension, gets as far as
    executing RUN_FILE_SCAN_COMMAND. *)
Definition requests_scan (h : Host) (s : State) (ev : Event) : bool :=
  match ev with
  | DidSaveTextDocument d => negb (notActiveOrUnsupported h (activeTextEditor s) d)
  | DidChangeActiveTextEditor (Some editor) =>
      isSupportedFileType h (doc_fileName (editor_document editor)) None
  | DidChangeActiveTextEditor None => true
  | _ => false
  end.



Definition hasNewline (ev : TextDocumentChangeEvent) : bool :=
  existsb (fun text => JsString.includes text newline) (change_contentChanges ev).

(** A state in which a scan requested for [editor] with a file uri is
    accepted and can be dispatched, and no write is outstanding. *)
Record Accepting (s : State) (editor : TextEditor) : Prop := mkAccepting {
  acc_ready : extensionReady s = true;
  acc_active : activeTextEditor s = Some editor;
  acc_token : truthy (cfg_token (configuration s)) = true;
  acc_version : exists v, getCheckovVersion (configuration s) = Ok v;
  acc_installed : exists ref inst,
      checkovInstallation s = Some ref /\ installations s !! ref = Some inst;
  acc_no_writes : pendingWrites s = []
}.

(** No debounced scan is waiting, or the one that is waiting is not due
    within the next [d] milliseconds. *)
Definition timer_not_due (s : State) (d : nat) : Prop :=
  match pendingScan s with
  | None => True
  | Some (_, due) => now s + d < due
  end.



(** The file a scan started with arguments [a] reads. *)
Definition scanned_file (a : ScanArgs) : string :=
  match arg_fileUri a with
  | Some fileUri => fileUri
  | None => doc_fileName (editor_document (arg_editor a))
  end.

(** The request [runScan] makes of the invoker for arguments [a]. *)
Definition request_of (h : Host) (inst : CheckovInstallation) (a : ScanArgs)
    : ScanRequest :=
  mkScanRequest inst (extensionVersion h) (scanned_file a) (arg_token a)
    (arg_certPath a) (arg_useBcIds a) (arg_cancelToken a) (getConfigFilePath h)
    (arg_checkovVersion a) (arg_prismaUrl a).





(** The configured version is in the accepted range: [semver.valid]
    accepts it and it satisfies [>=minCheckovVersion]. *)
Definition valid_and_supported (version : string) : Prop :=
  Semver.valid version <> None
  /\ Semver.satisfies_gte version minCheckovVersion = true.

Definition notReadyWarnings : list Effect :=
  [LogWarn "Tried to scan before checkov finished installing or updating. Please wait a few seconds and try again.";
   ShowWarningMessage "Still installing/updating Checkov, please wait a few seconds and try again."].

Definition is_write (e : Effect) : bool :=
  match e with
  | WriteFile _ _ => true
  | _ => false
  end.

(** The scan of [scanningState] has been superseded by a second request
    while it was in flight. *)
Definition supersededState : State :=
  fst (run sampleHost scanningState [(0, CmdRunFileScan None)]).

Definition sampleJob : ScanJob := mkScanJob sampleEditor 2.

Definition sampleFindings : list Finding :=
  [sampleFinding "CKV_AWS_20" 12; sampleFinding "CKV_AWS_18" 12;
   sampleFinding "CKV_AWS_21" 3].



(** ** Invariants of the reachable states *)

(** A state the extension can be in: [activate], then any inputs. *)
Definition reachable (h : Host) (s : State) : Prop :=
  exists active c inputs, s = fst (run h (fst (activate h active c)) inputs).

(** The cancelled tokens are exactly the ones before the current one, and
    no scan holds a token that has not been issued; at most one scan, in
    flight or waiting in the debounce, holds the current token. *)
Record Coherent (s : State) : Prop := mkCoherent {
  coh_cancelled : forall t, t ∈ cancelledTokens s <-> t < tokenSource s;
  coh_jobs : forall job j, scans s !! job = Some j -> job_cancelToken j <= tokenSource s;
  coh_pending : forall a due, pendingScan s = Some (a, due) ->
                  arg_cancelToken a <= tokenSource s;
  coh_one_job : forall job1 job2 j1 j2,
      scans s !! job1 = Some j1 -> scans s !! job2 = Some j2 ->
      job_cancelToken j1 = tokenSource s -> job_cancelToken j2 = tokenSource s ->
      job1 = job2;
  coh_pending_or_job : forall a due job j,
      pendingScan s = Some (a, due) -> arg_cancelToken a = tokenSource s ->
      scans s !! job = Some j -> job_cancelToken j <> tokenSource s
}.

(** Whoever can start a scan has an installation to start it with. *)
Record Installed (s : State) : Prop := mkInstalled {
  inst_object : forall ref, checkovInstallation s = Some ref ->
                  is_Some (installations s !! ref);
  inst_ready : extensionReady s = true -> is_Some (checkovInstallation s);
  inst_pending : is_Some (pendingScan s) -> is_Some (checkovInstallation s);
  inst_version_job : forall job v target,
      installJobs s !! job = Some (AwaitVersion v target) ->
      is_Some (checkovInstallation s)
}.

Definition notInstalledAbort : Effect :=
  LogError "Checkov is not installed, aborting scan.".

(** The three ways the install command fails: the configured version
    does not validate, [installOrUpdateCheckov] rejects, or
    [runVersionCommand] rejects. *)
Definition install_fails (s : State) (ev : Event) : Prop :=
  match ev with
  | CmdInstallOrUpdateCheckov =>
      exists message, getCheckovVersion (configuration s) = Throw message
  | InstallSettled job None =>
      exists v, installJobs s !! job = Some (AwaitInstall v)
  | VersionCommandSettled job None =>
      exists v target, installJobs s !! job = Some (AwaitVersion v target)
  | _ => False
  end.

Definition installErrorMessage : string :=
  "Error occurred while preparing Checkov. Verify your settings, or try to reload vscode.".

Definition scanErrorMessage : string := "Error occurred while running a checkov scan".

(** The editor events: edit, save, focus. *)
Definition is_editor_event (ev : Event) : bool :=
  match ev with
  | DidChangeTextDocument _ | DidSaveTextDocument _ | DidChangeActiveTextEditor _ => true
  | _ => false
  end.

(** The calls of [applyDiagnostics] among the effects, by document. *)
Definition diagnostics_targets (e : list Effect) : list string :=
  flat_map (fun x => match x with
                     | SetDiagnostics uri _ => [uri]
                     | _ => []
                     end) e.


Definition notInstalledWarning : string :=
  "Checkov has not been installed. Try waiting a few seconds or running the 'Install or Update Checkov' command".

(** The commands that only open or show something. *)
Definition is_ui_command (ev : Event) : bool :=
  match ev with
  | CmdOpenConfiguration | CmdOpenExternal _ | CmdGetInstallationDetails
  | CmdOpenCheckovLog => true
  | _ => false
  end.

(** Calls that change what the editor shows of a scan: the status bar
    item and the diagnostics. *)
Definition is_display (e : Effect) : bool :=
  match e with
  | SetStatusBarItem _ | SetDiagnostics _ _ => true
  | _ => false
  end.

(** ** Further sample states *)

(** An editor on a file of a type that is not scanned. *)
Definition otherEditor : TextEditor :=
  mkTextEditor (mkTextDocument "file:///w/README.md" "/w/README.md" 12).

Definition readyInstallation : CheckovInstallation :=
  mkInstallation "pip3" "/usr/bin/checkov" (Some "2.3.4").

(** The install command of [activate] awaits [runVersionCommand]. *)
Definition versioningState : State :=
  fst (run sampleHost installingState [(100, InstallSettled 0 (Some sampleInstallation))]).

(** A second install command has installed while the first one still
    awaits [runVersionCommand]. *)
Definition overtakenState : State :=
  fst (run sampleHost versioningState
         [(10, CmdInstallOrUpdateCheckov); (10, InstallSettled 2 (Some sampleInstallation))]).

(** A scan requested from [readyState] waits in the debounce. *)
Definition requestedState : State :=
  fst (run sampleHost readyState [(0, CmdRunFileScan None)]).

Definition requestedArgs : ScanArgs :=
  mkScanArgs sampleEditor "0123-4567" None false 2 "latest" None None.

Definition supersedingArgs : ScanArgs :=
  mkScanArgs sampleEditor "0123-4567" None false 3 "latest" None None.

(** An edit with a newline has been made in [readyState]; the write of
    the temporary file has not settled. *)
Definition editingState : State :=
  fst (run sampleHost readyState
         [(0, DidChangeTextDocument (sampleChange ("a" ++ newline) [newline]))]).

(** The configured version has been set below the minimum in
    [readyState]. *)
Definition misconfiguredState : State :=
  fst (run sampleHost readyState
         [(0, ConfigurationChanged (withVersion (Some "1.9.9") sampleConfiguration))]).

(** While the scan of [scanningState] is in flight an install command
    has been started and the focus has moved to another file. *)
Definition divertedState : State :=
  fst (run sampleHost scanningState
         [(0, CmdInstallOrUpdateCheckov); (0, DidChangeActiveTextEditor (Some otherEditor))]).

(** The state in which [runVersionCommand] of the install [job] has
    resolved with [v], before the install command looks at the focused
    editor: the job is finished, the version is stored in the object
    [target] of that install, the status bar shows the ready state and
    the extension is ready. *)
Definition versionStored (job target : nat) (v : string) (s : State) : State :=
  let objects :=
    alter (fun i => mkInstallation (checkovInstallationMethod i) (checkovPath i) (Some v))
          target (installations s) in
  set_extensionReady true
    (set_statusBar (StatusReady (versionOf (checkovInstallation s) objects))
       (set_installations objects
          (set_installJobs (delete job (installJobs s)) s))).

(** Whether a document of a supported type is focused, as the install
    command asks when it has finished. *)
Definition supportedFileFocused (h : Host) (s : State) : bool :=
  match activeTextEditor s with
  | Some editor => isSupportedFileType h (doc_fileName (editor_document editor)) None
  | None => false
  end.

Definition tokenMissingLog : string :=
  "Bridgecrew API token was not found. Please add it to the configuration.".
Definition tokenMissingMessage : string :=
  "Bridgecrew API token was not found. Please add it to the configuration in order to scan your code.".
Definition prismaUrlMissingLog : string :=
  "Prisma token was identified but no Prisma URL was found".
Definition prismaUrlMissingMessage : string :=
  "Prisma token was identified but no Prisma URL was found. In order to authenticate with your app you must provide Prisma URL".
(** * Properties *)

(** ** String primitives *)

Module JsStringFacts.
Import JsString.
Local Open Scope string_scope.

Lemma white_space_lower c : is_white_space (lower_char c) = is_white_space c.
Proof. destruct c as [[] [] [] [] [] [] [] []]; reflexivity. Qed.

Lemma lower_char_idem c : lower_char (lower_char c) = lower_char c.
Proof. destruct c as [[] [] [] [] [] [] [] []]; reflexivity. Qed.

Lemma toLowerCase_idem s : toLowerCase (toLowerCase s) = toLowerCase s.
Proof. induction s as [|c r IH]; simpl; [|rewrite lower_char_idem, IH]; reflexivity. Qed.

Lemma trimStart_lower s : trimStart (toLowerCase s) = toLowerCase (trimStart s).
Proof.
  induction s as [|c r IH]; simpl; [reflexivity|].
  rewrite white_space_lower. destruct (is_white_space c); [exact IH|reflexivity].
Qed.

Lemma trimEnd_lower s : trimEnd (toLowerCase s) = toLowerCase (trimEnd s).
Proof.
  induction s as [|c r IH]; simpl; [reflexivity|].
  rewrite IH, white_space_lower.
  destruct (trimEnd r); simpl; [destruct (is_white_space c)|]; reflexivity.
Qed.

Lemma trim_lower s : trim (toLowerCase s) = toLowerCase (trim s).
Proof. unfold trim. rewrite trimStart_lower. apply trimEnd_lower. Qed.

Lemma trimEnd_idem s : trimEnd (trimEnd s) = trimEnd s.
Proof.
  induction s as [|c r IH]; simpl; [reflexivity|].
  destruct (trimEnd r) as [|c' r'] eqn:E.
  - destruct (is_white_space c) eqn:W; simpl; [reflexivity|]. rewrite W. reflexivity.
  - simpl in *. rewrite IH. reflexivity.
Qed.

(** A string that does not start with white space keeps its first
    character under [trimEnd]. *)
Lemma trimStart_trimEnd s : trimStart (trimEnd (trimStart s)) = trimEnd (trimStart s).
Proof.
  induction s as [|c r IH]; simpl; [reflexivity|].
  destruct (is_white_space c) eqn:W; [exact IH|].
  simpl. destruct (trimEnd r); rewrite ?W; simpl; rewrite W; reflexivity.
Qed.

Lemma trim_idem s : trim (trim s) = trim s.
Proof. unfold trim. rewrite trimStart_trimEnd. apply trimEnd_idem. Qed.

Lemma trimStart_app_l l s :
  all_chars is_white_space l = true -> trimStart (l ++ s) = trimStart s.
Proof.
  induction l as [|c r IH]; simpl; [reflexivity|].
  intros H. apply andb_prop in H as [-> H]. auto.
Qed.

Lemma trimStart_white r : all_chars is_white_space r = true -> trimStart r = "".
Proof.
  induction r as [|c r IH]; simpl; [reflexivity|].
  intros H. apply andb_prop in H as [-> H]. auto.
Qed.

Lemma trimEnd_white r : all_chars is_white_space r = true -> trimEnd r = "".
Proof.
  induction r as [|c r IH]; simpl; [reflexivity|].
  intros H. apply andb_prop in H as [-> H]. rewrite IH by assumption. reflexivity.
Qed.

Lemma trimEnd_app_r s r :
  all_chars is_white_space r = true -> trimEnd (s ++ r) = trimEnd s.
Proof.
  intros H. induction s as [|c s IH]; simpl.
  - apply trimEnd_white, H.
  - rewrite IH. reflexivity.
Qed.

Lemma trim_app_r s r :
  all_chars is_white_space r = true -> trim (s ++ r) = trim s.
Proof.
  intros H. unfold trim. induction s as [|c s IH]; simpl.
  - rewrite trimStart_white by assumption. reflexivity.
  - destruct (is_white_space c); [exact IH|].
    change (String c (s ++ r)%string) with (String c s ++ r)%string. apply trimEnd_app_r, H.
Qed.

(** White space around a string does not survive [trim]. *)
Lemma trim_pad l s r :
  all_chars is_white_space l = true -> all_chars is_white_space r = true ->
  trim (l ++ s ++ r) = trim s.
Proof.
  intros Hl Hr. unfold trim at 1. rewrite trimStart_app_l by assumption.
  apply (trim_app_r s r Hr).
Qed.

Lemma join_split sep s : join (String sep "") (split sep s) = s.
Proof.
  induction s as [|c r IH]; simpl; [reflexivity|].
  destruct (Ascii.eqb_spec c sep) as [->|Hne].
  - simpl. destruct (split sep r) eqn:E.
    + destruct r; simpl in E; [discriminate|].
      destruct (Ascii.eqb a sep); [discriminate|]. destruct (split sep r); discriminate.
    + rewrite IH. reflexivity.
  - destruct (split sep r) as [|p rest] eqn:E.
    + destruct r; simpl in E; [discriminate|].
      destruct (Ascii.eqb a sep); [discriminate|]. destruct (split sep r); discriminate.
    + simpl in *. destruct rest; simpl in *; rewrite <- IH; reflexivity.
Qed.

Lemma split_nonempty sep s : split sep s <> [].
Proof.
  destruct s as [|c r]; simpl; [discriminate|].
  destruct (Ascii.eqb c sep); [discriminate|]. destruct (split sep r); discriminate.
Qed.

Lemma cut_some sep s a b : cut sep s = (a, Some b) -> s = a ++ String sep b.
Proof.
  revert a. induction s as [|c r IH]; simpl; intros a H; [discriminate|].
  destruct (Ascii.eqb_spec c sep) as [->|Hne].
  - injection H as <- <-. reflexivity.
  - destruct (cut sep r) as [a' b'] eqn:E. injection H as <- ->.
    rewrite (IH a' eq_refl) at 1. reflexivity.
Qed.

Lemma cut_none sep s a : cut sep s = (a, None) -> s = a.
Proof.
  revert a. induction s as [|c r IH]; simpl; intros a H.
  - injection H as <-. reflexivity.
  - destruct (Ascii.eqb c sep); [discriminate|].
    destruct (cut sep r) as [a' b'] eqn:E. injection H as <- ->.
    f_equal. apply IH. reflexivity.
Qed.

(** The part before the first separator contains no separator. *)
Lemma cut_fst sep s : cut sep (fst (cut sep s)) = (fst (cut sep s), None).
Proof.
  induction s as [|c r IH]; simpl; [reflexivity|].
  destruct (Ascii.eqb c sep) eqn:E; simpl; [reflexivity|].
  destruct (cut sep r) as [a b]. simpl in *. rewrite E, IH. reflexivity.
Qed.

Lemma length_cut_fst sep s : String.length (fst (cut sep s)) <= String.length s.
Proof.
  induction s as [|c r IH]; simpl; [lia|].
  destruct (Ascii.eqb c sep); simpl; [lia|].
  destruct (cut sep r); simpl in *. lia.
Qed.

(** The Latin-1 capitals have a lower case; the multiplication sign in
    their middle has none. *)
Lemma lower_char_latin1 :
  lower_char (ascii_of_nat 201) = ascii_of_nat 233
  /\ lower_char (ascii_of_nat 215) = ascii_of_nat 215
  /\ lower_char (ascii_of_nat 222) = ascii_of_nat 254
  /\ lower_char (ascii_of_nat 223) = ascii_of_nat 223.
Proof. repeat split. Qed.

End JsStringFacts.

(** ** The semver model *)

Module SemverFacts.
Import JsString JsStringFacts Semver.
Local Open Scope string_scope.

Lemma digit_not_v c : is_digit c = true -> Ascii.eqb c "v" = false.
Proof. destruct c as [[] [] [] [] [] [] [] []]; vm_compute; congruence. Qed.

Lemma digit_not_eq c : is_digit c = true -> Ascii.eqb c "=" = false.
Proof. destruct c as [[] [] [] [] [] [] [] []]; vm_compute; congruence. Qed.

Lemma numeric_identifier_head a :
  numeric_identifier a = true -> exists c r, a = String c r /\ is_digit c = true.
Proof.
  destruct a as [|c r]; simpl; [discriminate|].
  intros H. apply andb_prop in H as [H _]. apply andb_prop in H as [H _]. eauto.
Qed.

(** Printing the value of a numeric identifier gives the identifier
    back: it has no leading zeros. *)
Lemma number_roundtrip a x :
  numeric_identifier a = true -> to_number a = Some x -> number_to_string x = a.
Proof.
  unfold to_number, number_to_string. intros Hn Hx.
  destruct (NilEmpty.uint_of_string a) as [d|] eqn:E; [|discriminate].
  injection Hx as <-. rewrite DecimalN.Unsigned.to_of.
  assert (Decimal.unorm d = d) as ->; [|apply NilEmpty.sus, E].
  destruct a as [|c r]; [discriminate|]. simpl in Hn, E.
  apply andb_prop in Hn as [_ Hn].
  destruct (NilEmpty.uint_of_string r) as [d'|] eqn:Er; [|discriminate].
  apply uint_of_char_spec in E.
  destruct E as [[-> ->]|E].
  - simpl in Hn. apply String.eqb_eq in Hn. subst r. injection Er as <-. reflexivity.
  - repeat (destruct E as [[-> ->]|E]; [reflexivity|]). destruct E as [-> ->]. reflexivity.
Qed.

Lemma all_digits_not_non_numeric s :
  all_chars is_digit s = true -> non_numeric_identifier s = false.
Proof.
  intros H. unfold non_numeric_identifier.
  assert (some_char (fun c => negb (is_digit c)) s = false) as ->.
  { induction s as [|c r IH]; simpl in *; [reflexivity|].
    apply andb_prop in H as [-> H]. simpl. auto. }
  apply andb_false_r.
Qed.

Lemma identifier_roundtrip id :
  prerelease_identifier id = true ->
  identifier_to_string (identifier_of_string id) = id.
Proof.
  intros H. unfold identifier_of_string.
  destruct (all_chars is_digit id && negb (String.eqb id "")) eqn:D; [|reflexivity].
  destruct (to_number id) as [num|] eqn:T; [|reflexivity].
  destruct (num <? MAX_SAFE_INTEGER)%N; [|reflexivity].
  simpl. apply number_roundtrip; [|assumption].
  apply andb_prop in D as [D _]. unfold prerelease_identifier in H.
  rewrite (all_digits_not_non_numeric _ D), orb_false_r in H. exact H.
Qed.

Lemma identifiers_roundtrip ids :
  forallb prerelease_identifier ids = true ->
  map identifier_to_string (map identifier_of_string ids) = ids.
Proof.
  induction ids as [|i r IH]; simpl; [reflexivity|].
  intros H. apply andb_prop in H as [Hi Hr].
  rewrite identifier_roundtrip, IH by assumption. reflexivity.
Qed.

Lemma parse_main_format m x y z :
  parse_main m = Some (x, y, z) ->
  number_to_string x ++ "." ++ number_to_string y ++ "." ++ number_to_string z = m.
Proof.
  unfold parse_main. intros H.
  destruct (split "." m) as [|a [|b [|c [|]]]] eqn:E; try discriminate.
  destruct (numeric_identifier a && numeric_identifier b && numeric_identifier c)
    eqn:Hn; [|discriminate].
  apply andb_prop in Hn as [Hn Hc]. apply andb_prop in Hn as [Ha Hb].
  destruct (to_number a) as [x'|] eqn:Ea; [|discriminate].
  destruct (to_number b) as [y'|] eqn:Eb; [|discriminate].
  destruct (to_number c) as [z'|] eqn:Ec; [|discriminate].
  destruct (_ && _)%bool; [|discriminate]. injection H as <- <- <-.
  rewrite (number_roundtrip a x'), (number_roundtrip b y'), (number_roundtrip c z')
    by assumption.
  rewrite <- (join_split "." m), E. reflexivity.
Qed.

Lemma parse_main_head m x y z :
  parse_main m = Some (x, y, z) -> exists c r, m = String c r /\ is_digit c = true.
Proof.
  intros H. pose proof (parse_main_format _ _ _ _ H) as F.
  unfold parse_main in H.
  destruct (split "." m) as [|a [|b [|c [|]]]] eqn:E; try discriminate.
  destruct (numeric_identifier a && numeric_identifier b && numeric_identifier c)
    eqn:Hn; [|discriminate].
  apply andb_prop in Hn as [Hn _]. apply andb_prop in Hn as [Ha _].
  destruct (numeric_identifier_head _ Ha) as (c0 & r0 & -> & Hd).
  rewrite <- (join_split "." m), E. simpl. eauto.
Qed.

(** What [parse_plain] reads before the build metadata, in one piece. *)
Lemma parse_plain_inv body v :
  parse_plain body = Some v ->
  exists main pre_part,
    cut "-" (fst (cut "+" body)) = (main, pre_part)
    /\ parse_main main = Some (major v, minor v, patch v)
    /\ parse_prerelease pre_part = Some (prerelease v).
Proof.
  unfold parse_plain. intros H.
  destruct (cut "+" body) as [mp bp]. simpl.
  destruct (cut "-" mp) as [m pp].
  destruct (parse_main m) as [[[x y] z]|] eqn:Hm; [|discriminate].
  destruct (parse_prerelease pp) as [pre|] eqn:Hp; [|discriminate].
  destruct (parse_build bp); [|discriminate].
  injection H as <-. exists m, pp. simpl. auto.
Qed.

(** [format] prints what was read up to the build metadata. *)
Lemma parse_plain_format body v :
  parse_plain body = Some v -> format v = fst (cut "+" body).
Proof.
  intros H. destruct (parse_plain_inv _ _ H) as (m & pp & Hc & Hm & Hp).
  unfold format. rewrite (parse_main_format _ _ _ _ Hm).
  destruct pp as [p|]; simpl in Hp.
  - destruct (forallb prerelease_identifier (split "." p)) eqn:F; [|discriminate].
    injection Hp as Hp. rewrite <- Hp.
    destruct (map identifier_of_string (split "." p)) as [|i is'] eqn:M.
    { apply map_eq_nil in M. destruct (split_nonempty _ _ M). }
    rewrite <- M, identifiers_roundtrip, join_split by assumption.
    symmetry. apply (cut_some _ _ _ _ Hc).
  - injection Hp as Hp. rewrite <- Hp. symmetry. apply (cut_none _ _ _ Hc).
Qed.

Lemma parse_plain_head body v :
  parse_plain body = Some v -> exists c r, body = String c r /\ is_digit c = true.
Proof.
  intros H. destruct (parse_plain_inv _ _ H) as (m & pp & Hc & Hm & _).
  destruct (parse_main_head _ _ _ _ Hm) as (c & r & -> & Hd).
  destruct body as [|c' r']; [discriminate|]. exists c', r'. split; [reflexivity|].
  simpl in Hc. destruct (Ascii.eqb c' "+"); [discriminate|].
  destruct (cut "+" r'). simpl in Hc.
  destruct (Ascii.eqb c' "-"); [discriminate|].
  destruct (cut "-" s). injection Hc as -> _ _. assumption.
Qed.

(** The printed version parses again, to the same version without its
    build metadata. *)
Lemma parse_plain_canonical body v :
  parse_plain body = Some v -> parse_plain (format v) = Some (without_build v).
Proof.
  intros H. rewrite (parse_plain_format _ _ H).
  destruct (parse_plain_inv _ _ H) as (m & pp & Hc & Hm & Hp).
  unfold parse_plain. rewrite cut_fst, Hc, Hm, Hp. reflexivity.
Qed.

Lemma format_without_build v : format (without_build v) = format v.
Proof. reflexivity. Qed.

Lemma length_strip_v s : String.length (strip_v s) <= String.length s.
Proof.
  destruct s as [|c r]; simpl; [lia|].
  destruct c as [[] [] [] [] [] [] [] []]; simpl; lia.
Qed.

Lemma strip_v_digit c r : is_digit c = true -> strip_v (String c r) = String c r.
Proof. destruct c as [[] [] [] [] [] [] [] []]; vm_compute; congruence. Qed.

Lemma parse_canonical s v :
  parse s = Some v -> parse (format v) = Some (without_build v).
Proof.
  unfold parse. destruct (MAX_LENGTH <? String.length s)%nat eqn:L; [discriminate|].
  intros H. apply Nat.ltb_ge in L.
  pose proof (parse_plain_canonical _ _ H) as C.
  destruct (parse_plain_head _ _ C) as (c & r & E & Hd).
  assert (String.length (format v) <= MAX_LENGTH) as Hlen.
  { rewrite (parse_plain_format _ _ H).
    pose proof (length_cut_fst "+" (strip_v s)). pose proof (length_strip_v s). lia. }
  apply Nat.ltb_ge in Hlen. rewrite Hlen, E, strip_v_digit, <- E by assumption.
  exact C.
Qed.

(** A version that [valid] returns is a fixed point of [valid]. *)
Lemma valid_canonical s r : valid s = Some r -> valid r = Some r.
Proof.
  unfold valid. destruct (parse s) as [v|] eqn:P; [|discriminate].
  simpl. intros [= <-]. rewrite (parse_canonical _ _ P). reflexivity.
Qed.

Lemma strip_eq_v_digit c r : is_digit c = true -> strip_eq_v (String c r) = String c r.
Proof.
  intros H. simpl. rewrite (digit_not_v _ H), (digit_not_eq _ H). reflexivity.
Qed.

(** On a trimmed string that [parse] accepts, [clean] and [valid]
    agree: the only prefix there is to remove is the [v]. *)
Lemma clean_of_parsed s v :
  trim s = s -> parse s = Some v -> clean s = Some (format v).
Proof.
  intros Ht P. unfold clean. rewrite Ht.
  unfold parse in P.
  destruct (MAX_LENGTH <? String.length s)%nat eqn:L; [discriminate|].
  apply Nat.ltb_ge in L.
  destruct (parse_plain_head _ _ P) as (c & r & E & Hd).
  assert (strip_eq_v s = strip_v s) as ->.
  { destruct s as [|c' r']; [reflexivity|].
    destruct (Ascii.eqb_spec c' "v") as [->|Hv].
    - simpl in E |- *. rewrite E. apply strip_eq_v_digit, Hd.
    - assert (strip_v (String c' r') = String c' r') as Es.
      { destruct c' as [[] [] [] [] [] [] [] []]; try reflexivity. congruence. }
      rewrite Es in E |- *. injection E as -> ->. apply strip_eq_v_digit, Hd. }
  unfold parse.
  pose proof (length_strip_v s).
  assert ((MAX_LENGTH <? String.length (strip_v s))%nat = false) as ->
    by (apply Nat.ltb_ge; lia).
  rewrite E, strip_v_digit, <- E, P by assumption. reflexivity.
Qed.

Lemma compare_without_build v b :
  Semver.compare (without_build v) b = Semver.compare v b.
Proof. reflexivity. Qed.

(** The printed form of a version in the range is in the range. *)
Lemma satisfies_gte_canonical s v bound :
  parse s = Some v -> satisfies_gte s bound = true ->
  satisfies_gte (format v) bound = true.
Proof.
  unfold satisfies_gte. intros P. rewrite P, (parse_canonical _ _ P).
  destruct (parse bound); [|discriminate]. simpl. auto.
Qed.

End SemverFacts.

(** ** [getCheckovVersion] *)

Module ConfigurationFacts.
Import JsString JsStringFacts Semver SemverFacts.
Local Open Scope string_scope.

Lemma normalizedVersion_trimmed c : trim (normalizedVersion c) = normalizedVersion c.
Proof. unfold normalizedVersion. rewrite trim_lower, trim_idem. reflexivity. Qed.

(** The three checks of the source collapse to one [parse] and one range
    test: [clean] cannot fail once [valid] has succeeded. *)
Lemma getCheckovVersion_cases c :
  getCheckovVersion c =
    let n := normalizedVersion c in
    if String.eqb n "" || String.eqb n "latest" then Ok "latest"
    else match parse n with
         | None => Throw ("Invalid checkov version: " ++ n)
         | Some v =>
             if satisfies_gte n minCheckovVersion then Ok (format v)
             else Throw ("Invalid checkov version: " ++ n
                         ++ " (must be >=" ++ minCheckovVersion ++ ")")
         end.
Proof.
  unfold getCheckovVersion. cbv zeta.
  destruct (String.eqb _ "" || String.eqb _ "latest"); [reflexivity|].
  unfold valid. destruct (parse (normalizedVersion c)) as [v|] eqn:P; simpl; [|reflexivity].
  rewrite (clean_of_parsed _ v (normalizedVersion_trimmed c) P).
  destruct (satisfies_gte _ _); reflexivity.
Qed.

Lemma getCheckovVersion_ok_inv c r :
  getCheckovVersion c = Ok r ->
  r = "latest"
  \/ exists v, parse (normalizedVersion c) = Some v /\ r = format v
               /\ satisfies_gte (normalizedVersion c) minCheckovVersion = true.
Proof.
  rewrite getCheckovVersion_cases. cbv zeta.
  destruct (String.eqb _ "" || String.eqb _ "latest"); [intros [= <-]; auto|].
  destruct (parse (normalizedVersion c)) as [v|] eqn:P; [|discriminate].
  destruct (satisfies_gte _ _) eqn:S; [|discriminate].
  intros [= <-]. right. eauto.
Qed.

(** [satisfies_gte] is the comparator test against the parsed bound. *)
Lemma satisfies_gte_inv s bound :
  satisfies_gte s bound = true ->
  exists v b, parse s = Some v /\ parse bound = Some b /\ Semver.compare v b <> Lt.
Proof.
  unfold satisfies_gte.
  destruct (parse bound) as [b|]; [|discriminate].
  destruct (parse s) as [v|]; [|discriminate].
  intros H. exists v, b. repeat split. destruct (Semver.compare v b); congruence.
Qed.

Lemma getCheckovVersion_same_setting c1 c2 :
  normalizedVersion c1 = normalizedVersion c2 ->
  getCheckovVersion c1 = getCheckovVersion c2.
Proof. intros H. unfold getCheckovVersion. rewrite H. reflexivity. Qed.

End ConfigurationFacts.

(** ** The result mapper *)

Module MapperFacts.



















Lemma mapFindings_nil n : mapFindings n [] = [].
Proof. reflexivity. Qed.

End MapperFacts.

(** ** The scheduler *)

Module SchedulerFacts.

#[local] Set Warnings "-clear-no-such-hyp".


Ltac unfold_handlers :=
  unfold handle, scan_settled, install_settled, version_settled, version_resume,
    install_resume, installOrUpdateCommand, install_catch,
    onDidChangeActiveTextEditor, onDidSaveTextDocument, writeFile_resume,
    onDidChangeTextDocument, getInstallationDetailsCommand, runFileScanCommand,
    runScan_resume, runScan_start, fresh, runScan, removeDiagnosticsCommand,
    assureTokenSet, resetCancelTokenSource, showContactUsUnlessDisabled,
    applyDiagnostics, setMissingConfigurationStatusBarItem, setPassedStatusBarItem,
    setErrorStatusBarItem, setReadyStatusBarItem, setSyncingStatusBarItem,
    setStatusBar;
  cbv [bind ret emit get modify exec].

(** States are kept as explicit records: updates are unfolded and
    projections of records reduced. *)
Ltac simpl_state :=
  unfold set_extensionReady, set_tokenSource, set_cancelledTokens,
    set_checkovInstallation, set_installations, set_diagnostics,
    set_statusBar, set_pendingScan, set_now, set_scans, set_installJobs,
    set_pendingWrites, set_tempFile, set_nextId, set_activeTextEditor,
    set_configuration, currentVersion in *;
  cbn [extensionReady tokenSource cancelledTokens checkovInstallation
    installations diagnostics statusBar pendingScan now scans installJobs
    pendingWrites tempFile nextId activeTextEditor configuration
    fst snd app negb andb orb] in *.

(** Equality of two states built from the same state by updates. *)
Ltac state_eq := simpl_state; reflexivity.

(** Case analysis on the innermost condition of the goal. *)
Ltac case_inner :=
  match goal with
  | |- context [match ?x with _ => _ end] =>
      lazymatch x with
      | context [match _ with _ => _ end] => fail
      | _ => destruct x eqn:?
      end
  end.

Ltac run_with tac :=
  unfold_handlers; cbv beta iota; simpl_state; tac;
  repeat (case_inner; cbv beta iota; simpl_state; simplify_eq; tac).

Ltac run_handler := run_with idtac.

(** Comparisons of times, as propositions. *)
Ltac leb_to_prop :=
  repeat match goal with
         | H : (_ <=? _)%nat = true |- _ => apply Nat.leb_le in H
         | H : (_ <=? _)%nat = false |- _ => apply Nat.leb_gt in H
         end.

Lemma token_order_refl s : token_order s s.
Proof. unfold token_order. auto. Qed.

Lemma token_order_trans s1 s2 s3 :
  token_order s1 s2 -> token_order s2 s3 -> token_order s1 s3.
Proof.
  unfold token_order. intros (H1 & H2 & H3) (H4 & H5 & H6).
  split; [lia|]. split; [intros x Hx; apply H5, H2, Hx|].
  destruct H3 as [H3|H3]; [rewrite H3; exact H6|right; apply H5, H3].
Qed.

Lemma reset_cancels s t :
  t = tokenSource s \/ t ∈ cancelledTokens s ->
  t ∈ ({[tokenSource s]} ∪ cancelledTokens s : gset nat).
Proof.
  intros [->|H]; apply elem_of_union; [left; apply elem_of_singleton; reflexivity|].
  right. exact H.
Qed.

Lemma reset_token_order s : token_order s (reset s).
Proof. unfold token_order, reset. simpl. split; [lia|]. split; set_solver. Qed.

(** In a ready extension RUN_FILE_SCAN_COMMAND resets the token source
    and may hand a scan to the debounced [runScan]; no work starts. *)
Lemma runFileScanCommand_ready h f s :
  extensionReady s = true ->
  exists s' e,
    exec (runFileScanCommand h f) s = (s', e)
    /\ scan_command_frame s s'
    /\ Forall (fun x => is_work x = false) e
    /\ (pendingScan s' = pendingScan s
        \/ exists a, pendingScan s' = Some (a, now s + debounceWait)
                     /\ arg_cancelToken a = S (tokenSource s)
                     /\ arg_fileUri a = f
                     /\ activeTextEditor s = Some (arg_editor a)).
Proof.
  intros R. unfold scan_command_frame. unfold_handlers. rewrite R.
  cbv beta iota; simpl_state.
  repeat (case_inner; cbv beta iota; simpl_state; simplify_eq).
  all: eexists _, _; split; [reflexivity|]; simpl_state; split;
    [repeat split; (reflexivity || assumption)|]; split; [repeat constructor|];
    first [left; reflexivity|right; eexists; repeat split].
Qed.


(** *** Tokens *)

Lemma handle_token_order h ev s : token_order s (fst (exec (handle h ev) s)).
Proof.
  unfold token_order. destruct ev; run_handler.
  all: split; [lia|]; split; set_solver.
Qed.

Lemma advance_token_order h d s : token_order s (fst (exec (advance h d) s)).
Proof.
  unfold token_order, advance. run_handler.
  all: split; [lia|]; split; set_solver.
Qed.

Lemma exec_bind {A B} (m : Action A) (k : A -> Action B) s :
  exec (bind m k) s
  = match m s with
    | (a, s1, e1) => match exec (k a) s1 with (s2, e2) => (s2, e1 ++ e2) end
    end.
Proof.
  unfold exec, bind. destruct (m s) as [[a s1] e1]. destruct (k a s1) as [[b s2] e2].
  reflexivity.
Qed.

(** A step is the timer, then the handler. *)
Lemma step_split h s i :
  step h s i
  = match exec (advance h (fst i)) s with
    | (s1, e1) => match exec (handle h (snd i)) s1 with
                  | (s2, e2) => (s2, e1 ++ e2)
                  end
    end.
Proof.
  unfold step. rewrite exec_bind. unfold exec at 2.
  destruct (advance h (fst i) s) as [[[] s1] e1]. reflexivity.
Qed.

Lemma step_token_order h s i : token_order s (fst (step h s i)).
Proof.
  rewrite step_split.
  pose proof (advance_token_order h (fst i) s) as H1.
  destruct (exec (advance h (fst i)) s) as [s1 e1].
  pose proof (handle_token_order h (snd i) s1) as H2.
  destruct (exec (handle h (snd i)) s1) as [s2 e2].
  exact (token_order_trans _ _ _ H1 H2).
Qed.

Lemma run_token_order h inputs : forall s, token_order s (fst (run h s inputs)).
Proof.
  induction inputs as [|i rest IH]; intros s; simpl; [apply token_order_refl|].
  pose proof (step_token_order h s i) as H1.
  destruct (step h s i) as [s1 e1]. specialize (IH s1).
  destruct (run h s1 rest) as [s2 e2]. exact (token_order_trans _ _ _ H1 IH).
Qed.

(** A cancelled token stays cancelled. *)
Lemma run_keeps_cancelled h inputs s t :
  t ∈ cancelledTokens s -> t ∈ cancelledTokens (fst (run h s inputs)).
Proof. intros H. destruct (run_token_order h inputs s) as (_ & Hsub & _). auto. Qed.

(** From a token that is current or cancelled before, to the same
    after a possible reset. *)
Ltac token_step F :=
  first [ exact F
        | left; exact F
        | right; exact F
        | right; apply elem_of_union; left; apply elem_of_singleton; exact F
        | right; apply elem_of_union; right; exact F ].

Ltac tracked_solver s Hj Hp :=
  first
    [ left; reflexivity
    | match goal with
      | Hl : scans s !! _ = Some _ |- _ =>
          let F := fresh "F" in destruct (Hj _ _ Hl) as [F|F]; token_step F
      | Hq : pendingScan s = Some _ |- _ =>
          let F := fresh "F" in destruct (Hp _ _ Hq) as [F|F]; token_step F
      | Hq : Some _ = Some _ |- _ =>
          let F := fresh "F" in destruct (Hp _ _ Hq) as [F|F]; token_step F
      end
    | let F := fresh "F" in destruct (Hp _ _ eq_refl) as [F|F]; token_step F ].

Lemma handle_tracked h ev s :
  tokens_tracked s -> tokens_tracked (fst (exec (handle h ev) s)).
Proof.
  unfold tokens_tracked. intros [Hj Hp]. destruct ev; run_handler.
  all: split; [intros job' j' Hl|intros a' due' Hl]; simplify_eq.
  all: try (apply lookup_delete_Some in Hl as [_ Hl]).
  all: tracked_solver s Hj Hp.
Qed.

Lemma advance_tracked h d s :
  tokens_tracked s -> tokens_tracked (fst (exec (advance h d) s)).
Proof.
  unfold tokens_tracked, advance. intros [Hj Hp]. run_handler.
  all: split; [intros job' j' Hl|intros a' due' Hl]; simplify_eq.
  all: try (apply lookup_insert_Some in Hl as [[<- <-]|[_ Hl]]); simpl.
  all: tracked_solver s Hj Hp.
Qed.

Lemma step_tracked h s i : tokens_tracked s -> tokens_tracked (fst (step h s i)).
Proof.
  intros H. rewrite step_split.
  pose proof (advance_tracked h (fst i) s H) as H1.
  destruct (exec (advance h (fst i)) s) as [s1 e1].
  pose proof (handle_tracked h (snd i) s1 H1) as H2.
  destruct (exec (handle h (snd i)) s1) as [s2 e2]. exact H2.
Qed.

Lemma run_tracked h inputs :
  forall s, tokens_tracked s -> tokens_tracked (fst (run h s inputs)).
Proof.
  induction inputs as [|i rest IH]; intros s H; simpl; [exact H|].
  pose proof (step_tracked h s i H) as H1.
  destruct (step h s i) as [s1 e1]. specialize (IH s1 H1).
  destruct (run h s1 rest) as [s2 e2]. exact IH.
Qed.

Lemma initial_tracked h active c : tokens_tracked (initialState h active c).
Proof. split; simpl; [intros job j H; rewrite lookup_empty in H|intros a due H]; discriminate. Qed.

(** When [runCheckovScan] settles for a scan whose token is cancelled,
    the invocation ends there: nothing is applied, shown or logged. *)
Lemma scan_settled_cancelled s job j p :
  scans s !! job = Some j -> job_cancelToken j ∈ cancelledTokens s ->
  exec (scan_settled job p) s = (set_scans (delete job (scans s)) s, []).
Proof.
  intros Hl Hc. unfold runCheckovScan_outcome.
  run_with ltac:(rewrite ?Hl, ?(bool_decide_eq_true_2 _ Hc) in *; simpl_state).
  all: reflexivity.
Qed.

Lemma scan_settled_unknown s job p :
  scans s !! job = None -> exec (scan_settled job p) s = (s, []).
Proof. intros Hl. run_with ltac:(rewrite ?Hl in *). reflexivity. Qed.

(** *** The debounce timer *)

Lemma advance_waits h s d :
  timer_not_due s d -> exec (advance h d) s = (set_now (now s + d) s, []).
Proof.
  unfold timer_not_due, advance. intros H. run_handler.
  all: leb_to_prop; try lia; reflexivity.
Qed.

(** When the timer is due, [runScan] runs once with the pending
    arguments and calls the invoker. *)
Lemma advance_fires h s d a due ref inst :
  pendingScan s = Some (a, due) -> due <= now s + d ->
  checkovInstallation s = Some ref -> installations s !! ref = Some inst ->
  exec (advance h d) s
  = (set_scans (<[nextId s := mkScanJob (arg_editor a) (arg_cancelToken a)]> (scans s))
       (set_nextId (S (nextId s))
          (set_statusBar (StatusSyncing (currentVersion s) "Checkov scanning")
             (set_pendingScan None (set_now (now s + d) s)))),
     [LogInfo "Starting to scan.";
      SetStatusBarItem (StatusSyncing (currentVersion s) "Checkov scanning");
      RunCheckovScan (nextId s) (request_of h inst a)]).
Proof.
  intros Hp Hd Hi Ho. unfold advance, request_of, scanned_file.
  run_with ltac:(rewrite ?Hp, ?Hi; simpl; rewrite ?Ho; simpl_state).
  all: leb_to_prop; try lia; rewrite ?Hi; simpl_state; reflexivity.
Qed.

(** *** Traces *)

Lemma run_app h l1 l2 : forall s,
  run h s (l1 ++ l2)
  = match run h s l1 with
    | (s1, e1) => match run h s1 l2 with (s2, e2) => (s2, e1 ++ e2) end
    end.
Proof.
  induction l1 as [|i rest IH]; intros s; simpl.
  - destruct (run h s l2). reflexivity.
  - destruct (step h s i) as [s1 e1]. rewrite IH.
    destruct (run h s1 rest) as [s2 e2]. destruct (run h s2 l2) as [s3 e3].
    rewrite app_assoc. reflexivity.
Qed.



End SchedulerFacts.

(** * The claims *)

Import JsString JsStringFacts SemverFacts ConfigurationFacts MapperFacts SchedulerFacts.

(** ** Installation state and configuration guards *)

(** While the install command runs the extension is not ready. *)
Lemma install_command_clears_ready h s :
  extensionReady (fst (exec (installOrUpdateCommand h) s)) = false.
Proof. run_handler; reflexivity. Qed.

(** C5: a scan requested while the extension is not ready is rejected:
    the command logs a warning, shows a warning message to the user, and
    returns with the state unchanged, so nothing is queued for the
    invoker and whatever happens later happens as if the request had not
    been made. *)
Theorem not_ready_scan_is_rejected (h : Host) (s : State) (fileUri : option string) :
  extensionReady s = false ->
  exec (runFileScanCommand h fileUri) s = (s, notReadyWarnings)
  /\ Forall (fun x => is_dispatch x = false) (snd (exec (runFileScanCommand h fileUri) s))
  /\ forall later,
       run h (fst (exec (runFileScanCommand h fileUri) s)) later = run h s later.
Proof.
  intros R.
  assert (exec (runFileScanCommand h fileUri) s = (s, notReadyWarnings)) as E.
  { unfold runFileScanCommand, exec, bind, get. rewrite R. reflexivity. }
  rewrite E. split; [reflexivity|]. split; [repeat constructor|]. reflexivity.
Qed.

(** The editor events of an extension that is not ready request nothing. *)
Lemma not_ready_events_are_ignored h s ev :
  extensionReady s = false ->
  (exists c, ev = DidChangeTextDocument c) \/ (exists d, ev = DidSaveTextDocument d) ->
  exec (handle h ev) s = (s, []).
Proof.
  intros R [[c ->]|[d ->]]; run_with ltac:(rewrite ?R in *; simpl_state); reflexivity.
Qed.

(** A version that does not validate stops both commands before they
    start any work. *)
Lemma invalid_version_starts_no_work h s message :
  getCheckovVersion (configuration s) = Throw message ->
  (Forall (fun x => is_work x = false) (snd (exec (installOrUpdateCommand h) s))
   /\ installJobs (fst (exec (installOrUpdateCommand h) s)) = installJobs s)
  /\ forall f,
       Forall (fun x => is_work x = false) (snd (exec (runFileScanCommand h f) s))
       /\ pendingScan (fst (exec (runFileScanCommand h f) s)) = pendingScan s
       /\ scans (fst (exec (runFileScanCommand h f) s)) = scans s.
Proof.
  intros H. split; [|intros f].
  - run_with ltac:(rewrite ?H in *; simpl_state); split; first [reflexivity|repeat constructor].
  - run_with ltac:(rewrite ?H in *; simpl_state);
      split; first [reflexivity|repeat constructor|split; reflexivity].
Qed.

(** The claim, read on the configured string itself, fails on the empty
    string: it is neither ["latest"] nor a valid version, and it is mapped
    to ["latest"] instead of being rejected. *)
Lemma empty_version_is_not_rejected :
  ~ (forall raw : string,
       raw <> "latest" -> ~ valid_and_supported raw ->
       exists message,
         getCheckovVersion (withVersion (Some raw) sampleConfiguration) = Throw message).
Proof.
  intros H. destruct (H "") as [m Hm].
  - discriminate.
  - intros [Hv _]. apply Hv. reflexivity.
  - discriminate.
Qed.

(** The white space that is trimmed includes the no-break space: a
    setting padded with it is the version it surrounds.  A character of
    the model is a code unit, so U+00A0 is the character 160 and not
    the two bytes of its UTF-8 encoding. *)
Lemma no_break_space_is_trimmed :
  getCheckovVersion
    (withVersion (Some (String (ascii_of_nat 160) "2.3.4 ")) sampleConfiguration)
  = Ok "2.3.4".
Proof. vm_compute. reflexivity. Qed.

(** C6 (amended): [getCheckovVersion] returns ["latest"] or a version that
    [semver.valid] maps to itself and that is not below the minimum; and
    when the trimmed, lower-cased setting is neither empty nor ["latest"]
    nor a valid version in the supported range, it throws, the install
    command starts no installation and the scan command queues no scan. *)
Theorem getCheckovVersion_validates (c : Configuration) :
  (forall r, getCheckovVersion c = Ok r ->
     r = "latest"
     \/ (Semver.valid r = Some r
         /\ exists v m, Semver.parse r = Some v
                        /\ Semver.parse minCheckovVersion = Some m
                        /\ Semver.compare v m <> Lt))
  /\ (normalizedVersion c <> "" -> normalizedVersion c <> "latest" ->
      ~ valid_and_supported (normalizedVersion c) ->
      (exists message, getCheckovVersion c = Throw message)
      /\ forall h s, configuration s = c ->
           Forall (fun x => is_work x = false) (snd (exec (installOrUpdateCommand h) s))
           /\ installJobs (fst (exec (installOrUpdateCommand h) s)) = installJobs s
           /\ forall f,
                Forall (fun x => is_work x = false)
                       (snd (exec (runFileScanCommand h f) s))
                /\ pendingScan (fst (exec (runFileScanCommand h f) s)) = pendingScan s).
Proof.
  split.
  - intros r H. destruct (getCheckovVersion_ok_inv _ _ H) as [->|(v & P & -> & S)]; [auto|].
    right. split.
    + apply (valid_canonical (normalizedVersion c)). unfold Semver.valid. rewrite P.
      reflexivity.
    + apply satisfies_gte_inv, (satisfies_gte_canonical _ _ _ P S).
  - intros Hne Hnl Hnv.
    assert (exists message, getCheckovVersion c = Throw message) as [m Hm].
    { rewrite getCheckovVersion_cases. cbv zeta.
      apply String.eqb_neq in Hne, Hnl. rewrite Hne, Hnl. simpl.
      destruct (Semver.parse (normalizedVersion c)) as [v|] eqn:P; [|eauto].
      destruct (Semver.satisfies_gte _ _) eqn:S; [|eauto].
      exfalso. apply Hnv. split; [|exact S]. unfold Semver.valid. rewrite P. discriminate. }
    split; [eauto|]. intros h s <-.
    destruct (invalid_version_starts_no_work h s m Hm) as [[H1 H2] H3].
    split; [exact H1|]. split; [exact H2|]. intros f. destruct (H3 f) as (H4 & H5 & _).
    auto.
Qed.

(** C10: [getCheckovVersion] normalizes the setting: white space around
    it and the case of its letters do not matter; an absent, empty or
    blank setting gives ["latest"]; and a specific version is returned in
    the form [semver.clean] gives it, a fixed point of [semver.valid],
    which can differ from the configured string. *)
Theorem getCheckovVersion_normalizes :
  (forall c l s r,
      all_chars is_white_space l = true -> all_chars is_white_space r = true ->
      getCheckovVersion (withVersion (Some (l ++ s ++ r)%string) c)
      = getCheckovVersion (withVersion (Some s) c))
  /\ (forall c s t,
        toLowerCase s = toLowerCase t ->
        getCheckovVersion (withVersion (Some s) c)
        = getCheckovVersion (withVersion (Some t) c))
  /\ (forall c, getCheckovVersion (withVersion None c) = Ok "latest")
  /\ (forall c s,
        all_chars is_white_space s = true ->
        getCheckovVersion (withVersion (Some s) c) = Ok "latest")
  /\ (forall c r,
        getCheckovVersion c = Ok r -> r <> "latest" ->
        Semver.clean (normalizedVersion c) = Some r /\ Semver.valid r = Some r)
  /\ getCheckovVersion (withVersion (Some " V2.3.4+build.7 ") sampleConfiguration)
     = Ok "2.3.4".
Proof.
  repeat split.
  - intros c l s r Hl Hr. apply getCheckovVersion_same_setting.
    unfold normalizedVersion. simpl. rewrite trim_pad by assumption. reflexivity.
  - intros c s t H. apply getCheckovVersion_same_setting.
    unfold normalizedVersion. simpl. rewrite <- !trim_lower, H. reflexivity.
  - intros c s H. unfold getCheckovVersion, normalizedVersion. simpl.
    unfold trim. rewrite trimStart_white by assumption. reflexivity.
  - destruct (getCheckovVersion_ok_inv _ _ H) as [->|(v & P & -> & S)]; [congruence|].
    apply clean_of_parsed; [apply normalizedVersion_trimmed|exact P].
  - destruct (getCheckovVersion_ok_inv _ _ H) as [->|(v & P & -> & S)]; [congruence|].
    apply (valid_canonical (normalizedVersion c)). unfold Semver.valid. rewrite P.
    reflexivity.
Qed.

(** ** Edit events *)

(** C4: a document-change event whose content changes contain no newline
    requests no scan: the handler writes no temporary file, leaves the
    debounced [runScan], the scans in flight and the cancel token as
    they are, and calls no invoker. *)
Theorem edit_without_newline_requests_no_scan (h : Host) (s : State)
    (changeEvent : TextDocumentChangeEvent) :
  hasNewline changeEvent = false ->
  forall s' e,
    exec (handle h (DidChangeTextDocument changeEvent)) s = (s', e) ->
    Forall (fun x => is_dispatch x = false) e
    /\ Forall (fun x => is_write x = false) e
    /\ pendingScan s' = pendingScan s
    /\ pendingWrites s' = pendingWrites s
    /\ scans s' = scans s
    /\ tokenSource s' = tokenSource s
    /\ cancelledTokens s' = cancelledTokens s.
Proof.
  unfold hasNewline. intros H s' e.
  run_with ltac:(rewrite ?H in *; simpl_state).
  all: intros [= <- <-]; simpl_state; repeat split; repeat constructor.
Qed.

(** ** Settling of a scan *)

(** C9: when a scan whose cancel token has been cancelled aborts, the
    [catch] block returns at once: the state, and with it the status bar
    and the diagnostics, is unchanged, nothing is logged and no message
    is shown. *)
Theorem cancelled_scan_exits_silently (s : State) (j : ScanJob) (error : string) :
  job_cancelToken j ∈ cancelledTokens s ->
  runScan_resume j (Rejected error) s = (tt, s, []).
Proof.
  intros H. run_with ltac:(rewrite ?(bool_decide_eq_true_2 _ H) in *; simpl_state).
  reflexivity.
Qed.

(** The success path of [runScan] does not look at the cancel token: a
    result that arrives is applied.  That a superseded scan applies
    nothing therefore rests on the invoker failing once its token is
    cancelled. *)
Lemma resolved_scan_is_applied_unchecked s j failedChecks :
  diagnostics (snd (fst (runScan_resume j (Resolved failedChecks) s)))
    !! doc_uri (editor_document (job_editor j))
  = Some (mapFindings (doc_lineCount (editor_document (job_editor j))) failedChecks).
Proof. run_handler; apply lookup_insert_eq. Qed.

(** A scan that fails while its token is not cancelled is reported. *)
Lemma failed_scan_is_reported s j error :
  job_cancelToken j ∉ cancelledTokens s ->
  statusBar (snd (fst (runScan_resume j (Rejected error) s))) = StatusError (currentVersion s)
  /\ In (LogError "Error occurred while running a checkov scan")
        (snd (runScan_resume j (Rejected error) s)).
Proof.
  intros H. run_with ltac:(rewrite ?(bool_decide_eq_false_2 _ H) in *; simpl_state).
  all: split; [reflexivity|simpl; auto].
Qed.



(** ** Cancellation and debouncing *)

(** The scan command in a ready extension cancels the current token and
    with it, in a state where tokens are tracked, the token of every scan
    that is in flight or waiting in the debounce. *)
Lemma scan_command_cancels_prior h f s :
  extensionReady s = true -> tokens_tracked s ->
  let s' := fst (exec (runFileScanCommand h f) s) in
  tokenSource s ∈ cancelledTokens s'
  /\ (forall job j, scans s !! job = Some j -> job_cancelToken j ∈ cancelledTokens s')
  /\ (forall a due, pendingScan s = Some (a, due) -> arg_cancelToken a ∈ cancelledTokens s').
Proof.
  intros R [Hj Hp]. cbv zeta.
  destruct (runFileScanCommand_ready h f s R) as (s' & e & E & F & _). rewrite E. simpl.
  destruct F as (_ & _ & Hc & _). rewrite Hc.
  split; [apply reset_cancels; auto|]. split.
  - intros job j Hl. apply reset_cancels, (Hj _ _ Hl).
  - intros a due Hl. apply reset_cancels, (Hp _ _ Hl).
Qed.

(** Save and focus events go through the same debounced [runScan] as
    every other request: in the sample state a save of the focused
    document calls no invoker when it is handled; the scan it requests
    waits in the debounce and is dispatched when 300 ms have passed. *)
Lemma save_request_is_not_dispatched_at_once :
  let r1 := step sampleHost readyState (0, DidSaveTextDocument sampleDocument) in
  let r2 := step sampleHost (fst r1) (debounceWait, Tick) in
  ~ (exists job request, In (RunCheckovScan job request) (snd r1))
  /\ (exists a, pendingScan (fst r1) = Some (a, now readyState + debounceWait))
  /\ (exists job request, List.filter is_dispatch (snd r2) = [RunCheckovScan job request]).
Proof.
  split; [|split].
  - vm_compute. intros (job & request & H).
    repeat (destruct H as [H|H]; [discriminate|]). exact H.
  - vm_compute. eexists. reflexivity.
  - vm_compute. eexists _, _. reflexivity.
Qed.

(** The scan command that is accepted: what it hands to the debounced
    [runScan], and what it leaves alone. *)
Lemma accepted_scan_command h s editor fileUri v :
  extensionReady s = true ->
  activeTextEditor s = Some editor ->
  truthy (cfg_token (configuration s)) = true ->
  getCheckovVersion (configuration s) = Ok v ->
  (fileUri = None ->
   isSupportedFileType h (doc_fileName (editor_document editor)) (Some true) = true) ->
  exists s1 e1,
    exec (runFileScanCommand h fileUri) s = (s1, e1)
    /\ pendingScan s1
       = Some (mkScanArgs editor (get_or (cfg_token (configuration s)) "")
                 (getPathToCert (configuration s)) (getUseBcIds (configuration s))
                 (S (tokenSource s)) v (getPrismaUrl (configuration s)) fileUri,
               now s + debounceWait)
    /\ Forall (fun x => is_dispatch x = false) e1
    /\ now s1 = now s
    /\ checkovInstallation s1 = checkovInstallation s
    /\ installations s1 = installations s.
Proof.
  intros Hr Ha Ht Hv Hs.
  assert (fileUri = None ->
          negb (isSupportedFileType h (doc_fileName (editor_document editor)) (Some true))
          = false) as Hs' by (intros E; rewrite (Hs E); reflexivity).
  destruct fileUri as [uri|]; [clear Hs Hs'|specialize (Hs' eq_refl); clear Hs].
  all: run_with ltac:(rewrite ?Hr, ?Ha, ?Ht, ?Hv, ?Hs' in *; simpl_state).
  all: eexists _, _; split; [reflexivity|]; simpl_state.
  all: split; [reflexivity|]; split; [repeat constructor|]; repeat split.
Qed.

(** The state in which a save or focus event executes the scan command:
    the focus event has moved the focus by then. *)
Lemma save_or_focus_executes_scan_command h s ev :
  is_save_or_focus ev = true ->
  extensionReady s = true -> requests_scan h s ev = true ->
  exists s0,
    exec (handle h ev) s = exec (runFileScanCommand h None) s0
    /\ (s0 = s \/ exists editor, s0 = set_activeTextEditor editor s).
Proof.
  intros Hev R Hq. destruct ev; try discriminate; simpl in Hq.
  - apply negb_true_iff in Hq. exists s. split; [|left; reflexivity].
    unfold handle, onDidSaveTextDocument. unfold exec at 1, bind at 1, get at 1.
    rewrite R. simpl. unfold bind at 1, get at 1. rewrite Hq.
    unfold exec. destruct (runFileScanCommand h None s) as [[[] s1] e1].
    reflexivity.
  - set (s0 := set_activeTextEditor changeViewEvent s).
    exists s0. split; [|right; exists changeViewEvent; reflexivity].
    unfold handle, onDidChangeActiveTextEditor.
    unfold exec at 1, bind at 1, modify at 1. fold s0.
    unfold bind at 1, get at 1. replace (extensionReady s0) with true by (symmetry; exact R).
    simpl. destruct changeViewEvent as [editor|]; [rewrite Hq; simpl|].
    all: unfold exec; destruct (runFileScanCommand h None s0) as [[[] s1] e1];
      reflexivity.
Qed.

(** C2 (amended): a save or focus event never calls the invoker when it
    is handled; a scan it requests is handed to the debounced [runScan]
    with the new token and is due [debounceWait] later, not before; in a
    ready extension, an event that gets to the scan command cancels the
    token of every scan in flight or waiting; and when the scan command
    accepts the request (an editor on a supported file is focused, the
    token is set and the version validates), the request is queued with
    the settings of the moment, due [debounceWait] after the event, and
    exactly that scan is dispatched once the wait has passed. *)
Theorem save_and_focus_requests_are_debounced (h : Host) (s : State) (ev : Event) :
  is_save_or_focus ev = true ->
  forall s' e,
    exec (handle h ev) s = (s', e) ->
    Forall (fun x => is_dispatch x = false) e
    /\ scans s' = scans s
    /\ now s' = now s
    /\ (pendingScan s' = pendingScan s
        \/ exists a, pendingScan s' = Some (a, now s + debounceWait)
                     /\ arg_cancelToken a = tokenSource s'
                     /\ arg_fileUri a = None)
    /\ (forall a due d,
          pendingScan s' = Some (a, due) -> now s' + d < due ->
          exec (advance h d) s' = (set_now (now s' + d) s', []))
    /\ (extensionReady s = true -> requests_scan h s ev = true -> tokens_tracked s ->
        tokenSource s ∈ cancelledTokens s'
        /\ (forall job j, scans s !! job = Some j ->
              job_cancelToken j ∈ cancelledTokens s')
        /\ (forall a due, pendingScan s = Some (a, due) ->
              arg_cancelToken a ∈ cancelledTokens s'))
    /\ (extensionReady s = true -> requests_scan h s ev = true ->
        forall editor v,
          activeTextEditor s' = Some editor ->
          isSupportedFileType h (doc_fileName (editor_document editor)) (Some true)
          = true ->
          truthy (cfg_token (configuration s)) = true ->
          getCheckovVersion (configuration s) = Ok v ->
          exists a,
            a = mkScanArgs editor (get_or (cfg_token (configuration s)) "")
                  (getPathToCert (configuration s)) (getUseBcIds (configuration s))
                  (S (tokenSource s)) v (getPrismaUrl (configuration s)) None
            /\ pendingScan s' = Some (a, now s + debounceWait)
            /\ forall d ref inst,
                 debounceWait <= d ->
                 checkovInstallation s = Some ref -> installations s !! ref = Some inst ->
                 exists job,
                   List.filter is_dispatch (snd (exec (advance h d) s'))
                   = [RunCheckovScan job (request_of h inst a)]
                   /\ pendingScan (fst (exec (advance h d) s')) = None).
Proof.
  intros Hev s' e E.
  assert (Forall (fun x => is_dispatch x = false) e /\ scans s' = scans s
          /\ now s' = now s
          /\ (pendingScan s' = pendingScan s
              \/ exists a, pendingScan s' = Some (a, now s + debounceWait)
                           /\ arg_cancelToken a = tokenSource s'
                           /\ arg_fileUri a = None)) as (H1 & H2 & H3 & H4).
  { revert E. destruct ev; try discriminate; run_handler.
    all: intros [= <- <-]; simpl_state.
    all: split; [repeat constructor|]; split; [reflexivity|]; split; [reflexivity|].
    all: first [left; reflexivity|right; eexists; repeat split]. }
  split; [exact H1|]. split; [exact H2|]. split; [exact H3|]. split; [exact H4|].
  split; [|split].
  - intros a due d Hp Hd. apply advance_waits. unfold timer_not_due. rewrite Hp. exact Hd.
  - intros R Hq Ht.
    destruct (save_or_focus_executes_scan_command h s ev Hev R Hq) as (s0 & E' & Hs0).
    rewrite E' in E.
    assert (extensionReady s0 = true /\ tokens_tracked s0
            /\ tokenSource s0 = tokenSource s /\ scans s0 = scans s
            /\ pendingScan s0 = pendingScan s) as (R0 & Ht0 & T0 & S0 & P0)
      by (destruct Hs0 as [->|[editor ->]]; repeat split; (exact R || apply Ht)).
    pose proof (scan_command_cancels_prior h None s0 R0 Ht0) as C.
    rewrite E in C. cbv zeta in C. simpl in C. rewrite T0, S0, P0 in C. exact C.
  - intros R Hq editor v Ha Hf Hk Hv.
    destruct (save_or_focus_executes_scan_command h s ev Hev R Hq) as (s0 & E' & Hs0).
    rewrite E' in E.
    assert (extensionReady s0 = true /\ configuration s0 = configuration s
            /\ tokenSource s0 = tokenSource s /\ now s0 = now s
            /\ checkovInstallation s0 = checkovInstallation s
            /\ installations s0 = installations s) as (R0 & C0 & T0 & N0 & I0 & O0)
      by (destruct Hs0 as [->|[x ->]]; repeat split; exact R).
    destruct (runFileScanCommand_ready h None s0 R0) as (s1 & e1 & E1 & F1 & _).
    rewrite E in E1. injection E1 as <- <-.
    destruct F1 as (_ & _ & _ & _ & _ & _ & _ & _ & _ & _ & _ & A1 & _).
    rewrite A1 in Ha. rewrite <- C0 in Hk, Hv.
    destruct (accepted_scan_command h s0 editor None v R0 Ha Hk Hv (fun _ => Hf))
      as (s1 & e1 & E1 & P1 & _ & N1 & I1 & O1).
    rewrite E in E1. injection E1 as <- <-.
    rewrite C0, T0, N0 in P1. eexists. split; [reflexivity|]. split; [exact P1|].
    intros d ref inst Hd Hi Ho.
    rewrite (advance_fires h s' d _ _ ref inst P1);
      [|rewrite N1, N0; lia|rewrite I1, I0; exact Hi|rewrite O1, O0; exact Ho].
    exists (nextId s'). split; reflexivity.
Qed.

(** C1: take an accepted scan request, whatever happens next, and a later
    accepted scan request.  When the later command returns, before its
    scan is dispatched, the token of the earlier request is cancelled and
    the later request holds a newer token; the token stays cancelled, and
    whenever a scan that holds it settles, whatever the process returned,
    the invocation ends without touching the diagnostics, the status bar
    or the log. *)
Theorem superseded_scan_is_cancelled_and_silent (h : Host) (s : State)
    (f1 f2 : option string) (between : list (nat * Event)) :
  extensionReady s = true ->
  extensionReady (fst (run h (fst (exec (runFileScanCommand h f1) s)) between)) = true ->
  let s1 := fst (exec (runFileScanCommand h f1) s) in
  let s2 := fst (run h s1 between) in
  let s3 := fst (exec (runFileScanCommand h f2) s2) in
  let e3 := snd (exec (runFileScanCommand h f2) s2) in
  (forall a due, pendingScan s1 = Some (a, due) -> pendingScan s1 <> pendingScan s ->
     arg_cancelToken a = tokenSource s1)
  /\ tokenSource s1 ∈ cancelledTokens s3
  /\ tokenSource s1 < tokenSource s3
  /\ Forall (fun x => is_dispatch x = false) e3
  /\ (forall a due, pendingScan s3 = Some (a, due) -> pendingScan s3 <> pendingScan s2 ->
        arg_cancelToken a = tokenSource s3)
  /\ forall later,
       let s4 := fst (run h s3 later) in
       tokenSource s1 ∈ cancelledTokens s4
       /\ forall job j p,
            scans s4 !! job = Some j -> job_cancelToken j = tokenSource s1 ->
            exec (scan_settled job p) s4 = (set_scans (delete job (scans s4)) s4, []).
Proof.
  intros R1 R2. cbv zeta.
  destruct (runFileScanCommand_ready h f1 s R1) as (s1 & e1 & E1 & F1 & _ & P1).
  rewrite E1 in *. simpl in *.
  pose proof (run_token_order h between s1) as O12.
  destruct (run h s1 between) as [s2 e2]. simpl in *.
  destruct (runFileScanCommand_ready h f2 s2 R2) as (s3 & e3 & E3 & F3 & W3 & P3).
  rewrite E3. simpl.
  destruct F1 as (_ & T1 & _). destruct F3 as (_ & T3 & C3 & _).
  destruct O12 as (Hle & Hsub & Hcur).
  assert (tokenSource s1 ∈ cancelledTokens s3) as Hc.
  { rewrite C3. apply reset_cancels. destruct Hcur; auto. }
  split.
  { intros a due Hp Hne. destruct P1 as [P1|(a' & P1 & Ha & _)]; [congruence|].
    rewrite P1 in Hp. injection Hp as <- _. congruence. }
  split; [exact Hc|]. split; [lia|]. split.
  { eapply List.Forall_impl; [|exact W3]. intros [] H; simpl in *; congruence. }
  split.
  { intros a due Hp Hne. destruct P3 as [P3|(a' & P3 & Ha & _)]; [congruence|].
    rewrite P3 in Hp. injection Hp as <- _. congruence. }
  intros later. pose proof (run_keeps_cancelled h later s3 _ Hc) as Hc4.
  split; [exact Hc4|]. intros job j p Hl Ht.
  apply (scan_settled_cancelled _ _ j); [exact Hl|]. rewrite Ht. exact Hc4.
Qed.


(** A request without a token stops before the debounced [runScan]: the
    missing configuration is logged and shown, and no scan is queued. *)
Lemma missing_token_queues_no_scan h f s :
  extensionReady s = true ->
  truthy (cfg_token (configuration s)) = false ->
  let r := exec (runFileScanCommand h f) s in
  pendingScan (fst r) = pendingScan s
  /\ Forall (fun x => is_dispatch x = false) (snd r)
  /\ In (SetStatusBarItem (StatusMissingConfiguration (currentVersion s))) (snd r)
  /\ In (ShowErrorMessage "Bridgecrew API token was not found. Please add it to the configuration in order to scan your code.")
        (snd r).
Proof.
  intros R T. cbv zeta.
  run_with ltac:(rewrite ?R, ?T in *; simpl_state).
  all: split; [reflexivity|]; split; [repeat constructor|]; simpl; auto 10.
Qed.

(** C7: with a Prisma token and no Prisma URL the scan command reports
    the missing configuration and nevertheless queues the scan, which is
    dispatched to the invoker, without a Prisma URL, when the debounce
    wait has passed; the status bar shows "ready", not the missing
    configuration. *)
Theorem prisma_token_without_url_is_scanned :
  let c := withToken (Some "key::secret") sampleConfiguration in
  let s := set_configuration c readyState in
  let r1 := step sampleHost s (0, CmdRunFileScan None) in
  let r2 := step sampleHost (fst r1) (debounceWait, Tick) in
  getTokenType sampleHost "key::secret" = "prisma"
  /\ getPrismaUrl c = None
  /\ In (ShowErrorMessage "Prisma token was identified but no Prisma URL was found. In order to authenticate with your app you must provide Prisma URL")
        (snd r1)
  /\ In (SetStatusBarItem (StatusMissingConfiguration (Some "2.3.4"))) (snd r1)
  /\ statusBar (fst r1) = StatusReady (Some "2.3.4")
  /\ exists job request,
       List.filter is_dispatch (snd r2) = [RunCheckovScan job request]
       /\ req_token request = "key::secret"
       /\ req_prismaUrl request = None.
Proof.
  cbv zeta. split; [reflexivity|]. split; [reflexivity|].
  split; [vm_compute; auto 10|]. split; [vm_compute; auto 10|].
  split; [vm_compute; reflexivity|].
  vm_compute. eexists _, _. repeat split.
Qed.

(** * The theorems on the sample states *)

Lemma not_ready_scan_is_rejected_witness :
  extensionReady installingState = false
  /\ exec (runFileScanCommand sampleHost None) installingState
     = (installingState, notReadyWarnings).
Proof.
  assert (extensionReady installingState = false) as H by (vm_compute; reflexivity).
  split; [exact H|].
  apply (not_ready_scan_is_rejected sampleHost installingState None H).
Defined.

Lemma getCheckovVersion_validates_witness :
  let c := withVersion (Some " 1.9.9") sampleConfiguration in
  (normalizedVersion c <> "" /\ normalizedVersion c <> "latest"
   /\ ~ valid_and_supported (normalizedVersion c))
  /\ exists message, getCheckovVersion c = Throw message.
Proof.
  cbv zeta.
  assert (normalizedVersion (withVersion (Some " 1.9.9") sampleConfiguration) <> ""
          /\ normalizedVersion (withVersion (Some " 1.9.9") sampleConfiguration) <> "latest"
          /\ ~ valid_and_supported
                 (normalizedVersion (withVersion (Some " 1.9.9") sampleConfiguration)))
    as H.
  { split; [vm_compute; discriminate|]. split; [vm_compute; discriminate|].
    intros [_ H]. vm_compute in H. discriminate. }
  split; [exact H|]. destruct H as (H1 & H2 & H3).
  apply (getCheckovVersion_validates (withVersion (Some " 1.9.9") sampleConfiguration));
    assumption.
Defined.

Lemma getCheckovVersion_normalizes_witness :
  getCheckovVersion (withVersion (Some (" " ++ "v2.3.4" ++ "  ")%string) sampleConfiguration)
  = getCheckovVersion (withVersion (Some "v2.3.4") sampleConfiguration)
  /\ getCheckovVersion (withVersion (Some "LaTeSt") sampleConfiguration)
     = getCheckovVersion (withVersion (Some "latest") sampleConfiguration)
  /\ Semver.clean (normalizedVersion (withVersion (Some "V2.3.4") sampleConfiguration))
     = Some "2.3.4".
Proof.
  destruct getCheckovVersion_normalizes as (H1 & H2 & _ & _ & H5 & _).
  split; [apply H1; vm_compute; reflexivity|].
  split; [apply H2; vm_compute; reflexivity|].
  apply H5; [vm_compute; reflexivity|discriminate].
Defined.

Lemma edit_without_newline_requests_no_scan_witness :
  let ev := sampleChange "ab" ["b"] in
  let r := exec (handle sampleHost (DidChangeTextDocument ev)) readyState in
  hasNewline ev = false
  /\ Forall (fun x => is_dispatch x = false) (snd r)
  /\ pendingScan (fst r) = pendingScan readyState.
Proof.
  cbv zeta.
  assert (hasNewline (sampleChange "ab" ["b"]) = false) as H by (vm_compute; reflexivity).
  split; [exact H|].
  destruct (edit_without_newline_requests_no_scan sampleHost readyState
              (sampleChange "ab" ["b"]) H _ _ (surjective_pairing _))
    as (H1 & _ & H2 & _).
  split; assumption.
Defined.

Lemma cancelled_scan_exits_silently_witness :
  job_cancelToken sampleJob ∈ cancelledTokens supersededState
  /\ runScan_resume sampleJob (Rejected "Cancel invoked") supersededState
     = (tt, supersededState, []).
Proof.
  assert (job_cancelToken sampleJob ∈ cancelledTokens supersededState) as H
    by (vm_compute; reflexivity).
  split; [exact H|]. apply cancelled_scan_exits_silently, H.
Defined.


Lemma readyState_tracked : tokens_tracked readyState.
Proof.
  apply (run_tracked sampleHost). split.
  - intros job j H. vm_compute in H. discriminate.
  - intros a due H. vm_compute in H. discriminate.
Qed.

Lemma save_and_focus_requests_are_debounced_witness :
  let ev := DidSaveTextDocument sampleDocument in
  let r := exec (handle sampleHost ev) readyState in
  (is_save_or_focus ev = true /\ extensionReady readyState = true
   /\ requests_scan sampleHost readyState ev = true)
  /\ Forall (fun x => is_dispatch x = false) (snd r)
  /\ tokenSource readyState ∈ cancelledTokens (fst r)
  /\ pendingScan (fst r) = Some (requestedArgs, 1800)
  /\ exists job,
       List.filter is_dispatch (snd (exec (advance sampleHost 300) (fst r)))
       = [RunCheckovScan job (request_of sampleHost readyInstallation requestedArgs)].
Proof.
  cbv zeta.
  assert (extensionReady readyState = true) as HR by (vm_compute; reflexivity).
  assert (requests_scan sampleHost readyState (DidSaveTextDocument sampleDocument) = true)
    as HQ by (vm_compute; reflexivity).
  assert (activeTextEditor
            (fst (exec (handle sampleHost (DidSaveTextDocument sampleDocument)) readyState))
          = Some sampleEditor) as HA by (vm_compute; reflexivity).
  assert (isSupportedFileType sampleHost (doc_fileName (editor_document sampleEditor))
            (Some true) = true) as HF by (vm_compute; reflexivity).
  assert (truthy (cfg_token (configuration readyState)) = true) as HK
    by (vm_compute; reflexivity).
  assert (getCheckovVersion (configuration readyState) = Ok "latest") as HV
    by (vm_compute; reflexivity).
  assert (mkScanArgs sampleEditor (get_or (cfg_token (configuration readyState)) "")
            (getPathToCert (configuration readyState))
            (getUseBcIds (configuration readyState)) (S (tokenSource readyState))
            "latest" (getPrismaUrl (configuration readyState)) None
          = requestedArgs) as HE by (vm_compute; reflexivity).
  assert (now readyState + debounceWait = 1800) as HT by (vm_compute; reflexivity).
  assert (debounceWait <= 300) as HD by (unfold debounceWait; lia).
  assert (checkovInstallation readyState = Some 1) as HC by (vm_compute; reflexivity).
  assert (installations readyState !! 1 = Some readyInstallation) as HI
    by (vm_compute; reflexivity).
  split; [split; [reflexivity|split; assumption]|].
  destruct (save_and_focus_requests_are_debounced sampleHost readyState
              (DidSaveTextDocument sampleDocument) eq_refl _ _ (surjective_pairing _))
    as (H1 & _ & _ & _ & _ & H6 & H7).
  split; [exact H1|]. destruct (H6 HR HQ readyState_tracked) as [H8 _].
  split; [exact H8|].
  destruct (H7 HR HQ sampleEditor "latest" HA HF HK HV) as (a & Ea & HP & HX).
  rewrite HE in Ea. subst a. rewrite HT in HP. split; [exact HP|].
  destruct (HX 300 1 readyInstallation HD HC HI) as (job & HJ & _).
  exists job. exact HJ.
Defined.

Lemma superseded_scan_is_cancelled_and_silent_witness :
  let s1 := fst (exec (runFileScanCommand sampleHost None) readyState) in
  let s2 := fst (run sampleHost s1 [(debounceWait, Tick)]) in
  let s3 := fst (exec (runFileScanCommand sampleHost None) s2) in
  (extensionReady readyState = true /\ extensionReady s2 = true)
  /\ tokenSource s1 ∈ cancelledTokens s3
  /\ tokenSource s1 < tokenSource s3.
Proof.
  cbv zeta.
  assert (extensionReady readyState = true) as HR by (vm_compute; reflexivity).
  assert (extensionReady
            (fst (run sampleHost
                    (fst (exec (runFileScanCommand sampleHost None) readyState))
                    [(debounceWait, Tick)])) = true) as HR2
    by (vm_compute; reflexivity).
  split; [split; assumption|].
  destruct (superseded_scan_is_cancelled_and_silent sampleHost readyState None None
              [(debounceWait, Tick)] HR HR2)
    as (_ & H1 & H2 & _).
  split; assumption.
Defined.

Lemma readyState_accepting : Accepting readyState sampleEditor.
Proof.
  constructor; try (vm_compute; reflexivity).
  - exists "latest". vm_compute. reflexivity.
  - exists 1, (mkInstallation "pip3" "/usr/bin/checkov" (Some "2.3.4")).
    split; vm_compute; reflexivity.
Qed.


(** * Further properties of the code *)

Import JsString JsStringFacts SemverFacts ConfigurationFacts MapperFacts SchedulerFacts.

(** ** Invariants *)

Lemma reset_exact (C : gset nat) (c : nat) :
  (forall t, t ∈ C <-> t < c) -> forall t, t ∈ {[c]} ∪ C <-> t < S c.
Proof.
  intros H t. rewrite elem_of_union, elem_of_singleton, H. lia.
Qed.

Ltac coh_learn H2 H3 :=
  repeat match goal with
         | H : delete _ _ !! _ = Some _ |- _ => apply lookup_delete_Some in H as [? H]
         | H : <[_:=_]> _ !! _ = Some _ |- _ =>
             apply lookup_insert_Some in H as [[? ?]|[? H]]; simplify_eq; simpl in *
         end;
  repeat match goal with
         | H : scans _ !! _ = Some _ |- _ =>
             lazymatch goal with
             | _ : job_cancelToken _ <= _ |- _ => fail
             | _ => pose proof (H2 _ _ H)
             end
         end;
  try pose proof (H3 _ _ eq_refl).

Ltac coh_goal s H1 H2 H3 H4 H5 :=
  first
    [ exact H1 | exact H2 | exact H3 | exact H4 | exact H5
    | apply reset_exact, H1
    | intros; simplify_eq; simpl in *;
      repeat match goal with
             | H : delete _ _ !! _ = Some _ |- _ =>
                 apply lookup_delete_Some in H as [? H]
             end;
      first
        [ discriminate
        | lia
        | solve [eauto]
        | match goal with
          | H : scans _ !! _ = Some _ |- _ => pose proof (H2 _ _ H); lia
          end
        | match goal with
          | H : pendingScan _ = Some _ |- _ => pose proof (H3 _ _ H); lia
          end
        | pose proof (H3 _ _ eq_refl); simpl in *; lia
        | match goal with
          | H : scans _ !! _ = Some _, H' : scans _ !! _ = Some _ |- _ =>
              pose proof (H2 _ _ H); pose proof (H2 _ _ H'); lia
          end ] ].

Lemma handle_coherent h ev s : Coherent s -> Coherent (fst (exec (handle h ev) s)).
Proof.
  intros [H1 H2 H3 H4 H5]. destruct ev; run_handler.
  all: constructor; simpl_state.
  all: try coh_goal s H1 H2 H3 H4 H5.
Qed.

Lemma advance_coherent h d s : Coherent s -> Coherent (fst (exec (advance h d) s)).
Proof.
  intros [H1 H2 H3 H4 H5]. unfold advance. run_handler.
  all: constructor; simpl_state.
  all: try coh_goal s H1 H2 H3 H4 H5.
  - intros job j [[<- <-]|[_ Hl]]%lookup_insert_Some; simpl;
      [apply (H3 _ _ eq_refl)|apply (H2 _ _ Hl)].
  - intros job1 job2 j1 j2 [[<- <-]|[N1 L1]]%lookup_insert_Some
      [[<- <-]|[N2 L2]]%lookup_insert_Some E1 E2; simpl in *.
    + reflexivity.
    + destruct (H5 _ _ _ _ eq_refl E1 L2 E2).
    + destruct (H5 _ _ _ _ eq_refl E2 L1 E1).
    + apply (H4 _ _ _ _ L1 L2 E1 E2).
Qed.

Lemma step_coherent h s i : Coherent s -> Coherent (fst (step h s i)).
Proof.
  intros H. rewrite step_split.
  pose proof (advance_coherent h (fst i) s H) as H1.
  destruct (exec (advance h (fst i)) s) as [s1 e1].
  pose proof (handle_coherent h (snd i) s1 H1) as H2.
  destruct (exec (handle h (snd i)) s1) as [s2 e2]. exact H2.
Qed.

Lemma run_coherent h inputs : forall s, Coherent s -> Coherent (fst (run h s inputs)).
Proof.
  induction inputs as [|i rest IH]; intros s H; simpl; [exact H|].
  pose proof (step_coherent h s i H) as H1.
  destruct (step h s i) as [s1 e1]. specialize (IH s1 H1).
  destruct (run h s1 rest) as [s2 e2]. exact IH.
Qed.

(** [activate] is the initial state followed by the install command. *)
Lemma activate_state h active c :
  fst (activate h active c)
  = fst (exec (handle h CmdInstallOrUpdateCheckov) (initialState h active c)).
Proof. unfold activate. run_handler; reflexivity. Qed.

Lemma initial_coherent h active c : Coherent (initialState h active c).
Proof.
  constructor; simpl.
  - intros t. rewrite elem_of_empty. lia.
  - intros job j H. rewrite lookup_empty in H. discriminate.
  - discriminate.
  - intros job1 job2 j1 j2 H. rewrite lookup_empty in H. discriminate.
  - discriminate.
Qed.

Lemma reachable_coherent h s : reachable h s -> Coherent s.
Proof.
  intros (active & c & inputs & ->). apply run_coherent.
  rewrite activate_state. apply handle_coherent, initial_coherent.
Qed.

(** X1: in every state the extension can reach, a token is cancelled
    exactly when it is older than the token of the current source: the
    current token is never cancelled and no older token is left alive. *)
Theorem cancelled_tokens_are_the_older_ones (h : Host) (s : State) (t : nat) :
  reachable h s -> (t ∈ cancelledTokens s <-> t < tokenSource s).
Proof. intros R. apply (coh_cancelled s (reachable_coherent h s R)). Qed.

(** X2: in every state the extension can reach, at most one scan holds a
    token that is not cancelled: two scans in flight with live tokens are
    the same scan, and while a scan with a live token waits in the
    debounce every scan in flight is cancelled. *)
Theorem at_most_one_live_scan (h : Host) (s : State) :
  reachable h s ->
  (forall job1 job2 j1 j2,
      scans s !! job1 = Some j1 -> scans s !! job2 = Some j2 ->
      job_cancelToken j1 ∉ cancelledTokens s ->
      job_cancelToken j2 ∉ cancelledTokens s ->
      job1 = job2)
  /\ (forall a due job j,
        pendingScan s = Some (a, due) -> arg_cancelToken a ∉ cancelledTokens s ->
        scans s !! job = Some j -> job_cancelToken j ∈ cancelledTokens s).
Proof.
  intros R. destruct (reachable_coherent h s R) as [H1 H2 H3 H4 H5].
  assert (forall t, t <= tokenSource s -> t ∉ cancelledTokens s -> t = tokenSource s) as L.
  { intros t Hle Hn. destruct (decide (t = tokenSource s)); [assumption|].
    destruct Hn. apply H1. lia. }
  split.
  - intros job1 job2 j1 j2 L1 L2 N1 N2.
    apply (H4 _ _ _ _ L1 L2); apply L; eauto.
  - intros a due job j Hp Na Hl. apply H1.
    pose proof (H5 _ _ _ _ Hp (L _ (H3 _ _ Hp) Na) Hl). pose proof (H2 _ _ Hl). lia.
Qed.

Lemma reachable_run h s inputs : reachable h s -> reachable h (fst (run h s inputs)).
Proof.
  intros (active & c & before & ->). exists active, c, (before ++ inputs).
  rewrite run_app. destruct (run h (fst (activate h active c)) before) as [s1 e1].
  simpl. destruct (run h s1 inputs). reflexivity.
Qed.

Lemma reachable_activate h active c : reachable h (fst (activate h active c)).
Proof. exists active, c, []. reflexivity. Qed.

Ltac inst_goal :=
  intros; simplify_eq; simpl in *;
  repeat match goal with
         | H : delete _ _ !! _ = Some _ |- _ => apply lookup_delete_Some in H as [? H]
         | H : <[_:=_]> _ !! _ = Some _ |- _ =>
             apply lookup_insert_Some in H as [[? ?]|[? H]]; simplify_eq
         | H : is_Some None |- _ => destruct H; discriminate
         | H : negb _ = false |- _ => apply negb_false_iff in H
         end;
  first
    [ discriminate
    | solve [eauto]
    | rewrite lookup_insert_eq; solve [eauto]
    | rewrite lookup_alter_is_Some; solve [eauto] ].

Lemma handle_installed h ev s : Installed s -> Installed (fst (exec (handle h ev) s)).
Proof.
  intros [H1 H2 H3 H4]. destruct ev; run_handler.
  all: constructor; simpl_state.
  all: try assumption.
  all: inst_goal.
Qed.


Lemma advance_installed h d s : Installed s -> Installed (fst (exec (advance h d) s)).
Proof.
  intros [H1 H2 H3 H4]. unfold advance. run_handler.
  all: constructor; simpl_state.
  all: try assumption.
  all: try inst_goal.
  all: intros _; apply H3; rewrite Heqo; eauto.
Qed.

Ltac no_abort :=
  repeat (apply List.Forall_cons; [unfold notInstalledAbort; discriminate|]);
  apply List.Forall_nil.

(** No handler logs that Checkov is not installed. *)
Lemma handle_no_abort h ev s :
  Forall (fun e => e <> notInstalledAbort) (snd (exec (handle h ev) s)).
Proof. destruct ev; run_handler; no_abort. Qed.

(** The debounce timer only finds Checkov missing when the invariant is
    broken. *)
Lemma advance_no_abort h d s :
  Installed s -> Forall (fun e => e <> notInstalledAbort) (snd (exec (advance h d) s)).
Proof.
  intros [H1 H2 H3 H4]. unfold advance. run_handler; try no_abort.
  exfalso. destruct (H3 (ex_intro _ _ eq_refl)) as [ref Hr].
  destruct (H1 _ Hr) as [inst Hi]. rewrite Hr in *. simpl in *. congruence.
Qed.

Lemma run_no_abort h inputs : forall s,
  Installed s -> Forall (fun e => e <> notInstalledAbort) (snd (run h s inputs)).
Proof.
  induction inputs as [|i rest IH]; intros s H; simpl; [constructor|].
  rewrite step_split.
  pose proof (advance_installed h (fst i) s H) as I1.
  pose proof (advance_no_abort h (fst i) s H) as A1.
  destruct (exec (advance h (fst i)) s) as [s1 e1]. simpl in *.
  pose proof (handle_installed h (snd i) s1 I1) as I2.
  pose proof (handle_no_abort h (snd i) s1) as A2.
  destruct (exec (handle h (snd i)) s1) as [s2 e2]. simpl in *.
  specialize (IH s2 I2). destruct (run h s2 rest) as [s3 e3]. simpl in *.
  repeat (apply Forall_app; split); assumption.
Qed.

Lemma initial_installed h active c : Installed (initialState h active c).
Proof.
  constructor; simpl; try discriminate.
  all: first [intros [x H]; discriminate
             |intros job v t H; rewrite lookup_empty in H; discriminate].
Qed.

Lemma activate_installed h active c : Installed (fst (activate h active c)).
Proof. rewrite activate_state. apply handle_installed, initial_installed. Qed.

(** X3: the guard of [runScan] against a missing installation never
    fires: whatever reaches the extension after [activate], no scan is
    aborted with "Checkov is not installed". *)
Theorem scan_never_finds_checkov_missing (h : Host) (active : option TextEditor)
    (c : Configuration) (inputs : list (nat * Event)) :
  Forall (fun e => e <> notInstalledAbort)
         (snd (run h (fst (activate h active c)) inputs)).
Proof. apply run_no_abort, activate_installed. Qed.

(** X4: in every state the extension can reach, a ready extension and a
    scan waiting in the debounce both have an installation object to
    scan with. *)
Theorem ready_extension_is_installed (h : Host) (s : State) :
  reachable h s ->
  extensionReady s = true \/ is_Some (pendingScan s) ->
  exists ref inst, checkovInstallation s = Some ref /\ installations s !! ref = Some inst.
Proof.
  intros (active & c & inputs & ->) H.
  assert (Installed (fst (run h (fst (activate h active c)) inputs))) as [H1 H2 H3 _].
  { clear H. generalize (activate_installed h active c).
    generalize (fst (activate h active c)). induction inputs as [|i rest IH]; intros s I.
    - exact I.
    - simpl. pose proof (handle_installed h (snd i) _ (advance_installed h (fst i) s I)) as I2.
      rewrite step_split.
      destruct (exec (advance h (fst i)) s) as [s1 e1]. simpl in I2.
      destruct (exec (handle h (snd i)) s1) as [s2 e2]. simpl in I2.
      specialize (IH s2 I2). destruct (run h s2 rest). exact IH. }
  assert (is_Some (checkovInstallation (fst (run h (fst (activate h active c)) inputs))))
    as [ref Hr] by (destruct H; auto).
  destruct (H1 _ Hr) as [inst Hi]. eauto.
Qed.
(** ** The install command *)

(** X5: however the install command fails, the failure is logged, the
    status bar shows the error state, the contact message is shown
    exactly when [disableErrorMessage] is not set, and nothing else
    moves: no work is started, the extension does not become ready, and
    tokens, pending scan and diagnostics are as before. *)
Theorem install_failure_is_reported (h : Host) (s : State) (ev : Event) :
  install_fails s ev ->
  forall s' e,
    exec (handle h ev) s = (s', e) ->
    statusBar s' = StatusError (currentVersion s')
    /\ In (LogError installErrorMessage) e
    /\ (In ShowContactUsDetails e <-> shouldDisableErrorMessage (configuration s) = false)
    /\ Forall (fun x => is_work x = false) e
    /\ (extensionReady s' = true -> extensionReady s = true /\ ev <> CmdInstallOrUpdateCheckov)
    /\ tokenSource s' = tokenSource s
    /\ pendingScan s' = pendingScan s
    /\ scans s' = scans s
    /\ diagnostics s' = diagnostics s.
Proof.
  intros F s' e.
  destruct ev as [| | | | | | | | | | |job [inst|]|job [v|]| | |]; simpl in F;
    try contradiction.
  - destruct F as [m Hm].
    run_with ltac:(rewrite ?Hm in *; simpl_state).
    all: intros [= <- <-]; simpl_state; unfold installErrorMessage.
    all: repeat split; try (repeat constructor; fail); simpl; auto; try discriminate.
    all: try (intros [H|[H|[H|H]]]; try discriminate; tauto).
    all: try (intros [H|[H|H]]; try discriminate; tauto).
  - destruct F as [v Hv].
    run_with ltac:(rewrite ?Hv in *; simpl_state).
    all: intros [= <- <-]; simpl_state; unfold installErrorMessage.
    all: repeat split; try (repeat constructor; fail); simpl; auto; try discriminate.
    all: try (intros [H|[H|[H|H]]]; try discriminate; tauto).
    all: try (intros [H|[H|H]]; try discriminate; tauto).
  - destruct F as (v & target & Hv).
    run_with ltac:(rewrite ?Hv in *; simpl_state).
    all: intros [= <- <-]; simpl_state; unfold installErrorMessage.
    all: repeat split; try (repeat constructor; fail); simpl; auto; try discriminate.
    all: try (intros [H|[H|[H|H]]]; try discriminate; tauto).
    all: try (intros [H|[H|H]]; try discriminate; tauto).
Qed.

(** When [runVersionCommand] resolves, the install command stores the
    version, shows the ready state, sets the ready flag and then, with
    a document of a supported type focused, does what the scan command
    does, and nothing else. *)
Lemma version_resolved_runs_scan_command h s job target checkovVersion v :
  installJobs s !! job = Some (AwaitVersion checkovVersion target) ->
  exec (handle h (VersionCommandSettled job (Some v))) s
  = if supportedFileFocused h s
    then (fst (exec (runFileScanCommand h None) (versionStored job target v s)),
          SetStatusBarItem (statusBar (versionStored job target v s))
          :: snd (exec (runFileScanCommand h None) (versionStored job target v s)))
    else (versionStored job target v s,
          [SetStatusBarItem (statusBar (versionStored job target v s))]).
Proof.
  intros Hj. unfold supportedFileFocused.
  unfold handle, version_settled. unfold exec at 1, bind at 1, get at 1.
  rewrite Hj. unfold version_resume, setReadyStatusBarItem, setStatusBar.
  unfold bind, get, modify, emit. cbn [fst snd].
  change (activeTextEditor (set_extensionReady true _)) with (activeTextEditor s).
  destruct (activeTextEditor s) as [editor|]; [|reflexivity].
  destruct (isSupportedFileType h _ None); [|reflexivity].
  unfold exec, versionStored, currentVersion.
  destruct (runFileScanCommand h None _) as [[[] s1] e1]. reflexivity.
Qed.

(** X6: when [runVersionCommand] resolves, the extension becomes ready,
    the version is stored in the installation object of this install
    and the job is finished.  With a document of a supported type
    focused the handler then executes the scan command: its state and
    calls are those of RUN_FILE_SCAN_COMMAND run in the ready state, the
    token source is reset, and a request the command accepts is queued
    for the focused editor, due [debounceWait] later.  Otherwise
    nothing follows the ready state: token source and debounce are left
    alone.  The handler itself starts no work. *)
Theorem install_success_enables_scanning (h : Host) (s : State) (job target : nat)
    (checkovVersion v : string) (inst : CheckovInstallation) :
  installJobs s !! job = Some (AwaitVersion checkovVersion target) ->
  installations s !! target = Some inst ->
  forall s' e,
    exec (handle h (VersionCommandSettled job (Some v))) s = (s', e) ->
    extensionReady s' = true
    /\ installations s' !! target
       = Some (mkInstallation (checkovInstallationMethod inst) (checkovPath inst) (Some v))
    /\ installJobs s' !! job = None
    /\ Forall (fun x => is_work x = false) e
    /\ match activeTextEditor s with
       | Some editor =>
           if isSupportedFileType h (doc_fileName (editor_document editor)) None
           then (s', e)
                = (fst (exec (runFileScanCommand h None) (versionStored job target v s)),
                   SetStatusBarItem (statusBar (versionStored job target v s))
                   :: snd (exec (runFileScanCommand h None)
                             (versionStored job target v s)))
                /\ tokenSource s' = S (tokenSource s)
                /\ tokenSource s ∈ cancelledTokens s'
                /\ (forall requested,
                      truthy (cfg_token (configuration s)) = true ->
                      getCheckovVersion (configuration s) = Ok requested ->
                      isSupportedFileType h (doc_fileName (editor_document editor))
                        (Some true) = true ->
                      pendingScan s'
                      = Some (mkScanArgs editor (get_or (cfg_token (configuration s)) "")
                                (getPathToCert (configuration s))
                                (getUseBcIds (configuration s)) (S (tokenSource s))
                                requested (getPrismaUrl (configuration s)) None,
                              now s + debounceWait))
           else (s', e) = (versionStored job target v s,
                           [SetStatusBarItem (statusBar (versionStored job target v s))])
                /\ tokenSource s' = tokenSource s /\ pendingScan s' = pendingScan s
       | None => (s', e) = (versionStored job target v s,
                            [SetStatusBarItem (statusBar (versionStored job target v s))])
                 /\ tokenSource s' = tokenSource s /\ pendingScan s' = pendingScan s
       end.
Proof.
  intros Hj Hi s' e E.
  rewrite (version_resolved_runs_scan_command h s job target checkovVersion v Hj) in E.
  unfold supportedFileFocused in E.
  set (s0 := versionStored job target v s) in *.
  assert (extensionReady s0 = true) as R0 by reflexivity.
  assert (installations s0 !! target
          = Some (mkInstallation (checkovInstallationMethod inst) (checkovPath inst)
                    (Some v))) as I0
    by (unfold s0, versionStored; simpl; rewrite lookup_alter_eq, Hi; reflexivity).
  assert (installJobs s0 !! job = None) as J0
    by (unfold s0, versionStored; simpl; apply lookup_delete_eq).
  assert (forall editor,
            activeTextEditor s = Some editor ->
            isSupportedFileType h (doc_fileName (editor_document editor)) None = true ->
            (s', e) = (fst (exec (runFileScanCommand h None) s0),
                       SetStatusBarItem (statusBar s0)
                       :: snd (exec (runFileScanCommand h None) s0)) ->
            extensionReady s' = true
            /\ installations s' !! target
               = Some (mkInstallation (checkovInstallationMethod inst) (checkovPath inst)
                         (Some v))
            /\ installJobs s' !! job = None
            /\ Forall (fun x => is_work x = false) e
            /\ tokenSource s' = S (tokenSource s)
            /\ tokenSource s ∈ cancelledTokens s'
            /\ (forall requested,
                  truthy (cfg_token (configuration s)) = true ->
                  getCheckovVersion (configuration s) = Ok requested ->
                  isSupportedFileType h (doc_fileName (editor_document editor))
                    (Some true) = true ->
                  pendingScan s'
                  = Some (mkScanArgs editor (get_or (cfg_token (configuration s)) "")
                            (getPathToCert (configuration s))
                            (getUseBcIds (configuration s)) (S (tokenSource s))
                            requested (getPrismaUrl (configuration s)) None,
                          now s + debounceWait))) as Hscan.
  { intros editor Ha Hs Eq.
    destruct (runFileScanCommand_ready h None s0 R0) as (s1 & e1 & E1 & F1 & W1 & _).
    rewrite E1 in Eq. cbn [fst snd] in Eq. injection Eq as -> ->.
    destruct F1 as (F1 & F2 & F3 & _ & F5 & _ & _ & F8 & _).
    split; [rewrite F1; exact R0|]. split; [rewrite F5; exact I0|].
    split; [rewrite F8; exact J0|]. split; [constructor; [reflexivity|exact W1]|].
    split; [exact F2|]. split; [rewrite F3; apply elem_of_union; left;
                                apply elem_of_singleton; reflexivity|].
    intros requested Hk Hv Ht.
    destruct (accepted_scan_command h s0 editor None requested R0 Ha Hk Hv (fun _ => Ht))
      as (s2 & e2 & E2 & P2 & _).
    rewrite E1 in E2. injection E2 as <- <-. exact P2. }
  destruct (activeTextEditor s) as [editor|] eqn:Ha.
  - destruct (isSupportedFileType h (doc_fileName (editor_document editor)) None) eqn:Hs.
    + symmetry in E.
      destruct (Hscan editor eq_refl Hs E) as (H1 & H2 & H3 & H4 & H5 & H6 & H7).
      split; [exact H1|]. split; [exact H2|]. split; [exact H3|]. split; [exact H4|].
      split; [exact E|]. split; [exact H5|]. split; [exact H6|]. exact H7.
    + injection E as <- <-. repeat (split; [first [assumption|reflexivity]|]).
      split; [repeat constructor|]. repeat split.
  - injection E as <- <-. repeat (split; [first [assumption|reflexivity]|]).
    split; [repeat constructor|]. repeat split.
Qed.

(** X7: the install command does not touch the scans: one that waits in
    the debounce stays there, and when its timer is due it is handed to
    the invoker although the extension is not ready. *)
Theorem install_command_keeps_pending_scan (h : Host) (s : State) (a : ScanArgs)
    (due d ref : nat) (inst : CheckovInstallation) :
  pendingScan s = Some (a, due) -> due <= now s + d ->
  checkovInstallation s = Some ref -> installations s !! ref = Some inst ->
  forall s1 e1 s2 e2,
    exec (handle h CmdInstallOrUpdateCheckov) s = (s1, e1) ->
    exec (advance h d) s1 = (s2, e2) ->
    extensionReady s1 = false /\ extensionReady s2 = false
    /\ pendingScan s1 = Some (a, due) /\ scans s1 = scans s
    /\ tokenSource s1 = tokenSource s /\ cancelledTokens s1 = cancelledTokens s
    /\ exists job, In (RunCheckovScan job (request_of h inst a)) e2.
Proof.
  intros Hp Hd Hi Ho s1 e1 s2 e2 E1.
  assert (extensionReady s1 = false /\ pendingScan s1 = Some (a, due)
          /\ scans s1 = scans s /\ tokenSource s1 = tokenSource s
          /\ cancelledTokens s1 = cancelledTokens s /\ now s1 = now s
          /\ checkovInstallation s1 = Some ref /\ installations s1 !! ref = Some inst)
    as (R1 & P1 & S1 & T1 & C1 & N1 & I1 & O1).
  { revert E1. run_handler; intros [= <- <-]; simpl_state; repeat split; assumption. }
  rewrite <- N1 in Hd. rewrite (advance_fires h s1 d a due ref inst P1 Hd I1 O1).
  intros [= <- <-]. simpl_state. repeat split; try assumption.
  exists (nextId s1). simpl. auto.
Qed.

(** ** Commands and editor events *)

(** X8: REMOVE_DIAGNOSTICS_COMMAND empties the diagnostics of the focused
    document and of no other, and shows the ready state; it cancels no
    scan.  Without a focused editor it does nothing. *)
Theorem remove_diagnostics_clears_focused_document (s : State) :
  forall s' e,
    exec removeDiagnosticsCommand s = (s', e) ->
    tokenSource s' = tokenSource s /\ cancelledTokens s' = cancelledTokens s
    /\ pendingScan s' = pendingScan s /\ scans s' = scans s
    /\ match activeTextEditor s with
       | None => s' = s /\ e = []
       | Some editor =>
           diagnostics s' !! doc_uri (editor_document editor) = Some []
           /\ (forall uri, uri <> doc_uri (editor_document editor) ->
                 diagnostics s' !! uri = diagnostics s !! uri)
           /\ statusBar s' = StatusReady (currentVersion s)
       end.
Proof.
  intros s' e. run_handler; intros [= <- <-]; simpl_state.
  - repeat split; try reflexivity; [apply lookup_insert_eq|].
    intros uri Hne. apply lookup_insert_ne. congruence.
  - repeat split.
Qed.

(** X9: when the focus moves to a file of an unsupported type, the
    current token is cancelled and the status bar shows the ready state;
    no scan is requested, no diagnostics change, and a scan that waits in
    the debounce is not withdrawn: it keeps waiting, its token
    cancelled. *)
Theorem focus_on_unsupported_file_cancels (h : Host) (s : State) (editor : TextEditor) :
  extensionReady s = true ->
  isSupportedFileType h (doc_fileName (editor_document editor)) None = false ->
  forall s' e,
    exec (handle h (DidChangeActiveTextEditor (Some editor))) s = (s', e) ->
    tokenSource s' = S (tokenSource s)
    /\ tokenSource s ∈ cancelledTokens s'
    /\ pendingScan s' = pendingScan s
    /\ scans s' = scans s
    /\ diagnostics s' = diagnostics s
    /\ statusBar s' = StatusReady (currentVersion s)
    /\ e = [SetStatusBarItem (StatusReady (currentVersion s))]
    /\ (tokens_tracked s -> forall a due, pendingScan s' = Some (a, due) ->
          arg_cancelToken a ∈ cancelledTokens s').
Proof.
  intros R U s' e.
  run_with ltac:(rewrite ?R, ?U in *; simpl_state).
  intros [= <- <-]; simpl_state.
  repeat split; [apply reset_cancels; auto|].
  intros [_ Hp] a due Hl. apply reset_cancels, (Hp _ _ Hl).
Qed.

(** X10: a save of a document that is not the focused one, or not of a
    supported type, only resets the status bar to the ready state: no
    token is cancelled, no scan is requested and no diagnostics
    change. *)
Theorem save_of_other_document_only_resets_status (h : Host) (s : State)
    (saveEvent : TextDocument) :
  extensionReady s = true ->
  notActiveOrUnsupported h (activeTextEditor s) saveEvent = true ->
  exec (handle h (DidSaveTextDocument saveEvent)) s
  = (set_statusBar (StatusReady (currentVersion s)) s,
     [SetStatusBarItem (StatusReady (currentVersion s))]).
Proof.
  intros R U. run_with ltac:(rewrite ?R, ?U in *; simpl_state). reflexivity.
Qed.

(** X11: while the extension is not ready the editor events are dropped
    without a trace: no warning, no message, no status change; a focus
    change is only recorded. *)
Theorem editor_events_are_dropped_when_not_ready (h : Host) (s : State) (ev : Event) :
  extensionReady s = false ->
  is_editor_event ev = true ->
  exec (handle h ev) s
  = (match ev with
     | DidChangeActiveTextEditor editor => set_activeTextEditor editor s
     | _ => s
     end, []).
Proof.
  intros R E. destruct ev; try discriminate;
    run_with ltac:(rewrite ?R in *; simpl_state); reflexivity.
Qed.

(** X12: a write of the temporary file that fails is logged and nothing
    else happens: the write is dropped from the queue, no scan is
    requested, no token is cancelled and the file keeps its content. *)
Theorem failed_write_requests_no_scan (h : Host) (s : State) (text : string)
    (rest : list string) :
  pendingWrites s = text :: rest ->
  exec (handle h (WriteFileSettled false)) s
  = (set_pendingWrites rest s, [LogError "Error occurred trying to save temp file"]).
Proof.
  intros W. run_with ltac:(rewrite ?W in *; simpl_state). reflexivity.
Qed.

(** ** The scan command and the settling of scans *)

(** X13: with a version that does not validate, the scan command rejects
    after it has already cancelled the current token and checked the
    token setting: the diagnostics are not cleared and nothing is
    queued. *)
Theorem scan_command_with_invalid_version (h : Host) (s : State)
    (fileUri : option string) (message : string) :
  extensionReady s = true ->
  getCheckovVersion (configuration s) = Throw message ->
  forall s' e,
    exec (runFileScanCommand h fileUri) s = (s', e) ->
    In (CommandRejected message) e
    /\ tokenSource s' = S (tokenSource s)
    /\ tokenSource s ∈ cancelledTokens s'
    /\ diagnostics s' = diagnostics s
    /\ diagnostics_targets e = []
    /\ pendingScan s' = pendingScan s.
Proof.
  intros R V s' e.
  run_with ltac:(rewrite ?R, ?V in *; simpl_state).
  all: intros [= <- <-]; simpl_state.
  all: repeat split; simpl; auto 10.
  all: apply reset_cancels; auto.
Qed.

(** X14: with a version that validates, every scan command of a ready
    extension with a focused editor empties the diagnostics of the
    focused document, also when it then requests no scan because the
    token is missing or the file type is unsupported. *)
Theorem scan_command_clears_diagnostics_first (h : Host) (s : State)
    (fileUri : option string) (editor : TextEditor) (v : string) :
  extensionReady s = true ->
  getCheckovVersion (configuration s) = Ok v ->
  activeTextEditor s = Some editor ->
  forall s' e,
    exec (runFileScanCommand h fileUri) s = (s', e) ->
    diagnostics s' !! doc_uri (editor_document editor) = Some []
    /\ diagnostics_targets e = [doc_uri (editor_document editor)]
    /\ statusBar s' = StatusReady (currentVersion s).
Proof.
  intros R V A s' e.
  run_with ltac:(rewrite ?R, ?V, ?A in *; simpl_state).
  all: intros [= <- <-]; simpl_state.
  all: repeat split; apply lookup_insert_eq.
Qed.

(** X15: a scan that fails while its token is live is reported once:
    the status bar shows the error state and the failure is logged; the
    contact message is shown exactly when [disableErrorMessage] is not
    set; nothing else changes, the diagnostics of the last scan stay. *)
Theorem failed_scan_is_reported_once (s : State) (j : ScanJob) (error : string) :
  job_cancelToken j ∉ cancelledTokens s ->
  runScan_resume j (Rejected error) s
  = (tt, set_statusBar (StatusError (currentVersion s)) s,
     SetStatusBarItem (StatusError (currentVersion s))
     :: LogError scanErrorMessage
     :: (if shouldDisableErrorMessage (configuration s) then []
         else [ShowContactUsDetails])).
Proof.
  intros Hc.
  run_with ltac:(rewrite ?(bool_decide_eq_false_2 _ Hc) in *; simpl_state); reflexivity.
Qed.

(** X16: the result of a scan is applied to the document of the editor
    that was focused when the scan was requested, whatever is focused
    when the scan completes, and to that document only; the result is
    saved for the fix provider first. *)
Theorem scan_result_goes_to_requesting_document (s : State) (j : ScanJob)
    (failedChecks : list Finding) :
  forall s' e,
    exec (runScan_resume j (Resolved failedChecks)) s = (s', e) ->
    diagnostics_targets e = [doc_uri (editor_document (job_editor j))]
    /\ is_Some (diagnostics s' !! doc_uri (editor_document (job_editor j)))
    /\ (forall uri, uri <> doc_uri (editor_document (job_editor j)) ->
          diagnostics s' !! uri = diagnostics s !! uri)
    /\ activeTextEditor s' = activeTextEditor s
    /\ exists rest, e = SaveCheckovResult failedChecks :: rest.
Proof.
  intros s' e.
  run_handler; intros [= <- <-]; simpl_state.
  all: split; [reflexivity|]; split; [rewrite lookup_insert_eq; eauto|].
  all: split; [intros uri Hne; apply lookup_insert_ne; congruence|].
  all: split; [reflexivity|eauto].
Qed.

(** ** Overlapping work *)

(** X17: when a second install command has replaced the installation
    object while the first one awaited [runVersionCommand], the version
    the first one obtains is stored in the object it installed, not in
    the current one: the extension becomes ready with the ready state
    shown without a version, and the installation details command
    answers that Checkov has not been installed. *)
Theorem overtaken_install_leaves_version_unknown (h : Host) (s : State)
    (job target ref : nat) (checkovVersion v : string) (inst : CheckovInstallation) :
  installJobs s !! job = Some (AwaitVersion checkovVersion target) ->
  checkovInstallation s = Some ref ->
  ref <> target ->
  installations s !! ref = Some inst ->
  version inst = None ->
  forall s1 e1 s2 e2,
    exec (handle h (VersionCommandSettled job (Some v))) s = (s1, e1) ->
    exec (handle h CmdGetInstallationDetails) s1 = (s2, e2) ->
    extensionReady s1 = true
    /\ currentVersion s1 = None
    /\ In (SetStatusBarItem (StatusReady None)) e1
    /\ e2 = [ShowWarningMessage notInstalledWarning].
Proof.
  intros Hj Hr Hne Hi Hv s1 e1 s2 e2 E1 E2.
  assert (extensionReady s1 = true /\ checkovInstallation s1 = Some ref
          /\ installations s1 !! ref = Some inst
          /\ In (SetStatusBarItem (StatusReady None)) e1) as (R1 & C1 & I1 & S1).
  { revert E1.
    run_with ltac:(unfold versionOf in *; rewrite ?Hj, ?Hr in *; simpl_state;
                   rewrite ?lookup_alter_ne, ?Hi in * by congruence;
                   simpl in *; rewrite ?Hv in *).
    all: intros [= <- <-]; simpl_state.
    all: rewrite ?lookup_alter_ne by congruence.
    all: repeat split; simpl; auto 10. }
  split; [assumption|]. split.
  { unfold currentVersion, versionOf. rewrite C1. simpl. rewrite I1. simpl. assumption. }
  split; [assumption|].
  revert E2. unfold handle, getInstallationDetailsCommand, exec, bind, get, emit. simpl.
  rewrite C1. simpl. rewrite I1. destruct inst as [m p ver]. simpl in Hv. subst ver.
  intros [= <- <-]. reflexivity.
Qed.

(** X20: a scan that waits in the debounce when the focus moves to a
    file of an unsupported type is still handed to the invoker when its
    timer is due, for the editor that requested it and with its token,
    which is cancelled by then. *)
Theorem focus_away_keeps_debounced_scan (h : Host) (s : State) (editor : TextEditor)
    (a : ScanArgs) (due d ref : nat) (inst : CheckovInstallation) :
  extensionReady s = true ->
  isSupportedFileType h (doc_fileName (editor_document editor)) None = false ->
  pendingScan s = Some (a, due) -> due <= now s + d ->
  arg_cancelToken a = tokenSource s ->
  checkovInstallation s = Some ref -> installations s !! ref = Some inst ->
  forall s1 e1 s2 e2,
    exec (handle h (DidChangeActiveTextEditor (Some editor))) s = (s1, e1) ->
    exec (advance h d) s1 = (s2, e2) ->
    Forall (fun x => is_dispatch x = false) e1
    /\ exists job,
         In (RunCheckovScan job (request_of h inst a)) e2
         /\ scans s2 !! job = Some (mkScanJob (arg_editor a) (arg_cancelToken a))
         /\ arg_cancelToken a ∈ cancelledTokens s2.
Proof.
  intros R U Hp Hd Ht Hi Ho s1 e1 s2 e2 E1.
  assert (e1 = [SetStatusBarItem (StatusReady (currentVersion s))]
          /\ pendingScan s1 = Some (a, due) /\ now s1 = now s
          /\ checkovInstallation s1 = Some ref /\ installations s1 !! ref = Some inst
          /\ tokenSource s ∈ cancelledTokens s1)
    as (-> & P1 & N1 & I1 & O1 & C1).
  { revert E1. run_with ltac:(rewrite ?R, ?U in *; simpl_state).
    intros [= <- <-]; simpl_state. repeat split; try assumption.
    apply reset_cancels; auto. }
  rewrite <- N1 in Hd. rewrite (advance_fires h s1 d a due ref inst P1 Hd I1 O1).
  intros [= <- <-]. simpl_state. split; [repeat constructor|].
  exists (nextId s1). split; [simpl; auto|]. split; [apply lookup_insert_eq|].
  rewrite Ht. assumption.
Qed.

(** X21: the commands that open the settings, an external link or the
    log, and the installation details command, make one call to the
    editor and leave everything else alone: no scan is requested or
    cancelled, and neither the status bar nor the diagnostics change. *)
Theorem ui_commands_change_nothing (h : Host) (s : State) (ev : Event) :
  is_ui_command ev = true ->
  exists x, exec (handle h ev) s = (s, [x])
            /\ is_work x = false /\ is_display x = false.
Proof.
  intros U. destruct ev; try discriminate; simpl.
  - eexists; split; [reflexivity|]. split; reflexivity.
  - eexists; split; [reflexivity|]. split; reflexivity.
  - unfold getInstallationDetailsCommand, exec, bind, get, emit. simpl.
    destruct (checkovInstallation s ≫= _) as [[m p [v|]]|];
      [destruct (String.eqb v "")| |];
      eexists; (split; [reflexivity|]); split; reflexivity.
  - eexists; split; [reflexivity|]. split; reflexivity.
Qed.

(** ** Settings of a scan *)

(** X22: [assureTokenSet] returns the configured token whatever it
    reports.  It reports exactly when the token is missing or is a
    Prisma token without a Prisma URL: then it logs the error, shows the
    error message that names what is missing, and sets the
    missing-configuration status bar, in this order, and changes nothing
    else; otherwise it makes no call and changes nothing. *)
Theorem assureTokenSet_returns_the_setting (h : Host) (s : State) :
  forall r s' e,
    assureTokenSet h s = (r, s', e) ->
    r = cfg_token (configuration s)
    /\ (e = [] <->
        truthy (cfg_token (configuration s)) = true
        /\ (String.eqb (getTokenType h (get_or (cfg_token (configuration s)) "")) "prisma"
            && negb (truthy (getPrismaUrl (configuration s))))%bool = false)
    /\ (e = [] -> s' = s)
    /\ (e <> [] ->
        s' = set_statusBar (StatusMissingConfiguration (currentVersion s)) s
        /\ exists logged shown,
             e = [LogError logged; ShowErrorMessage shown;
                  SetStatusBarItem (StatusMissingConfiguration (currentVersion s))]
             /\ (if truthy (cfg_token (configuration s))
                 then logged = prismaUrlMissingLog /\ shown = prismaUrlMissingMessage
                 else logged = tokenMissingLog /\ shown = tokenMissingMessage)).
Proof.
  intros r s' e. unfold assureTokenSet.
  run_with ltac:(simpl_state).
  all: intros [= <- <- <-]; simpl_state.
  all: split; [reflexivity|].
  all: split;
    [split;
       [first [discriminate
              |intros _; split;
                 [destruct (truthy (cfg_token (configuration s))); (reflexivity || discriminate)
                 |reflexivity]]
       |first [reflexivity
              |intros [T F]; first [discriminate|rewrite T in *; discriminate]]]|].
  all: split; [first [discriminate|reflexivity]|].
  all: intros N; try (destruct N; reflexivity).
  all: split; [reflexivity|]; eexists _, _; split; [reflexivity|].
  all: destruct (truthy (cfg_token (configuration s))); try discriminate; split; reflexivity.
Qed.

(** X23: a scan is run with the settings read when it was requested:
    the token, certificate, id style, Prisma URL and version of the
    configuration at the time of the scan command, the token of the
    source the command created, and the file given to the command or
    else the file of the focused document; a change of the configuration
    during the debounce wait does not reach it. *)
Theorem scan_uses_settings_of_its_request (h : Host) (s : State) (editor : TextEditor)
    (fileUri : option string) (v : string) (c' : Configuration) (d : nat) :
  Accepting s editor ->
  getCheckovVersion (configuration s) = Ok v ->
  pendingScan s = None ->
  (fileUri = None ->
   isSupportedFileType h (doc_fileName (editor_document editor)) (Some true) = true) ->
  debounceWait <= d ->
  exists s' e job request,
    run h s [(0, CmdRunFileScan fileUri); (0, ConfigurationChanged c'); (d, Tick)] = (s', e)
    /\ List.filter is_dispatch e = [RunCheckovScan job request]
    /\ req_token request = get_or (cfg_token (configuration s)) ""
    /\ req_certPath request = getPathToCert (configuration s)
    /\ req_useBcIds request = getUseBcIds (configuration s)
    /\ req_prismaUrl request = getPrismaUrl (configuration s)
    /\ req_checkovVersion request = v
    /\ req_cancelToken request = S (tokenSource s)
    /\ req_fileName request
       = match fileUri with
         | Some uri => uri
         | None => doc_fileName (editor_document editor)
         end
    /\ configuration s' = c'.
Proof.
  intros Hacc Hv Hp Hs Hd.
  pose proof (acc_installed _ _ Hacc) as (ref & inst & Hi & Ho).
  destruct (accepted_scan_command h (set_now (now s + 0) s) editor fileUri v
              (acc_ready _ _ Hacc) (acc_active _ _ Hacc) (acc_token _ _ Hacc) Hv Hs)
    as (s1 & e1 & E1 & P1 & F1 & N1 & I1 & O1).
  unfold set_now in P1, N1, I1, O1. cbn [configuration tokenSource now checkovInstallation
                                          installations] in P1, N1, I1, O1.
  cbn [run]. rewrite step_split. cbn [fst snd].
  rewrite (advance_waits h s 0) by (unfold timer_not_due; rewrite Hp; exact I).
  cbn [handle]. rewrite E1. cbv iota beta.
  rewrite step_split. cbn [fst snd].
  rewrite (advance_waits h s1 0)
    by (unfold timer_not_due; rewrite P1, N1; unfold debounceWait; lia).
  cbn [handle]. unfold exec at 1. unfold modify. cbv iota beta.
  rewrite step_split. cbn [fst snd].
  assert (pendingScan (set_configuration c' (set_now (now s1 + 0) s1)) = pendingScan s1)
    as P2 by reflexivity.
  rewrite P1 in P2.
  rewrite (advance_fires h _ d _ _ ref inst P2);
    [|simpl; rewrite N1; unfold debounceWait in *; lia
     |simpl; rewrite I1; exact Hi|simpl; rewrite O1; exact Ho].
  cbn [handle]. unfold exec at 1, ret. cbv iota beta.
  eexists _, _, _, _. split; [reflexivity|].
  rewrite !List.filter_app.
  assert (List.filter is_dispatch e1 = []) as ->.
  { clear -F1. induction F1 as [|x l Hx _ IH]; simpl; [reflexivity|]. rewrite Hx. exact IH. }
  split; [reflexivity|]. unfold request_of, scanned_file. simpl.
  repeat split.
Qed.

(** ** Edits and loss of focus *)

(** X24: in a ready extension an edit of a document that is not the
    focused one, or not of a supported type, changes nothing; every
    other edit, with or without a newline, empties the diagnostics of
    the focused document and shows the ready state at once, and cancels
    no scan: the token of a scan in flight stays live until the scan
    command runs. *)
Theorem edit_clears_diagnostics_at_once (h : Host) (s : State)
    (changeEvent : TextDocumentChangeEvent) :
  extensionReady s = true ->
  forall s' e,
    exec (handle h (DidChangeTextDocument changeEvent)) s = (s', e) ->
    if notActiveOrUnsupported h (activeTextEditor s) (change_document changeEvent)
    then s' = s /\ e = []
    else tokenSource s' = tokenSource s
         /\ cancelledTokens s' = cancelledTokens s
         /\ scans s' = scans s
         /\ pendingScan s' = pendingScan s
         /\ Forall (fun x => is_dispatch x = false) e
         /\ forall editor, activeTextEditor s = Some editor ->
              diagnostics s' !! doc_uri (editor_document editor) = Some []
              /\ statusBar s' = StatusReady (currentVersion s)
              /\ exists rest,
                   e = SetStatusBarItem (StatusReady (currentVersion s))
                       :: SetDiagnostics (doc_uri (editor_document editor)) []
                       :: rest.
Proof.
  intros R s' e.
  run_with ltac:(rewrite ?R in *; simpl_state).
  all: intros [= <- <-]; simpl_state.
  all: try (split; reflexivity).
  all: repeat (split; [first [reflexivity|repeat constructor]|]).
  all: simplify_eq.
  all: first [apply lookup_insert_eq|eexists; reflexivity].
Qed.

(** X25: when the last editor loses the focus in a ready extension, the
    scan command runs without an editor: the current token is cancelled,
    and nothing is queued, cleared or dispatched. *)
Theorem focus_lost_cancels_without_scan (h : Host) (s : State) :
  extensionReady s = true ->
  forall s' e,
    exec (handle h (DidChangeActiveTextEditor None)) s = (s', e) ->
    tokenSource s' = S (tokenSource s)
    /\ tokenSource s ∈ cancelledTokens s'
    /\ pendingScan s' = pendingScan s
    /\ scans s' = scans s
    /\ diagnostics s' = diagnostics s
    /\ diagnostics_targets e = []
    /\ Forall (fun x => is_work x = false) e.
Proof.
  intros R s' e.
  run_with ltac:(rewrite ?R in *; simpl_state).
  all: intros [= <- <-]; simpl_state.
  all: split; [reflexivity|]; split; [apply reset_cancels; auto|].
  all: repeat (split; [reflexivity|]); repeat constructor.
Qed.

(** ** The configured version *)

(** A digit or a dot: what a version without prerelease tags is printed
    with. *)
Lemma plain_char_fixed c :
  (Semver.is_digit c || Ascii.eqb c ".")%bool = true ->
  is_white_space c = false /\ lower_char c = c.
Proof. destruct c as [[] [] [] [] [] [] [] []]; vm_compute; intros; split; congruence. Qed.

Lemma all_chars_app p (a b : string) :
  all_chars p (a ++ b)%string = (all_chars p a && all_chars p b)%bool.
Proof.
  induction a as [|c r IH]; [reflexivity|].
  change (all_chars p (String c (r ++ b)%string)
          = (all_chars p (String c r) && all_chars p b)%bool).
  simpl. rewrite IH, andb_assoc. reflexivity.
Qed.

Lemma all_chars_impl (p q : ascii -> bool) s :
  (forall c, p c = true -> q c = true) -> all_chars p s = true -> all_chars q s = true.
Proof.
  intros I. induction s as [|c r IH]; simpl; [reflexivity|].
  intros H. apply andb_prop in H as [Hc Hr]. rewrite (I _ Hc), IH by assumption.
  reflexivity.
Qed.

Lemma number_to_string_digits n :
  all_chars Semver.is_digit (Semver.number_to_string n) = true.
Proof.
  unfold Semver.number_to_string. generalize (N.to_uint n) as d.
  induction d; simpl; auto.
Qed.

Lemma trim_no_white_space s :
  all_chars (fun c => negb (is_white_space c)) s = true -> trim s = s.
Proof.
  intros H. unfold trim.
  assert (trimStart s = s) as ->.
  { destruct s as [|c r]; [reflexivity|]. simpl in *.
    apply andb_prop in H as [Hc _]. apply negb_true_iff in Hc. rewrite Hc. reflexivity. }
  induction s as [|c r IH]; [reflexivity|]. simpl in *.
  apply andb_prop in H as [Hc Hr]. apply negb_true_iff in Hc.
  rewrite (IH Hr), Hc. destruct r; reflexivity.
Qed.

Lemma toLowerCase_fixed s :
  all_chars (fun c => Ascii.eqb (lower_char c) c) s = true -> toLowerCase s = s.
Proof.
  induction s as [|c r IH]; simpl; [reflexivity|].
  intros H. apply andb_prop in H as [Hc Hr]. apply Ascii.eqb_eq in Hc.
  rewrite Hc, (IH Hr). reflexivity.
Qed.

(** A version without prerelease tags is printed with digits and dots,
    so [trim] and [toLowerCase] leave it alone. *)
Lemma format_plain v :
  Semver.prerelease v = [] ->
  toLowerCase (trim (Semver.format v)) = Semver.format v.
Proof.
  intros Hp.
  assert (all_chars (fun c => (Semver.is_digit c || Ascii.eqb c ".")%bool)
            (Semver.format v) = true) as H.
  { unfold Semver.format. rewrite Hp, !all_chars_app.
    rewrite !(all_chars_impl Semver.is_digit _ _ (fun c H => orb_true_intro _ _ (or_introl H))
                (number_to_string_digits _)).
    reflexivity. }
  rewrite trim_no_white_space, toLowerCase_fixed; [reflexivity| |].
  - revert H. apply all_chars_impl. intros c Hc.
    apply Ascii.eqb_eq, (plain_char_fixed c Hc).
  - revert H. apply all_chars_impl. intros c Hc.
    apply negb_true_iff, (plain_char_fixed c Hc).
Qed.

(** The range test against [minCheckovVersion], on the parsed version. *)
Lemma satisfies_minimum s v :
  Semver.parse s = Some v ->
  Semver.satisfies_gte s minCheckovVersion = true
  <-> (2 <= Semver.major v)%N /\ Semver.prerelease v = [].
Proof.
  intros P. unfold Semver.satisfies_gte. rewrite P.
  assert (Semver.parse minCheckovVersion = Some (Semver.mkSemVer 2 0 0 [] [])) as ->
    by (vm_compute; reflexivity).
  unfold Semver.compare, Semver.compareMain, Semver.comparePre, Semver.compare_N.
  cbn [Semver.major Semver.minor Semver.patch Semver.prerelease].
  destruct (N.compare_spec (Semver.major v) 2) as [E|E|E].
  - destruct (N.compare_spec (Semver.minor v) 0) as [E1|E1|E1]; [|lia|].
    + destruct (N.compare_spec (Semver.patch v) 0) as [E2|E2|E2]; [|lia|];
        destruct (Semver.prerelease v); split; try tauto; try discriminate;
        intros [_ [=]] || (intros _; split; [lia|reflexivity]).
    + destruct (Semver.prerelease v); split; try tauto; try discriminate;
        intros [_ [=]] || (intros _; split; [lia|reflexivity]).
  - split; [discriminate|]. intros [L _]. lia.
  - destruct (Semver.prerelease v); split; try tauto; try discriminate;
      intros [_ [=]] || (intros _; split; [lia|reflexivity]).
Qed.

Lemma parsed_is_specific s v :
  Semver.parse s = Some v -> (String.eqb s "" || String.eqb s "latest")%bool = false.
Proof.
  intros P. destruct (String.eqb_spec s ""%string) as [->|_]; [discriminate|].
  destruct (String.eqb_spec s "latest"%string) as [->|_]; [|reflexivity].
  vm_compute in P. discriminate.
Qed.

(** Once the setting parses, only the range test is left. *)
Lemma getCheckovVersion_of_parsed c v :
  Semver.parse (normalizedVersion c) = Some v ->
  getCheckovVersion c
  = if Semver.satisfies_gte (normalizedVersion c) minCheckovVersion
    then Ok (Semver.format v)
    else Throw ("Invalid checkov version: " ++ normalizedVersion c
                ++ " (must be >=" ++ minCheckovVersion ++ ")")%string.
Proof.
  intros P. rewrite getCheckovVersion_cases. cbv zeta.
  rewrite (parsed_is_specific _ _ P), P. reflexivity.
Qed.

(** X18: a configured version that [semver] can parse is accepted
    exactly when its major number is 2 or more and it has no prerelease
    tag; the accepted version is returned as printed by [semver],
    the rejected one is named in the error with the minimum. *)
Theorem parsed_version_is_accepted_iff (c : Configuration) (v : Semver.SemVer) :
  Semver.parse (normalizedVersion c) = Some v ->
  ((2 <= Semver.major v)%N /\ Semver.prerelease v = [] ->
     getCheckovVersion c = Ok (Semver.format v))
  /\ (~ ((2 <= Semver.major v)%N /\ Semver.prerelease v = []) ->
        getCheckovVersion c
        = Throw ("Invalid checkov version: " ++ normalizedVersion c
                 ++ " (must be >=2.0.0)")%string).
Proof.
  intros P. rewrite (getCheckovVersion_of_parsed _ _ P).
  pose proof (satisfies_minimum _ _ P) as S.
  destruct (Semver.satisfies_gte (normalizedVersion c) minCheckovVersion); split.
  - reflexivity.
  - intros N. destruct N. apply S. reflexivity.
  - intros A. apply S in A. discriminate.
  - reflexivity.
Qed.

(** X19: what [getCheckovVersion] returns is a setting it accepts and
    returns unchanged: the version handed to the installer and to the
    scanner validates as itself. *)
Theorem getCheckovVersion_result_is_stable (c : Configuration) (r : string) :
  getCheckovVersion c = Ok r ->
  getCheckovVersion (withVersion (Some r) c) = Ok r.
Proof.
  intros H. destruct (getCheckovVersion_ok_inv _ _ H) as [->|(v & P & -> & S)].
  { reflexivity. }
  pose proof (proj1 (satisfies_minimum _ _ P) S) as [Hm Hp].
  assert (normalizedVersion (withVersion (Some (Semver.format v)) c) = Semver.format v) as N
    by (unfold normalizedVersion; simpl; apply format_plain, Hp).
  pose proof (parse_canonical _ _ P) as Pc. rewrite <- N in Pc at 1.
  rewrite (getCheckovVersion_of_parsed _ _ Pc), N.
  rewrite (satisfies_gte_canonical _ _ _ P S). reflexivity.
Qed.
(** ** The further properties on the sample states *)

Lemma readyState_reachable : reachable sampleHost readyState.
Proof. apply reachable_run, reachable_activate. Qed.

Lemma scanningState_reachable : reachable sampleHost scanningState.
Proof. apply reachable_run, readyState_reachable. Qed.

Lemma supersededState_reachable : reachable sampleHost supersededState.
Proof. apply reachable_run, scanningState_reachable. Qed.

Lemma overtakenState_reachable : reachable sampleHost overtakenState.
Proof. apply reachable_run, reachable_run, reachable_activate. Qed.

Lemma cancelled_tokens_are_the_older_ones_witness :
  reachable sampleHost scanningState
  /\ (1 ∈ cancelledTokens scanningState <-> 1 < tokenSource scanningState).
Proof.
  split; [exact scanningState_reachable|].
  apply (cancelled_tokens_are_the_older_ones sampleHost scanningState 1
           scanningState_reachable).
Defined.

Lemma at_most_one_live_scan_witness :
  reachable sampleHost supersededState
  /\ job_cancelToken sampleJob ∈ cancelledTokens supersededState.
Proof.
  split; [exact supersededState_reachable|].
  assert (pendingScan supersededState = Some (supersedingArgs, 2100)) as HP
    by (vm_compute; reflexivity).
  assert (arg_cancelToken supersedingArgs ∉ cancelledTokens supersededState) as HN
    by (intros H; vm_compute in H; discriminate).
  assert (scans supersededState !! 3 = Some sampleJob) as HS by (vm_compute; reflexivity).
  destruct (at_most_one_live_scan sampleHost supersededState supersededState_reachable)
    as [_ H].
  exact (H supersedingArgs 2100 3 sampleJob HP HN HS).
Defined.

Lemma ready_extension_is_installed_witness :
  extensionReady readyState = true
  /\ exists ref inst,
       checkovInstallation readyState = Some ref
       /\ installations readyState !! ref = Some inst.
Proof.
  assert (extensionReady readyState = true) as HR by (vm_compute; reflexivity).
  split; [exact HR|].
  exact (ready_extension_is_installed sampleHost readyState readyState_reachable
           (or_introl HR)).
Defined.

Lemma install_failure_is_reported_witness :
  install_fails versioningState (VersionCommandSettled 0 None)
  /\ In (LogError installErrorMessage)
        (snd (exec (handle sampleHost (VersionCommandSettled 0 None)) versioningState)).
Proof.
  assert (install_fails versioningState (VersionCommandSettled 0 None)) as HF
    by (exists "latest", 1; vm_compute; reflexivity).
  split; [exact HF|].
  destruct (install_failure_is_reported sampleHost versioningState
              (VersionCommandSettled 0 None) HF _ _ (surjective_pairing _))
    as (_ & H & _).
  exact H.
Defined.

Lemma install_success_enables_scanning_witness :
  installJobs versioningState !! 0 = Some (AwaitVersion "latest" 1)
  /\ installations versioningState !! 1 = Some sampleInstallation
  /\ extensionReady
       (fst (exec (handle sampleHost (VersionCommandSettled 0 (Some "2.3.4")))
               versioningState)) = true
  /\ pendingScan
       (fst (exec (handle sampleHost (VersionCommandSettled 0 (Some "2.3.4")))
               versioningState))
     = Some (mkScanArgs sampleEditor
               (get_or (cfg_token (configuration versioningState)) "")
               (getPathToCert (configuration versioningState))
               (getUseBcIds (configuration versioningState))
               (S (tokenSource versioningState)) "latest"
               (getPrismaUrl (configuration versioningState)) None,
             now versioningState + debounceWait).
Proof.
  assert (installJobs versioningState !! 0 = Some (AwaitVersion "latest" 1)) as HJ
    by (vm_compute; reflexivity).
  assert (installations versioningState !! 1 = Some sampleInstallation) as HI
    by (vm_compute; reflexivity).
  assert (activeTextEditor versioningState = Some sampleEditor) as HA
    by (vm_compute; reflexivity).
  assert (isSupportedFileType sampleHost (doc_fileName (editor_document sampleEditor)) None
          = true) as HS by (vm_compute; reflexivity).
  assert (truthy (cfg_token (configuration versioningState)) = true) as HK
    by (vm_compute; reflexivity).
  assert (getCheckovVersion (configuration versioningState) = Ok "latest") as HV
    by (vm_compute; reflexivity).
  assert (isSupportedFileType sampleHost (doc_fileName (editor_document sampleEditor))
            (Some true) = true) as HT by (vm_compute; reflexivity).
  split; [exact HJ|]. split; [exact HI|].
  destruct (install_success_enables_scanning sampleHost versioningState 0 1 "latest"
              "2.3.4" sampleInstallation HJ HI _ _ (surjective_pairing _))
    as (H1 & _ & _ & _ & H5).
  split; [exact H1|].
  rewrite HA, HS in H5. destruct H5 as (_ & _ & _ & H8).
  exact (H8 "latest" HK HV HT).
Defined.

Lemma install_command_keeps_pending_scan_witness :
  pendingScan requestedState = Some (requestedArgs, 1800)
  /\ exists job,
       In (RunCheckovScan job (request_of sampleHost readyInstallation requestedArgs))
          (snd (exec (advance sampleHost 300)
                  (fst (exec (handle sampleHost CmdInstallOrUpdateCheckov)
                          requestedState)))).
Proof.
  assert (pendingScan requestedState = Some (requestedArgs, 1800)) as HP
    by (vm_compute; reflexivity).
  assert (1800 <= now requestedState + 300) as HD by (vm_compute; lia).
  assert (checkovInstallation requestedState = Some 1) as HC by (vm_compute; reflexivity).
  assert (installations requestedState !! 1 = Some readyInstallation) as HI
    by (vm_compute; reflexivity).
  split; [exact HP|].
  destruct (install_command_keeps_pending_scan sampleHost requestedState requestedArgs
              1800 300 1 readyInstallation HP HD HC HI _ _ _ _
              (surjective_pairing _) (surjective_pairing _))
    as (_ & _ & _ & _ & _ & _ & H).
  exact H.
Defined.

Lemma remove_diagnostics_clears_focused_document_witness :
  scans (fst (exec removeDiagnosticsCommand scanningState)) = scans scanningState
  /\ tokenSource (fst (exec removeDiagnosticsCommand scanningState))
     = tokenSource scanningState.
Proof.
  destruct (remove_diagnostics_clears_focused_document scanningState _ _
              (surjective_pairing _))
    as (H1 & _ & _ & H2 & _).
  split; assumption.
Defined.

Lemma focus_on_unsupported_file_cancels_witness :
  (extensionReady requestedState = true
   /\ isSupportedFileType sampleHost (doc_fileName (editor_document otherEditor)) None
      = false)
  /\ tokenSource requestedState
     ∈ cancelledTokens
         (fst (exec (handle sampleHost (DidChangeActiveTextEditor (Some otherEditor)))
                 requestedState))
  /\ pendingScan
       (fst (exec (handle sampleHost (DidChangeActiveTextEditor (Some otherEditor)))
               requestedState))
     = pendingScan requestedState.
Proof.
  assert (extensionReady requestedState = true) as HR by (vm_compute; reflexivity).
  assert (isSupportedFileType sampleHost (doc_fileName (editor_document otherEditor)) None
          = false) as HU by (vm_compute; reflexivity).
  split; [split; assumption|].
  destruct (focus_on_unsupported_file_cancels sampleHost requestedState otherEditor HR HU
              _ _ (surjective_pairing _))
    as (_ & H1 & H2 & _).
  split; assumption.
Defined.

Lemma save_of_other_document_only_resets_status_witness :
  notActiveOrUnsupported sampleHost (activeTextEditor readyState)
    (editor_document otherEditor) = true
  /\ snd (exec (handle sampleHost (DidSaveTextDocument (editor_document otherEditor)))
            readyState)
     = [SetStatusBarItem (StatusReady (currentVersion readyState))].
Proof.
  assert (extensionReady readyState = true) as HR by (vm_compute; reflexivity).
  assert (notActiveOrUnsupported sampleHost (activeTextEditor readyState)
            (editor_document otherEditor) = true) as HU by (vm_compute; reflexivity).
  split; [exact HU|].
  rewrite (save_of_other_document_only_resets_status sampleHost readyState
             (editor_document otherEditor) HR HU).
  reflexivity.
Defined.

Lemma editor_events_are_dropped_when_not_ready_witness :
  extensionReady installingState = false
  /\ exec (handle sampleHost (DidSaveTextDocument sampleDocument)) installingState
     = (installingState, []).
Proof.
  assert (extensionReady installingState = false) as HR by (vm_compute; reflexivity).
  assert (is_editor_event (DidSaveTextDocument sampleDocument) = true) as HE
    by reflexivity.
  split; [exact HR|].
  exact (editor_events_are_dropped_when_not_ready sampleHost installingState
           (DidSaveTextDocument sampleDocument) HR HE).
Defined.

Lemma failed_write_requests_no_scan_witness :
  pendingWrites editingState = [("a" ++ newline)%string]
  /\ snd (exec (handle sampleHost (WriteFileSettled false)) editingState)
     = [LogError "Error occurred trying to save temp file"].
Proof.
  assert (pendingWrites editingState = [("a" ++ newline)%string]) as HW
    by (vm_compute; reflexivity).
  split; [exact HW|].
  rewrite (failed_write_requests_no_scan sampleHost editingState _ _ HW).
  reflexivity.
Defined.

Lemma scan_command_with_invalid_version_witness :
  getCheckovVersion (configuration misconfiguredState)
  = Throw "Invalid checkov version: 1.9.9 (must be >=2.0.0)"
  /\ diagnostics (fst (exec (runFileScanCommand sampleHost None) misconfiguredState))
     = diagnostics misconfiguredState
  /\ tokenSource misconfiguredState
     ∈ cancelledTokens (fst (exec (runFileScanCommand sampleHost None) misconfiguredState)).
Proof.
  assert (extensionReady misconfiguredState = true) as HR by (vm_compute; reflexivity).
  assert (getCheckovVersion (configuration misconfiguredState)
          = Throw "Invalid checkov version: 1.9.9 (must be >=2.0.0)") as HV
    by (vm_compute; reflexivity).
  split; [exact HV|].
  destruct (scan_command_with_invalid_version sampleHost misconfiguredState None _ HR HV
              _ _ (surjective_pairing _))
    as (_ & _ & H1 & H2 & _).
  split; assumption.
Defined.

Lemma scan_command_clears_diagnostics_first_witness :
  activeTextEditor scanningState = Some sampleEditor
  /\ diagnostics (fst (exec (runFileScanCommand sampleHost None) scanningState))
       !! doc_uri sampleDocument = Some [].
Proof.
  assert (extensionReady scanningState = true) as HR by (vm_compute; reflexivity).
  assert (getCheckovVersion (configuration scanningState) = Ok "latest") as HV
    by (vm_compute; reflexivity).
  assert (activeTextEditor scanningState = Some sampleEditor) as HA
    by (vm_compute; reflexivity).
  split; [exact HA|].
  destruct (scan_command_clears_diagnostics_first sampleHost scanningState None
              sampleEditor "latest" HR HV HA _ _ (surjective_pairing _))
    as (H & _).
  exact H.
Defined.

Lemma failed_scan_is_reported_once_witness :
  (job_cancelToken sampleJob ∉ cancelledTokens scanningState)
  /\ snd (runScan_resume sampleJob (Rejected "exit code 2") scanningState)
     = [SetStatusBarItem (StatusError (Some "2.3.4")); LogError scanErrorMessage;
        ShowContactUsDetails].
Proof.
  assert (job_cancelToken sampleJob ∉ cancelledTokens scanningState) as HN
    by (intros H; vm_compute in H; discriminate).
  split; [exact HN|].
  rewrite (failed_scan_is_reported_once scanningState sampleJob "exit code 2" HN).
  vm_compute. reflexivity.
Defined.

Lemma scan_result_goes_to_requesting_document_witness :
  activeTextEditor divertedState = Some otherEditor
  /\ diagnostics_targets
       (snd (exec (runScan_resume sampleJob (Resolved sampleFindings)) divertedState))
     = [doc_uri sampleDocument].
Proof.
  split; [vm_compute; reflexivity|].
  destruct (scan_result_goes_to_requesting_document divertedState sampleJob
              sampleFindings _ _ (surjective_pairing _))
    as (H & _).
  exact H.
Defined.

Lemma overtaken_install_leaves_version_unknown_witness :
  reachable sampleHost overtakenState
  /\ extensionReady
       (fst (exec (handle sampleHost (VersionCommandSettled 0 (Some "2.3.4")))
               overtakenState)) = true
  /\ snd (exec (handle sampleHost CmdGetInstallationDetails)
            (fst (exec (handle sampleHost (VersionCommandSettled 0 (Some "2.3.4")))
                    overtakenState)))
     = [ShowWarningMessage notInstalledWarning].
Proof.
  split; [exact overtakenState_reachable|].
  assert (installJobs overtakenState !! 0 = Some (AwaitVersion "latest" 1)) as HJ
    by (vm_compute; reflexivity).
  assert (checkovInstallation overtakenState = Some 3) as HC by (vm_compute; reflexivity).
  assert (3 <> 1) as HN by lia.
  assert (installations overtakenState !! 3 = Some sampleInstallation) as HI
    by (vm_compute; reflexivity).
  destruct (overtaken_install_leaves_version_unknown sampleHost overtakenState 0 1 3
              "latest" "2.3.4" sampleInstallation HJ HC HN HI eq_refl _ _ _ _
              (surjective_pairing _) (surjective_pairing _))
    as (H1 & _ & _ & H2).
  split; assumption.
Defined.

Lemma focus_away_keeps_debounced_scan_witness :
  (pendingScan requestedState = Some (requestedArgs, 1800)
   /\ arg_cancelToken requestedArgs = tokenSource requestedState)
  /\ exists job,
       In (RunCheckovScan job (request_of sampleHost readyInstallation requestedArgs))
          (snd (exec (advance sampleHost 300)
                  (fst (exec (handle sampleHost
                                (DidChangeActiveTextEditor (Some otherEditor)))
                          requestedState))))
       /\ arg_cancelToken requestedArgs
          ∈ cancelledTokens
              (fst (exec (advance sampleHost 300)
                      (fst (exec (handle sampleHost
                                    (DidChangeActiveTextEditor (Some otherEditor)))
                              requestedState)))).
Proof.
  assert (extensionReady requestedState = true) as HR by (vm_compute; reflexivity).
  assert (isSupportedFileType sampleHost (doc_fileName (editor_document otherEditor)) None
          = false) as HU by (vm_compute; reflexivity).
  assert (pendingScan requestedState = Some (requestedArgs, 1800)) as HP
    by (vm_compute; reflexivity).
  assert (1800 <= now requestedState + 300) as HD by (vm_compute; lia).
  assert (arg_cancelToken requestedArgs = tokenSource requestedState) as HT
    by (vm_compute; reflexivity).
  assert (checkovInstallation requestedState = Some 1) as HC by (vm_compute; reflexivity).
  assert (installations requestedState !! 1 = Some readyInstallation) as HI
    by (vm_compute; reflexivity).
  split; [split; assumption|].
  destruct (focus_away_keeps_debounced_scan sampleHost requestedState otherEditor
              requestedArgs 1800 300 1 readyInstallation HR HU HP HD HT HC HI _ _ _ _
              (surjective_pairing _) (surjective_pairing _))
    as (_ & job & H1 & _ & H2).
  exists job. split; assumption.
Defined.

Lemma ui_commands_change_nothing_witness :
  exists x,
    exec (handle sampleHost CmdGetInstallationDetails) readyState = (readyState, [x])
    /\ is_work x = false /\ is_display x = false.
Proof.
  exact (ui_commands_change_nothing sampleHost readyState CmdGetInstallationDetails
           eq_refl).
Defined.

Lemma parsed_version_is_accepted_iff_witness :
  let c := withVersion (Some "3.0.0-rc1") sampleConfiguration in
  Semver.parse (normalizedVersion c)
  = Some (Semver.mkSemVer 3 0 0 [Semver.IdStr "rc1"] [])
  /\ getCheckovVersion c
     = Throw ("Invalid checkov version: " ++ normalizedVersion c
              ++ " (must be >=2.0.0)")%string.
Proof.
  cbv zeta.
  assert (Semver.parse (normalizedVersion (withVersion (Some "3.0.0-rc1") sampleConfiguration))
          = Some (Semver.mkSemVer 3 0 0 [Semver.IdStr "rc1"] [])) as HP
    by (vm_compute; reflexivity).
  split; [exact HP|].
  destruct (parsed_version_is_accepted_iff _ _ HP) as [_ H].
  apply H. intros [_ HN]. discriminate HN.
Defined.

Lemma getCheckovVersion_result_is_stable_witness :
  getCheckovVersion (withVersion (Some " V2.3.4+build.7 ") sampleConfiguration) = Ok "2.3.4"
  /\ getCheckovVersion
       (withVersion (Some "2.3.4")
          (withVersion (Some " V2.3.4+build.7 ") sampleConfiguration)) = Ok "2.3.4".
Proof.
  assert (getCheckovVersion (withVersion (Some " V2.3.4+build.7 ") sampleConfiguration)
          = Ok "2.3.4") as H by (vm_compute; reflexivity).
  split; [exact H|].
  exact (getCheckovVersion_result_is_stable _ _ H).
Defined.

Lemma assureTokenSet_returns_the_setting_witness :
  fst (fst (assureTokenSet sampleHost readyState)) = cfg_token (configuration readyState)
  /\ (snd (assureTokenSet sampleHost readyState) = [] ->
      snd (fst (assureTokenSet sampleHost readyState)) = readyState)
  /\ snd (assureTokenSet sampleHost
            (set_configuration (withToken None sampleConfiguration) readyState))
     = [LogError tokenMissingLog; ShowErrorMessage tokenMissingMessage;
        SetStatusBarItem (StatusMissingConfiguration (Some "2.3.4"))].
Proof.
  destruct (assureTokenSet sampleHost readyState) as [[r s'] e] eqn:E.
  destruct (assureTokenSet_returns_the_setting sampleHost readyState r s' e E)
    as (H1 & _ & H2 & _).
  split; [exact H1|]. split; [exact H2|].
  assert (truthy (cfg_token
                    (configuration
                       (set_configuration (withToken None sampleConfiguration) readyState)))
          = false) as HK by (vm_compute; reflexivity).
  assert (currentVersion
            (set_configuration (withToken None sampleConfiguration) readyState)
          = Some "2.3.4") as HC by (vm_compute; reflexivity).
  destruct (assureTokenSet sampleHost
              (set_configuration (withToken None sampleConfiguration) readyState))
    as [[r0 s0] e0] eqn:E0.
  destruct (assureTokenSet_returns_the_setting sampleHost _ r0 s0 e0 E0)
    as (_ & H3 & _ & H4).
  assert (e0 <> []) as HN.
  { intros He. apply H3 in He as [He _]. rewrite HK in He. discriminate. }
  destruct (H4 HN) as (_ & logged & shown & -> & Hm).
  rewrite HK in Hm. destruct Hm as [-> ->]. rewrite HC. reflexivity.
Defined.

Lemma scan_uses_settings_of_its_request_witness :
  (Accepting readyState sampleEditor /\ pendingScan readyState = None)
  /\ exists s' e job request,
       run sampleHost readyState
         [(0, CmdRunFileScan None);
          (0, ConfigurationChanged (withToken None sampleConfiguration));
          (300, Tick)] = (s', e)
       /\ List.filter is_dispatch e = [RunCheckovScan job request]
       /\ req_token request = get_or (cfg_token (configuration readyState)) ""
       /\ configuration s' = withToken None sampleConfiguration.
Proof.
  assert (getCheckovVersion (configuration readyState) = Ok "latest") as HV
    by (vm_compute; reflexivity).
  assert (pendingScan readyState = None) as HP by (vm_compute; reflexivity).
  assert (@None string = None ->
          isSupportedFileType sampleHost (doc_fileName (editor_document sampleEditor))
            (Some true) = true) as HS by (intros _; vm_compute; reflexivity).
  assert (debounceWait <= 300) as HD by (unfold debounceWait; lia).
  split; [split; [exact readyState_accepting|exact HP]|].
  destruct (scan_uses_settings_of_its_request sampleHost readyState sampleEditor None
              "latest" (withToken None sampleConfiguration) 300 readyState_accepting
              HV HP HS HD)
    as (s' & e & job & request & H1 & H2 & H3 & _ & _ & _ & _ & _ & _ & H4).
  exists s', e, job, request. auto.
Defined.

Lemma edit_clears_diagnostics_at_once_witness :
  extensionReady scanningState = true
  /\ tokenSource
       (fst (exec (handle sampleHost (DidChangeTextDocument (sampleChange "ab" ["b"])))
               scanningState))
     = tokenSource scanningState
  /\ diagnostics
       (fst (exec (handle sampleHost (DidChangeTextDocument (sampleChange "ab" ["b"])))
               scanningState)) !! doc_uri sampleDocument
     = Some [].
Proof.
  assert (extensionReady scanningState = true) as HR by (vm_compute; reflexivity).
  assert (notActiveOrUnsupported sampleHost (activeTextEditor scanningState)
            (change_document (sampleChange "ab" ["b"])) = false) as HU
    by (vm_compute; reflexivity).
  assert (activeTextEditor scanningState = Some sampleEditor) as HA
    by (vm_compute; reflexivity).
  split; [exact HR|].
  pose proof (edit_clears_diagnostics_at_once sampleHost scanningState
                (sampleChange "ab" ["b"]) HR _ _ (surjective_pairing _)) as H.
  rewrite HU in H. destruct H as (H1 & _ & _ & _ & _ & H2).
  split; [exact H1|]. destruct (H2 sampleEditor HA) as (H3 & _). exact H3.
Defined.

Lemma focus_lost_cancels_without_scan_witness :
  extensionReady scanningState = true
  /\ tokenSource scanningState
     ∈ cancelledTokens
         (fst (exec (handle sampleHost (DidChangeActiveTextEditor None)) scanningState)).
Proof.
  assert (extensionReady scanningState = true) as HR by (vm_compute; reflexivity).
  split; [exact HR|].
  destruct (focus_lost_cancels_without_scan sampleHost scanningState HR _ _
              (surjective_pairing _))
    as (_ & H & _).
  exact H.
Defined.
